(** * stripe-reporter: the report-assembly pipeline

    A shallow embedding of [stripe-reporter.py].  Python integers are [Z],
    strings are [string] (one [ascii] for each character), [None]-able
    values are [option], the provider's response objects are records,
    raised exceptions are the [Raise] branch of [result].  The payment
    provider, the completion order of the worker pool, [repr], the file
    system and what [main] runs after its credential check are Section
    variables; [datetime], true division and the cells of openpyxl are
    modelled as far as the code uses them. *)

From Stdlib Require Import ZArith QArith Ascii.
From stdpp Require Import base option list strings pretty gmap fin_maps.

Set Warnings "-register-all".

Local Open Scope string_scope.
Local Open Scope Z_scope.

(** ** Exceptions *)

Inductive exn : Type :=
  | AttributeError
  | ValueError (msg : string)
  | IndexError
  | KeyError
  | TypeError
  | OverflowError
  | OSError
  | IllegalCharacterError
  | UpstreamError (msg : string).

Inductive result (A : Type) : Type :=
  | Ok (a : A)
  | Raise (e : exn).
Arguments Ok {A} a.
Arguments Raise {A} e.

#[global] Instance result_ret : MRet result := λ A a, Ok a.
#[global] Instance result_bind : MBind result := λ A B f m,
  match m with
  | Ok a => f a
  | Raise e => Raise e
  end.

Definition is_ok {A} (r : result A) : Prop := ∃ a, r = Ok a.
Definition raises {A} (r : result A) : Prop := ∃ e, r = Raise e.

(** ** Provider objects *)

(** [transaction.source.payment_intent]: the attribute can be missing from
    the source object, present and [None], or the expanded intent. *)
Record PaymentIntent : Type := { pi_id : string }.

Inductive attribute (A : Type) : Type :=
  | Missing
  | Present (v : option A).
Arguments Missing {A}.
Arguments Present {A} v.

Record Source : Type := { payment_intent : attribute PaymentIntent }.

Record BalanceTransaction : Type := {
  id : string;
  created : Z;
  amount : Z;
  currency : string;
  fee : Z;
  net : Z;
  type : string;
  source : Source
}.

Record Customer : Type := { name : option string; email : option string }.

Record LineItem : Type := { description : option string }.

(** [charge.line_items.data] is the list; [charge.customer_details] the
    customer record, or [None] when the session collected no details. *)
Record Session : Type := {
  line_items : list LineItem;
  customer_details : option Customer
}.

Record IntentData : Type := { product : option string; customer : option Customer }.

(** Product name replacement string if the intent is a direct payment. *)
Definition DIRECT_CHARGE : string := "SudoSOS Topup".

(** ** Python attribute access *)

Definition hasattr {A} (a : attribute A) : bool :=
  match a with
  | Missing => false
  | Present _ => true
  end.

(** [source.payment_intent.id]: fails on a missing attribute and on [None]. *)
Definition payment_intent_id (s : Source) : result string :=
  match payment_intent s with
  | Missing => Raise AttributeError
  | Present None => Raise AttributeError
  | Present (Some p) => Ok (pi_id p)
  end.

(** [value[key]] for a key the record has: fails when [value] is [None]. *)
Definition subscriptable {A} (value : option A) : result A :=
  match value with
  | Some a => Ok a
  | None => Raise TypeError
  end.

(** A [for] loop whose body can raise: the first exception ends the loop. *)
Fixpoint for_each {A B} (f : A → result B) (l : list A) : result (list B) :=
  match l with
  | [] => Ok []
  | x :: l' => y ← f x; ys ← for_each f l'; Ok (y :: ys)
  end.

(** ** Transaction Fetcher and Purchase Resolver *)

Section Provider.

(** [stripe.BalanceTransaction.auto_paging_iter(payout=...)], read to its
    end, and [stripe.checkout.Session.list(payment_intent=...)]. *)
Variable list_payout_transactions : string → result (list BalanceTransaction).
Variable list_checkout_sessions : string → result (list Session).

Definition is_payout (t : BalanceTransaction) : bool :=
  String.eqb (type t) "payout".

Definition get_payout_transactions (balance_payout_id : string)
    : result (list BalanceTransaction) :=
  transactions ← list_payout_transactions balance_payout_id;
  Ok (List.filter (λ transaction, negb (is_payout transaction)) transactions).

Definition get_payment_intents_ids (transactions_data : list BalanceTransaction)
    : result (list string) :=
  for_each (λ transaction, payment_intent_id (source transaction))
    (List.filter (λ transaction, hasattr (payment_intent (source transaction)))
       transactions_data).

(** [len(charges) > 1] raises, [len(charges) == 0] is a direct charge, and
    otherwise the loop returns at its first (and only) session. *)
Definition get_intent_data (intent_id : string) : result (string * IntentData) :=
  charges ← list_checkout_sessions intent_id;
  match charges with
  | _ :: _ :: _ => Raise (ValueError "Intent has more than 1 session.")
  | [] =>
      Ok (intent_id, {| product := Some DIRECT_CHARGE;
                        customer := Some {| name := None; email := None |} |})
  | [charge] =>
      match line_items charge with
      | item :: _ =>
          Ok (intent_id, {| product := description item;
                            customer := customer_details charge |})
      | [] => Raise IndexError
      end
  end.

(** The futures are consumed in completion order; each [future.result()]
    re-raises what its lookup raised, before anything is returned. *)
Fixpoint collect_results (completed : list string) (d : gmap string IntentData)
    : result (gmap string IntentData) :=
  match completed with
  | [] => Ok d
  | future :: rest =>
      '(intent_id, intent_data) ← get_intent_data future;
      collect_results rest (<[intent_id := intent_data]> d)
  end.

(** [as_completed] yields the submitted futures in some order. *)
Variable as_completed : list string → list string.

Definition make_intent_charge_dict (payment_intents_ids : list string)
    : result (gmap string IntentData) :=
  collect_results (as_completed payment_intents_ids) ∅.

End Provider.

(** ** Dictionaries

    A Python [dict] keeps its keys in insertion order; assigning to a key
    that is present replaces the value where it stands. *)

Section Dict.
Context {K V : Type} `{EqDecision K}.

Fixpoint dict_get (k : K) (d : list (K * V)) : option V :=
  match d with
  | [] => None
  | (k', v) :: d' => if decide (k' = k) then Some v else dict_get k d'
  end.

Fixpoint dict_set (k : K) (v : V) (d : list (K * V)) : list (K * V) :=
  match d with
  | [] => [(k, v)]
  | (k', v') :: d' =>
      if decide (k' = k) then (k, v) :: d' else (k', v') :: dict_set k v d'
  end.

Definition dict_keys (d : list (K * V)) : list K := d.*1.
Definition dict_values (d : list (K * V)) : list V := d.*2.

(** [dict(pairs)]: later pairs overwrite earlier ones. *)
Definition dict_of_pairs (pairs : list (K * V)) : list (K * V) :=
  foldl (λ d kv, dict_set kv.1 kv.2 d) [] pairs.
End Dict.

(** ** Report Assembler *)

(** The dict built for each transaction by [simplify_report_data]. *)
Record ReportTransaction : Type := {
  s_id : string;
  s_created : Z;
  s_amount : Z;
  s_currency : string;
  s_fee : Z;
  s_net : Z;
  s_product : option string;
  s_name : option string;
  s_email : option string
}.

Definition unmatched : IntentData :=
  {| product := None; customer := Some {| name := None; email := None |} |}.

Definition simplify_transaction (intent_type_charge_dict : gmap string IntentData)
    (transaction : BalanceTransaction) : result ReportTransaction :=
  payment_intent ← payment_intent_id (source transaction);
  let intent_data := default unmatched (intent_type_charge_dict !! payment_intent) in
  customer ← subscriptable (customer intent_data);
  Ok {| s_id := id transaction;
        s_created := created transaction;
        s_amount := amount transaction;
        s_currency := currency transaction;
        s_fee := fee transaction;
        s_net := net transaction;
        s_product := product intent_data;
        s_name := name customer;
        s_email := email customer |}.

Definition simplify_report_data (transactions_data : list BalanceTransaction)
    (intent_type_charge_dict : gmap string IntentData)
    : result (list ReportTransaction) :=
  for_each (simplify_transaction intent_type_charge_dict) transactions_data.

(** ** Aggregator *)

Record Bucket : Type := {
  b_amount : Z;
  b_fee : Z;
  b_net : Z;
  b_product : option string
}.

#[global] Instance Bucket_eq_dec : EqDecision Bucket.
Proof. solve_decision. Defined.

Definition aggregate_step (aggregated_data : list (option string * Bucket))
    (transaction : ReportTransaction) : list (option string * Bucket) :=
  let product := s_product transaction in
  let amount := s_amount transaction in
  let fee := s_fee transaction in
  let net := s_net transaction in
  match dict_get product aggregated_data with
  | None =>
      dict_set product
        {| b_amount := amount; b_fee := fee; b_net := net; b_product := product |}
        aggregated_data
  | Some bucket =>
      dict_set product
        {| b_amount := b_amount bucket + amount;
           b_fee := b_fee bucket + fee;
           b_net := b_net bucket + net;
           b_product := b_product bucket |}
        aggregated_data
  end.

Definition aggregate_report_transactions (report_transactions : list ReportTransaction)
    : list (option string * Bucket) :=
  foldl aggregate_step [] report_transactions.

(** Sum of an integer field over a list. *)
Definition total {A} (f : A → Z) (l : list A) : Z :=
  foldr (λ x acc, f x + acc) 0 l.

(** ** The report *)

Record Report : Type := {
  balance_payout_id : string;
  transactions : list ReportTransaction;
  aggregation : list (option string * Bucket)
}.

Section GetReportData.
Variable list_payout_transactions : string → result (list BalanceTransaction).
Variable list_checkout_sessions : string → result (list Session).
Variable as_completed : list string → list string.

Definition get_report_data (payout : string) : result Report :=
  transactions_data ← get_payout_transactions list_payout_transactions payout;
  payment_intents_ids ← get_payment_intents_ids transactions_data;
  intent_type_charge_dict ←
    make_intent_charge_dict list_checkout_sessions as_completed payment_intents_ids;
  report_transactions ← simplify_report_data transactions_data intent_type_charge_dict;
  let aggregation := aggregate_report_transactions report_transactions in
  Ok {| balance_payout_id := payout;
        transactions := report_transactions;
        aggregation := aggregation |}.
End GetReportData.

(** ** Python values and the JSON dump

    [json.dumps] turns every dictionary key into a string ([None] becomes
    ["null"]) and writes the members in insertion order; [json.load] builds
    each object with [dict(pairs)].  The text layer between the two
    (escapes, indentation, number syntax) is the library's own inverse pair
    and is left out: a document is its tree. *)

Inductive pykey : Type :=
  | KNone
  | KInt (z : Z)
  | KStr (s : string).

#[global] Instance pykey_eq_dec : EqDecision pykey.
Proof. solve_decision. Defined.

Inductive pyval : Type :=
  | PNone
  | PInt (z : Z)
  | PStr (s : string)
  | PList (l : list pyval)
  | PDict (d : list (pykey * pyval)).

Inductive json : Type :=
  | JNull
  | JNumber (z : Z)
  | JString (s : string)
  | JArray (l : list json)
  | JObject (members : list (string * json)).

Definition json_key (k : pykey) : string :=
  match k with
  | KNone => "null"
  | KInt z => pretty z
  | KStr s => s
  end.

Fixpoint json_dumps (v : pyval) : json :=
  match v with
  | PNone => JNull
  | PInt z => JNumber z
  | PStr s => JString s
  | PList l => JArray (List.map json_dumps l)
  | PDict d => JObject (List.map (λ '(k, x), (json_key k, json_dumps x)) d)
  end.

Fixpoint json_load (j : json) : pyval :=
  match j with
  | JNull => PNone
  | JNumber z => PInt z
  | JString s => PStr s
  | JArray l => PList (List.map json_load l)
  | JObject members =>
      PDict (dict_of_pairs (List.map (λ '(k, x), (KStr k, json_load x)) members))
  end.

Definition py_optional (o : option string) : pyval :=
  match o with
  | None => PNone
  | Some s => PStr s
  end.

Definition product_key (o : option string) : pykey :=
  match o with
  | None => KNone
  | Some s => KStr s
  end.

(** The dict literals of [simplify_report_data], of
    [aggregate_report_transactions] and of [get_report_data]. *)
Definition transaction_items (t : ReportTransaction) : list (pykey * pyval) :=
  [ (KStr "id", PStr (s_id t));
    (KStr "created", PInt (s_created t));
    (KStr "amount", PInt (s_amount t));
    (KStr "currency", PStr (s_currency t));
    (KStr "fee", PInt (s_fee t));
    (KStr "net", PInt (s_net t));
    (KStr "product", py_optional (s_product t));
    (KStr "name", py_optional (s_name t));
    (KStr "email", py_optional (s_email t)) ].

Definition bucket_items (b : Bucket) : list (pykey * pyval) :=
  [ (KStr "amount", PInt (b_amount b));
    (KStr "fee", PInt (b_fee b));
    (KStr "net", PInt (b_net b));
    (KStr "product", py_optional (b_product b)) ].

Definition aggregation_items (a : list (option string * Bucket))
    : list (pykey * pyval) :=
  List.map (λ '(k, b), (product_key k, PDict (bucket_items b))) a.

Definition report_value (r : Report) : pyval :=
  PDict
    [ (KStr "balance_payout_id", PStr (balance_payout_id r));
      (KStr "transactions",
        PList (List.map (λ t, PDict (transaction_items t)) (transactions r)));
      (KStr "aggregation", PDict (aggregation_items (aggregation r))) ].

(** Printing the dump and reading it back with
    [read_report_data_from_json]. *)
Definition dump_and_reload (r : Report) : pyval :=
  json_load (json_dumps (report_value r)).

(** The key under which a product group comes back from the dump. *)
Definition reloaded_key (k : option string) : option string :=
  Some (json_key (product_key k)).

Definition reloaded_aggregation (a : list (option string * Bucket))
    : list (option string * Bucket) :=
  List.map (λ kb, (reloaded_key kb.1, kb.2)) a.

(** ** Timestamps

    [datetime.utcfromtimestamp(ts).strftime("%Y-%m-%d %H:%M:%S")] for an
    integer [ts], as CPython computes it on a platform with a 64-bit
    [time_t] and the C library of GNU/Linux: the proleptic Gregorian date
    of day [ts // 86400] counted from 1970-01-01, and the time of day
    [ts % 86400].  A timestamp that does not fit [time_t] raises
    [OverflowError]; one whose year, counted from 1900, does not fit the C
    [int] of [gmtime] raises [OSError]; a year outside 1..9999 is refused
    by [datetime] with [ValueError].  [%Y] writes the year without leading
    zeros. *)

Record datetime : Type := {
  year : Z; month : Z; day : Z; hour : Z; minute : Z; second : Z
}.

(** Day of the 400-year cycle (counted from 1 March) to year of the cycle,
    month and day of the month. *)
Definition civil_of_cycle_day (doe : Z) : Z * Z * Z :=
  let yoe := (doe - doe / 1460 + doe / 36524 - doe / 146096) / 365 in
  let doy := doe - (365 * yoe + yoe / 4 - yoe / 100) in
  let mp := (5 * doy + 2) / 153 in
  let d := doy - (153 * mp + 2) / 5 + 1 in
  let m := if mp <? 10 then mp + 3 else mp - 9 in
  (if m <=? 2 then yoe + 1 else yoe, m, d).

(** A C [int] sum: the value modulo 2^32, between -2^31 and 2^31 - 1. *)
Definition wrap_int (n : Z) : Z := (n + 2147483648) mod 4294967296 - 2147483648.

Definition utcfromtimestamp (ts : Z) : result datetime :=
  if (ts <? -9223372036854775808) || (9223372036854775807 <? ts) then
    Raise OverflowError
  else
    let days := ts / 86400 in
    let secs := ts mod 86400 in
    let z := days + 719468 in
    let era := z / 146097 in
    let '(y, m, d) := civil_of_cycle_day (z mod 146097) in
    let y := y + era * 400 in
    if (y - 1900 <? -2147483648) || (2147483647 <? y - 1900) then Raise OSError
    else if (1 <=? y) && (y <=? 9999) then
      Ok {| year := y; month := m; day := d;
            hour := secs / 3600; minute := secs mod 3600 / 60; second := secs mod 60 |}
    else Raise (ValueError ("year " +:+ pretty (wrap_int y) +:+ " is out of range")).

Definition digit (n : Z) : ascii :=
  ascii_of_nat (48 + Z.to_nat (n mod 10)).

Definition digits2 (n : Z) : string :=
  String (digit (n / 10)) (String (digit n) "").

Definition digits4 (n : Z) : string :=
  String (digit (n / 1000)) (String (digit (n / 100)) (digits2 n)).

(** [strftime("%Y-%m-%d %H:%M:%S")] *)
Definition strftime (t : datetime) : string :=
  pretty (year t) +:+ "-" +:+ digits2 (month t) +:+ "-" +:+ digits2 (day t)
  +:+ " " +:+ digits2 (hour t) +:+ ":" +:+ digits2 (minute t) +:+ ":"
  +:+ digits2 (second t).

(** ** Exporter *)

(** What a cell holds: a value written as it is, or the float that true
    division gives, named by the quotient it is the nearest double to. *)
Inductive cell_value : Type :=
  | Verbatim (v : pyval)
  | Float (q : Q).

(** [data[key]] *)
Definition getitem (data : list (pykey * pyval)) (key : string) : result pyval :=
  match dict_get (KStr key) data with
  | Some v => Ok v
  | None => Raise KeyError
  end.

(** A quotient of integers rounds to a double as long as its magnitude is
    below 2^1024 - 2^970, half-way between the largest double and 2^1024. *)
Definition FLOAT_LIMIT : Z := 2 ^ 1024 - 2 ^ 970.

(** [value / d]: true division of integers is correctly rounded and raises
    when the quotient is too large for a float. *)
Definition true_div (v : pyval) (d : positive) : result cell_value :=
  match v with
  | PInt z =>
      if Z.abs z <? Z.pos d * FLOAT_LIMIT then Ok (Float (z # d))
      else Raise OverflowError
  | _ => Raise TypeError
  end.

Definition format_for_worksheet (data : list (pykey * pyval)) (key : string)
    : result cell_value :=
  formatted ← getitem data key;
  if bool_decide (key ∈ ["amount"; "fee"; "net"]) then
    value ← getitem data key;
    true_div value 100
  else if bool_decide (key = "created") then
    value ← getitem data key;
    match value with
    | PInt ts => t ← utcfromtimestamp ts; Ok (Verbatim (PStr (strftime t)))
    | _ => Raise TypeError
    end
  else Ok (Verbatim formatted).

Fixpoint foldM {A S} (f : S → A → result S) (s : S) (l : list A) : result S :=
  match l with
  | [] => Ok s
  | x :: l' => s' ← f s x; foldM f s' l'
  end.

Definition enumerate {A} (l : list A) : list (nat * A) := imap pair l.

(** [s[:n]] *)
Fixpoint string_take (n : Z) (s : string) : string :=
  match s with
  | EmptyString => EmptyString
  | String c s' => if 0 <? n then String c (string_take (n - 1) s') else EmptyString
  end.

(** The characters openpyxl refuses in a cell: the control characters
    other than tab, line feed and carriage return. *)
Definition illegal_character (c : ascii) : bool :=
  let code := N_of_ascii c in
  ((code <=? 8) || ((11 <=? code) && (code <=? 12))
   || ((14 <=? code) && (code <=? 31)))%N.

(** [Cell.check_string]: the string is cut to 32767 characters, then
    refused if an illegal character is left in it. *)
Definition check_string (value : string) : result string :=
  let value := string_take 32767 value in
  if existsb illegal_character (String.list_ascii_of_string value) then
    Raise IllegalCharacterError
  else Ok value.

Section Exporter.
(** [repr] of a list or a dict. *)
Variable py_repr : pyval → string.

(** What the setter of [cell.value] keeps of a value: numbers and [None]
    as they are, a string as [check_string] returns it; lists and dicts
    are refused. *)
Definition bind_value (value : cell_value) : result cell_value :=
  match value with
  | Verbatim (PStr s) => s ← check_string s; Ok (Verbatim (PStr s))
  | Verbatim (PList _ as v) | Verbatim (PDict _ as v) =>
      Raise (ValueError ("Cannot convert " +:+ py_repr v +:+ " to Excel"))
  | _ => Ok value
  end.

(** [worksheet.cell(row, column).value = value] *)
Definition set_cell (row column : nat) (value : cell_value)
    (worksheet : gmap (nat * nat) cell_value)
    : result (gmap (nat * nat) cell_value) :=
  value ← bind_value value;
  Ok (<[(row, column) := value]> worksheet).

(** The header loops: [worksheet.cell(row, idx + 1, value=header)]. *)
Definition write_headers (row : nat) (headers : list string)
    (worksheet : gmap (nat * nat) cell_value)
    : result (gmap (nat * nat) cell_value) :=
  foldM (λ ws '(idx, header), set_cell row (idx + 1) (Verbatim (PStr header)) ws)
    worksheet (enumerate headers).

(** The inner loops: one formatted cell per key. *)
Definition write_record (row : nat) (data : list (pykey * pyval))
    (keys : list string) (worksheet : gmap (nat * nat) cell_value)
    : result (gmap (nat * nat) cell_value) :=
  foldM (λ ws '(col_idx, key),
           value ← format_for_worksheet data key;
           set_cell row (col_idx + 1) value ws)
    worksheet (enumerate keys).

(** The sheet handed to [workbook.save]. *)
Definition save_to_worksheet (report_data : Report)
    : result (gmap (nat * nat) cell_value) :=
  let headers :=
    ["id"; "created"; "amount"; "currency"; "fee"; "net"; "product"; "name"; "email"] in
  let numeric := ["amount"; "fee"; "net"] in
  let aggregation_headers := (["product"] ++ numeric)%list in
  let aggregation_len := (length (aggregation report_data) + 2)%nat in
  worksheet ← write_headers 1 aggregation_headers ∅;
  worksheet ←
    foldM (λ ws '(row_idx, data),
             match dict_get data (aggregation report_data) with
             | Some bucket =>
                 write_record (row_idx + 2) (bucket_items bucket) aggregation_headers ws
             | None => Raise KeyError
             end)
      worksheet (enumerate (dict_keys (aggregation report_data)));
  worksheet ← write_headers (aggregation_len + 1) headers worksheet;
  foldM (λ ws '(row_idx, data),
           write_record (row_idx + 2 + aggregation_len) (transaction_items data) headers ws)
    worksheet (enumerate (transactions report_data)).
End Exporter.

(** ** Entry point *)

Inductive RemoteCall : Type :=
  | ListPayoutTransactions (payout : string)
  | ListCheckoutSessions (intent : string)
  | ListRecentPayouts (limit : Z).

(** Attribute lookup on a [str], for the prefix and suffix tests.  Python
    names are case-sensitive: [startsWith] is not an attribute of [str]. *)
Definition str_getattr (attr : string) : result (string → string → bool) :=
  if bool_decide (attr = "startswith") then Ok (λ s p, String.prefix p s)
  else if bool_decide (attr = "endswith") then
    Ok (λ s p, String.prefix (String.rev p) (String.rev s))
  else Raise AttributeError.

Definition RESTRICTED_KEY_MESSAGE : string :=
  "STRIPE_API_KEY must be set to a restricted API key. Check if the environment variable has been set and whether the key is a restricted API key".

Section Main.
(** Everything after the credential check: [parse_arguments] and the
    dispatch on its result, as a function of the remote calls made so far. *)
Variable run : list RemoteCall → list RemoteCall * result unit.

Definition main (api_key : option string) (calls : list RemoteCall)
    : list RemoteCall * result unit :=
  match api_key with
  | None => (calls, Raise AttributeError)
  | Some key =>
      match str_getattr "startsWith" with
      | Raise e => (calls, Raise e)
      | Ok startsWith =>
          if negb (startsWith key "rk_") then
            (calls, Raise (ValueError RESTRICTED_KEY_MESSAGE))
          else run calls
      end
  end.
End Main.

(** ** Specification predicates *)

(** [out] is [entries] with the payout entries struck out, the others left
    where they were. *)
Inductive without_payouts : list BalanceTransaction → list BalanceTransaction → Prop :=
  | without_payouts_nil : without_payouts [] []
  | without_payouts_keep t entries out :
      type t ≠ "payout" →
      without_payouts entries out →
      without_payouts (t :: entries) (t :: out)
  | without_payouts_drop t entries out :
      type t = "payout" →
      without_payouts entries out →
      without_payouts (t :: entries) out.

(** A transaction that names no purchase intent. *)
Definition no_intent (t : BalanceTransaction) : Prop :=
  payment_intent (source t) = Missing ∨ payment_intent (source t) = Present None.

(** What one transaction does to the bucket of product [p]: the bucket is
    created or grown when the transaction is of that product, and left
    alone otherwise. *)
Definition bucket_step (p : option string) (bucket : option Bucket)
    (t : ReportTransaction) : option Bucket :=
  if decide (s_product t = p) then
    match bucket with
    | None =>
        Some {| b_amount := s_amount t; b_fee := s_fee t; b_net := s_net t;
                b_product := s_product t |}
    | Some b =>
        Some {| b_amount := b_amount b + s_amount t; b_fee := b_fee b + s_fee t;
                b_net := b_net b + s_net t; b_product := b_product b |}
    end
  else bucket.

(** The day number of a calendar date, counted from 1970-01-01, and the
    epoch seconds a date and time of day stand for. *)
Definition days_from_civil (y m d : Z) : Z :=
  let y := if m <=? 2 then y - 1 else y in
  let era := y / 400 in
  let yoe := y - era * 400 in
  let doy := (153 * (if 2 <? m then m - 3 else m + 9) + 2) / 5 + d - 1 in
  let doe := yoe * 365 + yoe / 4 - yoe / 100 + doy in
  era * 146097 + doe - 719468.

Definition timestamp_of (t : datetime) : Z :=
  days_from_civil (year t) (month t) (day t) * 86400
  + hour t * 3600 + minute t * 60 + second t.

(** A date and time of day within the calendar's ranges. *)
Definition in_calendar (t : datetime) : Prop :=
  1 ≤ year t ≤ 9999 ∧ 1 ≤ month t ≤ 12 ∧ 1 ≤ day t ≤ 31
  ∧ 0 ≤ hour t ≤ 23 ∧ 0 ≤ minute t ≤ 59 ∧ 0 ≤ second t ≤ 59.

Definition is_digit (c : ascii) : bool :=
  (48 <=? nat_of_ascii c)%nat && (nat_of_ascii c <=? 57)%nat.

(** Nineteen characters: digits, with the separators of
    [YYYY-MM-DD HH:MM:SS] in their places. *)
Definition is_utc_format (s : string) : bool :=
  match String.list_ascii_of_string s with
  | [y1; y2; y3; y4; a; m1; m2; b; d1; d2; c; h1; h2; e; n1; n2; f; s1; s2] =>
      forallb is_digit [y1; y2; y3; y4; m1; m2; d1; d2; h1; h2; n1; n2; s1; s2]
      && bool_decide ([a; b; c; e; f] = ["-"; "-"; " "; ":"; ":"]%char)
  | _ => false
  end.

(** The timestamps of the years 1 to 9999, from 0001-01-01 00:00:00 to
    9999-12-31 23:59:59, and the first of them in a year of four digits,
    1000-01-01 00:00:00. *)
Definition representable (ts : Z) : Prop := -62135596800 ≤ ts < 253402300800.

Definition FOUR_DIGIT_YEARS : Z := -30610224000.

(** The cells of one row, left to right from column 1, and rows one under
    the other from row [start]. *)
Definition write_cells (row : nat) (values : list cell_value)
    (worksheet : gmap (nat * nat) cell_value) : gmap (nat * nat) cell_value :=
  foldl (λ ws '(idx, value), <[(row, (idx + 1)%nat) := value]> ws)
    worksheet (enumerate values).

Definition write_rows (start : nat) (rows : list (list cell_value))
    (worksheet : gmap (nat * nat) cell_value) : gmap (nat * nat) cell_value :=
  foldl (λ ws '(row_idx, values), write_cells (row_idx + start) values ws)
    worksheet (enumerate rows).

(** A string as a cell keeps it: its first 32767 characters. *)
Definition cut (s : string) : string := string_take 32767 s.

Definition bucket_row (b : Bucket) : list cell_value :=
  [ Verbatim (py_optional (cut <$> b_product b)); Float (b_amount b # 100);
    Float (b_fee b # 100); Float (b_net b # 100) ].

Definition transaction_row (t : ReportTransaction) (rendered : string)
    : list cell_value :=
  [ Verbatim (PStr (cut (s_id t))); Verbatim (PStr rendered);
    Float (s_amount t # 100); Verbatim (PStr (cut (s_currency t)));
    Float (s_fee t # 100); Float (s_net t # 100);
    Verbatim (py_optional (cut <$> s_product t));
    Verbatim (py_optional (cut <$> s_name t));
    Verbatim (py_optional (cut <$> s_email t)) ].

(** The cells of the row of key [k], of the rendered creation time, and of a
    header row. *)
Definition key_row (d : list (option string * Bucket)) (k : option string)
    : list cell_value :=
  match dict_get k d with
  | Some b => bucket_row b
  | None => []
  end.

Definition rendered_created (t : ReportTransaction) : string :=
  match utcfromtimestamp (s_created t) with
  | Ok dt => strftime dt
  | Raise _ => ""
  end.

Definition header_cells (headers : list string) : list cell_value :=
  (λ h, Verbatim (PStr h)) <$> headers.

(** What makes a report exportable: amounts whose hundredth fits a float,
    strings without an illegal character among the characters a cell
    keeps, creation times within the years 1 to 9999.  Of the buckets only
    those a key leads to are written. *)
Definition in_float_range (z : Z) : Prop := Z.abs z < 100 * FLOAT_LIMIT.

Definition legal (s : string) : Prop :=
  existsb illegal_character (String.list_ascii_of_string (cut s)) = false.

Definition legal_optional (o : option string) : Prop :=
  match o with
  | Some s => legal s
  | None => True
  end.

Definition exportable_bucket (b : Bucket) : Prop :=
  legal_optional (b_product b) ∧ in_float_range (b_amount b)
  ∧ in_float_range (b_fee b) ∧ in_float_range (b_net b).

Definition exportable_transaction (t : ReportTransaction) : Prop :=
  legal (s_id t) ∧ representable (s_created t) ∧ in_float_range (s_amount t)
  ∧ legal (s_currency t) ∧ in_float_range (s_fee t) ∧ in_float_range (s_net t)
  ∧ legal_optional (s_product t) ∧ legal_optional (s_name t)
  ∧ legal_optional (s_email t).

Definition exportable (r : Report) : Prop :=
  (∀ k b, dict_get k (aggregation r) = Some b → exportable_bucket b)
  ∧ Forall exportable_transaction (transactions r).

(** The sheet of a report: the four blocks, written in the order of the
    code. *)
Definition sheet (r : Report) : gmap (nat * nat) cell_value :=
  let n := length (aggregation r) in
  write_rows (n + 4)
    ((λ t, transaction_row t (rendered_created t)) <$> transactions r)
    (write_cells (n + 3)
       (header_cells ["id"; "created"; "amount"; "currency"; "fee"; "net";
                      "product"; "name"; "email"])
       (write_rows 2 (key_row (aggregation r) <$> dict_keys (aggregation r))
          (write_cells 1 (header_cells ["product"; "amount"; "fee"; "net"]) ∅))).

(** ** Sample data *)

Definition sample_charge : BalanceTransaction :=
  {| id := "txn_1"; created := 1700000000; amount := 1000; currency := "eur";
     fee := 30; net := 970; type := "charge";
     source := {| payment_intent := Present (Some {| pi_id := "pi_1" |}) |} |}.

Definition sample_topup : BalanceTransaction :=
  {| id := "txn_2"; created := 1700000060; amount := 500; currency := "eur";
     fee := 15; net := 485; type := "charge";
     source := {| payment_intent := Present (Some {| pi_id := "pi_2" |}) |} |}.

Definition sample_settlement : BalanceTransaction :=
  {| id := "txn_3"; created := 1700003600; amount := -1455; currency := "eur";
     fee := 0; net := -1455; type := "payout";
     source := {| payment_intent := Missing |} |}.

(** A ledger entry whose source carries no [payment_intent] attribute. *)
Definition sample_fee : BalanceTransaction :=
  {| id := "txn_4"; created := 1700000120; amount := -25; currency := "eur";
     fee := 0; net := -25; type := "stripe_fee";
     source := {| payment_intent := Missing |} |}.

Definition sample_ledger (payout : string) : result (list BalanceTransaction) :=
  Ok [sample_charge; sample_settlement; sample_topup].

Definition sample_customer : Customer :=
  {| name := Some "A"; email := Some "a@x.com" |}.

Definition sample_session : Session :=
  {| line_items := [ {| description := Some "Coffee" |} ];
     customer_details := Some sample_customer |}.

Definition sample_empty_session : Session :=
  {| line_items := []; customer_details := Some sample_customer |}.

Definition sample_sessions (intent : string) : result (list Session) :=
  if bool_decide (intent = "pi_1") then Ok [sample_session]
  else if bool_decide (intent = "pi_3") then Ok [sample_session; sample_session]
  else if bool_decide (intent = "pi_4") then Ok [sample_empty_session]
  else Ok [].

Definition sample_coffee : ReportTransaction :=
  {| s_id := "t1"; s_created := 1700000000; s_amount := 1000; s_currency := "eur";
     s_fee := 30; s_net := 970; s_product := Some "Coffee";
     s_name := Some "A"; s_email := Some "a@x.com" |}.

Definition sample_unmatched : ReportTransaction :=
  {| s_id := "t2"; s_created := 1700000060; s_amount := 500; s_currency := "eur";
     s_fee := 15; s_net := 485; s_product := None;
     s_name := None; s_email := None |}.

Definition sample_refill : ReportTransaction :=
  {| s_id := "t3"; s_created := 1700000120; s_amount := 250; s_currency := "eur";
     s_fee := 8; s_net := 242; s_product := Some "Coffee";
     s_name := Some "B"; s_email := None |}.

(** A product whose description is the four letters n, u, l, l. *)
Definition sample_null_named : ReportTransaction :=
  {| s_id := "t4"; s_created := 1700000180; s_amount := 70; s_currency := "eur";
     s_fee := 2; s_net := 68; s_product := Some "null";
     s_name := None; s_email := None |}.

Definition sample_report : Report :=
  {| balance_payout_id := "po_1";
     transactions := [sample_coffee; sample_unmatched];
     aggregation := aggregate_report_transactions [sample_coffee; sample_unmatched] |}.

(** A transaction dated 10000-01-01 00:00:00, one second past what
    [datetime] represents. *)
Definition sample_late : ReportTransaction :=
  {| s_id := "t5"; s_created := 253402300800; s_amount := 1000; s_currency := "eur";
     s_fee := 30; s_net := 970; s_product := Some "Coffee";
     s_name := Some "A"; s_email := Some "a@x.com" |}.

(** An amount whose hundredth is the first to overflow a float, and the
    amount before it. *)
Definition sample_huge : ReportTransaction :=
  {| s_id := "t6"; s_created := 1700000000; s_amount := 100 * FLOAT_LIMIT;
     s_currency := "eur"; s_fee := 30; s_net := 970; s_product := Some "Coffee";
     s_name := Some "A"; s_email := Some "a@x.com" |}.

Definition sample_large : ReportTransaction :=
  {| s_id := "t7"; s_created := 1700000000; s_amount := 100 * FLOAT_LIMIT - 1;
     s_currency := "eur"; s_fee := 30; s_net := 970; s_product := Some "Coffee";
     s_name := Some "A"; s_email := Some "a@x.com" |}.

(** A customer name with a vertical tab in it. *)
Definition sample_vertical_tab : ReportTransaction :=
  {| s_id := "t8"; s_created := 1700000000; s_amount := 1000; s_currency := "eur";
     s_fee := 30; s_net := 970; s_product := Some "Coffee";
     s_name := Some (String "x" (String (ascii_of_nat 11) "")); s_email := None |}.

(** A transaction dated 0999-12-31 23:59:59. *)
Definition sample_early : ReportTransaction :=
  {| s_id := "t9"; s_created := -30610224001; s_amount := 1000; s_currency := "eur";
     s_fee := 30; s_net := 970; s_product := Some "Coffee";
     s_name := Some "A"; s_email := Some "a@x.com" |}.


(** The report with a null-product group and a group for the product
    named "null". *)
Definition sample_clash_report : Report :=
  {| balance_payout_id := "po_2";
     transactions := [sample_unmatched; sample_null_named];
     aggregation := aggregate_report_transactions [sample_unmatched; sample_null_named] |}.

(** ** Further specification functions *)

(** The identifier a transaction names, when its source carries an
    expanded intent. *)
Definition named_intent (t : BalanceTransaction) : option string :=
  match payment_intent (source t) with
  | Present (Some p) => Some (pi_id p)
  | _ => None
  end.

(** The transaction's source has the attribute and it holds [None]. *)
Definition null_intent (t : BalanceTransaction) : bool :=
  match payment_intent (source t) with
  | Present None => true
  | _ => false
  end.

(** The record [simplify_report_data] builds from a transaction, a product
    and a customer. *)
Definition enriched (t : BalanceTransaction) (p : option string) (c : Customer)
    : ReportTransaction :=
  {| s_id := id t; s_created := created t; s_amount := amount t;
     s_currency := currency t; s_fee := fee t; s_net := net t;
     s_product := p; s_name := name c; s_email := email c |}.

(** [r] is [t] joined with the entry the mapping has for its intent, or
    with the three-[None] default when it has none; an entry joins only
    when it has a customer. *)
Definition joined (dict : gmap string IntentData) (t : BalanceTransaction)
    (r : ReportTransaction) : Prop :=
  ∃ k c, named_intent t = Some k
    ∧ customer (default unmatched (dict !! k)) = Some c
    ∧ r = enriched t (product (default unmatched (dict !! k))) c.

(** Every entry of the mapping has a customer. *)
Definition with_customers (dict : gmap string IntentData) : Prop :=
  ∀ k data, dict !! k = Some data → is_Some (customer data).

(** The transactions of product [p], in their order. *)
Definition of_product (p : option string) (l : list ReportTransaction)
    : list ReportTransaction :=
  filter (λ t, s_product t = p) l.

(** Each element the first time it appears. *)
Fixpoint first_occurrences {A} `{EqDecision A} (l : list A) : list A :=
  match l with
  | [] => []
  | x :: l' => x :: filter (λ y, y ≠ x) (first_occurrences l')
  end.

(** The four blocks of a sheet, for any rows. *)
Definition sheet_of_rows (n : nat) (bucket_rows transaction_rows : list (list cell_value))
    : gmap (nat * nat) cell_value :=
  write_rows (n + 4) transaction_rows
    (write_cells (n + 3)
       (header_cells ["id"; "created"; "amount"; "currency"; "fee"; "net";
                      "product"; "name"; "email"])
       (write_rows 2 bucket_rows
          (write_cells 1 (header_cells ["product"; "amount"; "fee"; "net"]) ∅))).

(** A value the setter of a cell takes, and what the cell then holds. *)
Definition accepted (value : cell_value) : Prop :=
  match value with
  | Verbatim (PStr s) => legal s
  | Verbatim (PList _) | Verbatim (PDict _) => False
  | _ => True
  end.

Definition stored (value : cell_value) : cell_value :=
  match value with
  | Verbatim (PStr s) => Verbatim (PStr (cut s))
  | _ => value
  end.

Section Rows.
Variable py_repr : pyval → string.

(** One cell: the value formatted, then as the setter keeps it. *)
Definition cell_of (data : list (pykey * pyval)) (key : string) : result cell_value :=
  value ← format_for_worksheet data key;
  bind_value py_repr value.

(** The cells of the row of one bucket and of one transaction. *)
Definition format_bucket_row (b : Bucket) : result (list cell_value) :=
  for_each (cell_of (bucket_items b)) ["product"; "amount"; "fee"; "net"].

Definition format_bucket (a : list (option string * Bucket)) (k : option string)
    : result (list cell_value) :=
  match dict_get k a with
  | Some b => format_bucket_row b
  | None => Raise KeyError
  end.

Definition format_transaction (t : ReportTransaction) : result (list cell_value) :=
  for_each (cell_of (transaction_items t))
    ["id"; "created"; "amount"; "currency"; "fee"; "net"; "product"; "name"; "email"].
End Rows.

(** ** Dynamic values

    [read_report_data_from_json] hands [save_to_worksheet] whatever the
    file holds, so the exporter is also given over [pyval], the values
    built from [None], integers, strings, lists and dicts: subscripting,
    [len] and iteration fail on them as Python's do.  A string is its
    sequence of characters. *)

Definition key_value (k : pykey) : pyval :=
  match k with
  | KNone => PNone
  | KInt z => PInt z
  | KStr s => PStr s
  end.

(** The key an index stands for in a dict; lists and dicts are unhashable. *)
Definition hash_key (index : pyval) : result pykey :=
  match index with
  | PNone => Ok KNone
  | PInt z => Ok (KInt z)
  | PStr s => Ok (KStr s)
  | PList _ | PDict _ => Raise TypeError
  end.

(** [sequence[z]], negative indices counting from the end. *)
Definition sequence_item {A} (l : list A) (z : Z) : result A :=
  let n := Z.of_nat (length l) in
  let i := if z <? 0 then z + n else z in
  if (0 <=? i) && (i <? n) then
    match l !! Z.to_nat i with
    | Some x => Ok x
    | None => Raise IndexError
    end
  else Raise IndexError.

(** [container[index]] *)
Definition subscript (container index : pyval) : result pyval :=
  match container with
  | PDict d =>
      k ← hash_key index;
      match dict_get k d with
      | Some v => Ok v
      | None => Raise KeyError
      end
  | PList l =>
      match index with
      | PInt z => sequence_item l z
      | _ => Raise TypeError
      end
  | PStr s =>
      match index with
      | PInt z => c ← sequence_item (String.list_ascii_of_string s) z;
                  Ok (PStr (String c ""))
      | _ => Raise TypeError
      end
  | PNone | PInt _ => Raise TypeError
  end.

(** [len(v)] *)
Definition py_len (v : pyval) : result nat :=
  match v with
  | PDict d => Ok (length d)
  | PList l => Ok (length l)
  | PStr s => Ok (String.length s)
  | PNone | PInt _ => Raise TypeError
  end.

(** What a [for] loop over [v] visits: the keys of a dict, the items of a
    list, the characters of a string. *)
Definition py_iter (v : pyval) : result (list pyval) :=
  match v with
  | PDict d => Ok (key_value <$> dict_keys d)
  | PList l => Ok l
  | PStr s => Ok ((λ c, PStr (String c "")) <$> String.list_ascii_of_string s)
  | PNone | PInt _ => Raise TypeError
  end.

Section DynamicExporter.
Variable py_repr : pyval → string.

(** [str(v)], as an f-string renders a value. *)
Definition py_str (v : pyval) : string :=
  match v with
  | PNone => "None"
  | PInt z => pretty z
  | PStr s => s
  | PList _ | PDict _ => py_repr v
  end.

Definition format_for_worksheet_dyn (data : pyval) (key : string)
    : result cell_value :=
  formatted ← subscript data (PStr key);
  if bool_decide (key ∈ ["amount"; "fee"; "net"]) then
    value ← subscript data (PStr key);
    true_div value 100
  else if bool_decide (key = "created") then
    value ← subscript data (PStr key);
    match value with
    | PInt ts => t ← utcfromtimestamp ts; Ok (Verbatim (PStr (strftime t)))
    | _ => Raise TypeError
    end
  else Ok (Verbatim formatted).

(** The inner loops; [data] is the expression evaluated for every cell. *)
Definition write_record_dyn (row : nat) (data : result pyval)
    (keys : list string) (worksheet : gmap (nat * nat) cell_value)
    : result (gmap (nat * nat) cell_value) :=
  foldM (λ ws '(col_idx, key),
           record ← data;
           value ← format_for_worksheet_dyn record key;
           set_cell py_repr row (col_idx + 1) value ws)
    worksheet (enumerate keys).

Definition save_to_worksheet_dyn (report_data : pyval)
    : result (gmap (nat * nat) cell_value) :=
  let headers :=
    ["id"; "created"; "amount"; "currency"; "fee"; "net"; "product"; "name"; "email"] in
  let numeric := ["amount"; "fee"; "net"] in
  let aggregation_headers := (["product"] ++ numeric)%list in
  aggregation ← subscript report_data (PStr "aggregation");
  n ← py_len aggregation;
  let aggregation_len := (n + 2)%nat in
  worksheet ← write_headers py_repr 1 aggregation_headers ∅;
  aggregation ← subscript report_data (PStr "aggregation");
  keys ← py_iter aggregation;
  worksheet ←
    foldM (λ ws '(row_idx, data),
             write_record_dyn (row_idx + 2)
               (aggregation ← subscript report_data (PStr "aggregation");
                subscript aggregation data)
               aggregation_headers ws)
      worksheet (enumerate keys);
  worksheet ← write_headers py_repr (aggregation_len + 1) headers worksheet;
  transactions ← subscript report_data (PStr "transactions");
  items ← py_iter transactions;
  foldM (λ ws '(row_idx, data),
           write_record_dyn (row_idx + 2 + aggregation_len) (Ok data) headers ws)
    worksheet (enumerate items).
End DynamicExporter.

(** ** Command line run

    What a run leaves behind: the lines it printed and the workbooks it
    saved, oldest first.  An exception keeps what was printed before it. *)

Inductive Output : Type :=
  | Line (s : string)
  | Prompt (s : string)
  | JsonDump (document : json).

Record World : Type := {
  stdout : list Output;
  saved : list (string * gmap (nat * nat) cell_value)
}.

Definition print (o : Output) (w : World) : World :=
  {| stdout := stdout w ++ [o]; saved := saved w |}.

(** [workbook.save(name)]; writing the file is taken to succeed. *)
Definition save_workbook (name : string) (worksheet : gmap (nat * nat) cell_value)
    (w : World) : World :=
  {| stdout := stdout w; saved := saved w ++ [(name, worksheet)] |}.

(** The parsed arguments; an option that was not given is [None]. *)
Record Args : Type := {
  a_poll_stripe : option Z;
  a_payout : option string;
  a_json : option string;
  a_print_json : bool;
  a_save_to_excel : bool;
  a_output_name : option string
}.

(** [if s:] for an optional string: [None] and the empty string are false. *)
Definition truthy (s : option string) : bool :=
  match s with
  | Some (String _ _) => true
  | _ => false
  end.

Record Payout : Type := { p_id : string; p_created : Z }.

(** What [int(input(...))] makes of one line typed by the user. *)
Inductive Typed : Type :=
  | Number (choice : Z)
  | NotANumber.

(** How the interactive selection ends; [EndOfInput] is the [EOFError] of
    [input] when nothing is left to read. *)
Inductive Ending : Type :=
  | Returned
  | Raised (e : exn)
  | EndOfInput.

Section Run.
Variable list_payout_transactions : string → result (list BalanceTransaction).
Variable list_checkout_sessions : string → result (list Session).
Variable as_completed : list string → list string.
(** [stripe.Payout.list(limit=n).data] *)
Variable list_recent_payouts : option Z → result (list Payout).
(** Opening a file and parsing it as JSON. *)
Variable read_json_file : string → result json.
Variable py_repr : pyval → string.

Definition read_report_data_from_json (file_path : string) : result pyval :=
  document ← read_json_file file_path;
  Ok (json_load document).

Definition make_report (balance_payout_id : string) (name : string) (w : World)
    : World * result unit :=
  match
    report_data ←
      get_report_data list_payout_transactions list_checkout_sessions as_completed
        balance_payout_id;
    save_to_worksheet_dyn py_repr (report_value report_data)
  with
  | Ok worksheet => (save_workbook name worksheet w, Ok ())
  | Raise e => (w, Raise e)
  end.

Definition process_report_data (payout_id json_file_path : option string)
    (print_json save_to_excel : bool) (output_name : option string) (w : World)
    : World * result unit :=
  let loaded :=
    if truthy json_file_path then
      read_report_data_from_json (default "" json_file_path)
    else if truthy payout_id then
      report_data ←
        get_report_data list_payout_transactions list_checkout_sessions as_completed
          (default "" payout_id);
      Ok (report_value report_data)
    else Raise (ValueError "Either payout ID or JSON file must be provided.") in
  match loaded with
  | Raise e => (w, Raise e)
  | Ok report_data =>
      let w := if print_json then print (JsonDump (json_dumps report_data)) w else w in
      if save_to_excel then
        match
          output_name ←
            match output_name with
            | None =>
                balance_payout_id ← subscript report_data (PStr "balance_payout_id");
                Ok ("Report " +:+ py_str py_repr balance_payout_id +:+ ".xlsx")
            | Some name => Ok name
            end;
          worksheet ← save_to_worksheet_dyn py_repr report_data;
          Ok (output_name, worksheet)
        with
        | Ok (output_name, worksheet) => (save_workbook output_name worksheet w, Ok ())
        | Raise e => (w, Raise e)
        end
      else (w, Ok ())
  end.

Definition process_report_data_from_args (args : Args) (w : World)
    : World * result unit :=
  process_report_data (a_payout args) (a_json args) (a_print_json args)
    (a_save_to_excel args) (a_output_name args) w.

(** [strftime('%Y-%m-%d')] *)
Definition strftime_date (t : datetime) : string :=
  pretty (year t) +:+ "-" +:+ digits2 (month t) +:+ "-" +:+ digits2 (day t).

(** The listing loop, [i] counting from [start]. *)
Fixpoint print_payouts (i : Z) (payouts : list Payout) (w : World)
    : World * result unit :=
  match payouts with
  | [] => (w, Ok ())
  | payout :: rest =>
      match utcfromtimestamp (p_created payout) with
      | Raise e => (w, Raise e)
      | Ok t =>
          print_payouts (i + 1) rest
            (print (Line (pretty i +:+ ". Created: " +:+ strftime_date t
                          +:+ ", ID: " +:+ p_id payout)) w)
      end
  end.

Definition set_payout (args : Args) (payout : string) : Args :=
  {| a_poll_stripe := a_poll_stripe args; a_payout := Some payout;
     a_json := a_json args; a_print_json := a_print_json args;
     a_save_to_excel := a_save_to_excel args;
     a_output_name := a_output_name args |}.

(** The [while True] loop, over the lines the user types. *)
Fixpoint prompt_loop (n : Z) (payouts : list Payout) (args : Args)
    (typed : list Typed) (w : World) : World * Ending :=
  let w := print (Prompt "Enter the number of the payout to generate a report (0 to exit): ") w in
  match typed with
  | [] => (w, EndOfInput)
  | NotANumber :: rest =>
      prompt_loop n payouts args rest
        (print (Line "Invalid input. Please enter a valid number.") w)
  | Number choice :: rest =>
      if choice =? 0 then (w, Returned)
      else if (n <? choice) || (choice <? 0) then
        prompt_loop n payouts args rest
          (print (Line "Invalid choice. Please enter a valid number.") w)
      else
        match sequence_item payouts (choice - 1) with
        | Raise e => (w, Raised e)
        | Ok payout =>
            let args := set_payout args (p_id payout) in
            match process_report_data_from_args args w with
            | (w, Ok _) => (w, Returned)
            | (w, Raise (ValueError _)) =>
                prompt_loop n payouts args rest
                  (print (Line "Invalid input. Please enter a valid number.") w)
            | (w, Raise e) => (w, Raised e)
            end
        end
  end.

Definition get_latest_payouts (args : Args) (typed : list Typed) (w : World)
    : World * Ending :=
  let n := a_poll_stripe args in
  match list_recent_payouts n with
  | Raise e => (w, Raised e)
  | Ok payouts =>
      match print_payouts 1 payouts w with
      | (w, Raise e) => (w, Raised e)
      | (w, Ok _) =>
          match n with
          | None => (w, Raised TypeError)
          | Some n =>
              if 0 <? n then prompt_loop n payouts args typed w
              else (w, Returned)
          end
      end
  end.
End Run.

(** The lines that list the payouts, numbered from 1. *)
Definition rendered_date (ts : Z) : string :=
  match utcfromtimestamp ts with
  | Ok t => strftime_date t
  | Raise _ => ""
  end.

Definition payout_line (i : Z) (payout : Payout) : Output :=
  Line (pretty i +:+ ". Created: " +:+ rendered_date (p_created payout)
        +:+ ", ID: " +:+ p_id payout).

Definition listing (payouts : list Payout) : list Output :=
  imap (λ i payout, payout_line (Z.of_nat i + 1) payout) payouts.

(** A line typed by the user that the selection loop turns down: not a
    number, or a number other than 0 outside 0..n. *)
Definition rejected (n : Z) (t : Typed) : Prop :=
  match t with
  | NotANumber => True
  | Number choice => choice ≠ 0 ∧ (n < choice ∨ choice < 0)
  end.

(** ** Further sample data *)

(** A session without customer details, and a provider that answers with
    it for every intent. *)
Definition sample_anonymous_session : Session :=
  {| line_items := [ {| description := Some "Coffee" |} ];
     customer_details := None |}.

Definition sample_anonymous_sessions (intent : string) : result (list Session) :=
  Ok [sample_anonymous_session].

(** A ledger with an entry that is neither a payout nor a charge. *)
Definition sample_fee_ledger (payout : string) : result (list BalanceTransaction) :=
  Ok [sample_charge; sample_fee].

(** The report of [sample_ledger] resolved with [sample_sessions]. *)
Definition sample_live_report : Report :=
  {| balance_payout_id := "po_1";
     transactions :=
       [ {| s_id := "txn_1"; s_created := 1700000000; s_amount := 1000;
            s_currency := "eur"; s_fee := 30; s_net := 970;
            s_product := Some "Coffee";
            s_name := Some "A"; s_email := Some "a@x.com" |};
         {| s_id := "txn_2"; s_created := 1700000060; s_amount := 500;
            s_currency := "eur"; s_fee := 15; s_net := 485;
            s_product := Some "SudoSOS Topup";
            s_name := None; s_email := None |} ];
     aggregation :=
       [ (Some "Coffee",
           {| b_amount := 1000; b_fee := 30; b_net := 970;
              b_product := Some "Coffee" |});
         (Some "SudoSOS Topup",
           {| b_amount := 500; b_fee := 15; b_net := 485;
              b_product := Some "SudoSOS Topup" |}) ] |}.

(** [sample_report] with its buckets under the keys a dump gives them. *)
Definition sample_rekeyed_report : Report :=
  {| balance_payout_id := balance_payout_id sample_report;
     transactions := transactions sample_report;
     aggregation := reloaded_aggregation (aggregation sample_report) |}.

(** A file system with one file, the dump of [sample_live_report]. *)
Definition sample_files (file_path : string) : result json :=
  if bool_decide (file_path = "dump.json") then
    Ok (json_dumps (report_value sample_live_report))
  else Raise (UpstreamError "No such file or directory").

Definition sample_repr (v : pyval) : string := "[...]".

Definition sample_payouts : list Payout :=
  [ {| p_id := "po_1"; p_created := 1700003600 |};
    {| p_id := "po_0"; p_created := 1699917200 |} ].

Definition sample_recent_payouts (limit : option Z) : result (list Payout) :=
  Ok sample_payouts.

(** [-s 3] and nothing else on the command line. *)
Definition sample_args : Args :=
  {| a_poll_stripe := Some 3; a_payout := None; a_json := None;
     a_print_json := false; a_save_to_excel := true; a_output_name := None |}.

Definition empty_world : World := {| stdout := []; saved := [] |}.

(** * Properties *)

(** ** The [result] monad *)

Lemma bind_Ok {A B} (f : A → result B) (m : result A) (b : B) :
  m ≫= f = Ok b → ∃ a, m = Ok a ∧ f a = Ok b.
Proof. destruct m as [a|e]; [by exists a | done]. Qed.

Lemma raises_not_ok {A} (r : result A) : raises r → ¬ is_ok r.
Proof. intros [e ->] [a ?]; done. Qed.

Lemma for_each_length {A B} (f : A → result B) l out :
  for_each f l = Ok out → length out = length l.
Proof.
  revert out; induction l as [|x l IH]; intros out; simpl.
  - by intros [= <-].
  - destruct (f x) as [y|]; [simpl | done].
    destruct (for_each f l) as [ys|]; [simpl | done].
    intros [= <-]; simpl; f_equal; by apply IH.
Qed.

Lemma for_each_lookup {A B} (f : A → result B) l out i x :
  for_each f l = Ok out → l !! i = Some x → ∃ y, out !! i = Some y ∧ f x = Ok y.
Proof.
  revert out i; induction l as [|x' l IH]; intros out i; simpl; [done|].
  destruct (f x') as [y'|] eqn:Hx'; [simpl | done].
  destruct (for_each f l) as [ys|]; [simpl | done].
  intros [= <-]. destruct i as [|i]; simpl.
  - intros [= <-]; eauto.
  - intros Hi. by apply IH.
Qed.

Lemma for_each_raises {A B} (f : A → result B) l e :
  (∀ x e', f x = Raise e' → e' = e) →
  Exists (λ x, f x = Raise e) l → for_each f l = Raise e.
Proof.
  intros Hone; induction l as [|x l IH]; intros Hex; simpl.
  - by apply Exists_nil in Hex.
  - destruct (f x) as [y|e'] eqn:Hx; simpl.
    + apply Exists_cons in Hex as [Hex|Hex]; [congruence|].
      by rewrite IH.
    + f_equal. by eapply Hone.
Qed.

(** ** Transaction Fetcher *)

Lemma filter_without_payouts entries :
  without_payouts entries (List.filter (λ t, negb (is_payout t)) entries).
Proof.
  induction entries as [|t entries IH]; simpl; [constructor|].
  unfold is_payout at 1. destruct (String.eqb_spec (type t) "payout"); simpl.
  - by apply without_payouts_drop.
  - by apply without_payouts_keep.
Qed.

Lemma without_payouts_sublist entries out :
  without_payouts entries out → sublist out entries.
Proof. induction 1; by constructor. Qed.

Lemma without_payouts_Forall entries out :
  without_payouts entries out → Forall (λ t, type t ≠ "payout") out.
Proof. induction 1; auto. Qed.

Lemma without_payouts_complete entries out t :
  without_payouts entries out → t ∈ entries → type t ≠ "payout" → t ∈ out.
Proof.
  induction 1 as [|t' entries out Ht' _ IH|t' entries out Ht' _ IH];
    intros Hin Ht.
  - by apply elem_of_nil in Hin.
  - apply elem_of_cons in Hin as [->|Hin]; [left | right; auto].
  - apply elem_of_cons in Hin as [->|Hin]; [done | auto].
Qed.

(** C5: the list returned by [get_payout_transactions] holds no entry of
    type "payout", and is the provider's list with exactly those entries
    struck out: every other entry is kept, in the provider's order. *)
Theorem get_payout_transactions_drops_payouts
    (list_payout_transactions : string → result (list BalanceTransaction))
    (payout : string) (entries : list BalanceTransaction) :
  list_payout_transactions payout = Ok entries →
  ∃ out, get_payout_transactions list_payout_transactions payout = Ok out
    ∧ Forall (λ t, type t ≠ "payout") out
    ∧ without_payouts entries out
    ∧ sublist out entries
    ∧ (∀ t, t ∈ entries → type t ≠ "payout" → t ∈ out).
Proof.
  intros Hentries. unfold get_payout_transactions. rewrite Hentries; simpl.
  eexists; split; [reflexivity|].
  pose proof (filter_without_payouts entries) as Hw.
  split_and!.
  - by eapply without_payouts_Forall.
  - done.
  - by apply without_payouts_sublist.
  - intros t. by apply without_payouts_complete.
Qed.

Lemma get_payout_transactions_drops_payouts_witness :
  ∃ out, get_payout_transactions sample_ledger "po_1" = Ok out
    ∧ Forall (λ t, type t ≠ "payout") out
    ∧ without_payouts [sample_charge; sample_settlement; sample_topup] out
    ∧ sublist out [sample_charge; sample_settlement; sample_topup]
    ∧ (∀ t, t ∈ [sample_charge; sample_settlement; sample_topup] →
            type t ≠ "payout" → t ∈ out).
Proof.
  apply (get_payout_transactions_drops_payouts sample_ledger "po_1").
  reflexivity.
Defined.

(** ** Purchase Resolver *)

Section Resolver.
Variable list_checkout_sessions : string → result (list Session).
Variable as_completed : list string → list string.
Hypothesis as_completed_perm : ∀ futures, as_completed futures ≡ₚ futures.

Lemma get_intent_data_many intent_id charges :
  list_checkout_sessions intent_id = Ok charges →
  (1 < length charges)%nat →
  get_intent_data list_checkout_sessions intent_id
  = Raise (ValueError "Intent has more than 1 session.").
Proof.
  intros Hq Hlen. unfold get_intent_data. rewrite Hq; simpl.
  destruct charges as [|c1 [|c2 rest]]; simpl in Hlen; [lia | lia | done].
Qed.

Lemma get_intent_data_fst intent_id r :
  get_intent_data list_checkout_sessions intent_id = Ok r → r.1 = intent_id.
Proof.
  unfold get_intent_data.
  destruct (list_checkout_sessions intent_id) as [charges|]; [simpl | done].
  destruct charges as [|c1 [|c2 rest]]; [by intros [= <-] | | done].
  destruct (line_items c1); [done | by intros [= <-]].
Qed.

Lemma collect_results_raises completed intent_id d :
  intent_id ∈ completed →
  raises (get_intent_data list_checkout_sessions intent_id) →
  raises (collect_results list_checkout_sessions completed d).
Proof.
  revert d; induction completed as [|future rest IH]; intros d Hin Hraise.
  - by apply elem_of_nil in Hin.
  - simpl. apply elem_of_cons in Hin as [<-|Hin].
    + destruct Hraise as [e ->]. by exists e.
    + destruct (get_intent_data list_checkout_sessions future) as [[i x]|e];
        simpl; [by apply IH | by exists e].
Qed.

(** Every entry of a returned mapping was there before or is what the
    lookup of its key returned. *)
Lemma collect_results_lookup completed d d' k v :
  collect_results list_checkout_sessions completed d = Ok d' →
  d' !! k = Some v →
  d !! k = Some v
  ∨ (k ∈ completed ∧ get_intent_data list_checkout_sessions k = Ok (k, v)).
Proof.
  revert d; induction completed as [|future rest IH]; intros d; simpl.
  - intros [= <-]; auto.
  - destruct (get_intent_data list_checkout_sessions future) as [[i x]|e] eqn:Hf;
      [simpl | done].
    pose proof (get_intent_data_fst _ _ Hf) as Hi; simpl in Hi; subst i.
    intros Hrest Hk. destruct (IH _ Hrest Hk) as [Hd|[Hin Hv]].
    + destruct (decide (future = k)) as [->|Hne].
      * rewrite lookup_insert_eq in Hd. injection Hd as ->.
        right. split; [left | done].
      * left. by rewrite lookup_insert_ne in Hd.
    + right. split; [by right | done].
Qed.

Lemma collect_results_mono completed d d' k :
  collect_results list_checkout_sessions completed d = Ok d' →
  is_Some (d !! k) → is_Some (d' !! k).
Proof.
  revert d; induction completed as [|future rest IH]; intros d; simpl.
  - by intros [= <-].
  - destruct (get_intent_data list_checkout_sessions future) as [[i x]|e];
      [simpl | done].
    intros Hrest Hk. apply (IH _ Hrest). rewrite lookup_insert.
    by destruct (decide (i = k)).
Qed.

(** A returned mapping has an entry for every submitted identifier: what
    the lookup of that identifier returned. *)
Lemma make_intent_charge_dict_covers payment_intents_ids d intent_id :
  make_intent_charge_dict list_checkout_sessions as_completed payment_intents_ids
  = Ok d →
  intent_id ∈ payment_intents_ids →
  ∃ data, d !! intent_id = Some data
    ∧ get_intent_data list_checkout_sessions intent_id = Ok (intent_id, data).
Proof.
  unfold make_intent_charge_dict. intros Hd Hin.
  rewrite <- as_completed_perm in Hin.
  assert (is_Some (d !! intent_id)) as [data Hdata].
  { revert Hd Hin. generalize (∅ : gmap string IntentData) as d0.
    induction (as_completed payment_intents_ids) as [|future rest IH];
      intros d0 Hd Hin; simpl in Hd.
    - by apply elem_of_nil in Hin.
    - destruct (get_intent_data list_checkout_sessions future) as [[i x]|e] eqn:Hf;
        [simpl in Hd | done].
      pose proof (get_intent_data_fst _ _ Hf) as Hi; simpl in Hi; subst i.
      apply elem_of_cons in Hin as [->|Hin]; [|by eapply IH].
      eapply collect_results_mono; [exact Hd|]. by rewrite lookup_insert_eq. }
  exists data. split; [done|].
  destruct (collect_results_lookup _ _ _ _ _ Hd Hdata) as [Hempty|[_ Hget]];
    [by rewrite lookup_empty in Hempty | done].
Qed.

(** C6: with no checkout session the product is the direct-charge label
    and the customer's name and email are both null; with exactly one
    session the product is the description of the session's first line
    item and the customer is the session's customer-details record (which
    the provider can leave null). *)
Theorem get_intent_data_zero_or_one intent_id charges :
  list_checkout_sessions intent_id = Ok charges →
  ((length charges = 0)%nat →
     get_intent_data list_checkout_sessions intent_id =
       Ok (intent_id, {| product := Some DIRECT_CHARGE;
                         customer := Some {| name := None; email := None |} |}))
  ∧ ((length charges = 1)%nat →
     ∀ charge item, head charges = Some charge →
       head (line_items charge) = Some item →
       get_intent_data list_checkout_sessions intent_id =
         Ok (intent_id, {| product := description item;
                           customer := customer_details charge |})).
Proof.
  intros Hq. unfold get_intent_data. rewrite Hq; simpl. split.
  - intros Hlen. by destruct charges.
  - intros Hlen charge item Hcharge Hitem.
    destruct charges as [|c1 [|c2 rest]]; simplify_eq/=.
    destruct (line_items charge); by simplify_eq/=.
Qed.

(** C10: a single session whose line-items list is empty makes
    [get_intent_data] raise the indexing error; no metadata is returned. *)
Theorem get_intent_data_empty_line_items intent_id charge :
  list_checkout_sessions intent_id = Ok [charge] →
  line_items charge = [] →
  get_intent_data list_checkout_sessions intent_id = Raise IndexError.
Proof.
  intros Hq Hitems. unfold get_intent_data.
  rewrite Hq; simpl. by rewrite Hitems.
Qed.

(** C3: when the query for one of the submitted identifiers returns more
    than one session, its lookup raises the fatal error, and
    [make_intent_charge_dict] raises as well, whatever the completion
    order: no mapping, partial or not, is returned. *)
Theorem make_intent_charge_dict_many_sessions payment_intents_ids intent_id charges :
  intent_id ∈ payment_intents_ids →
  list_checkout_sessions intent_id = Ok charges →
  (1 < length charges)%nat →
  get_intent_data list_checkout_sessions intent_id
  = Raise (ValueError "Intent has more than 1 session.")
  ∧ raises (make_intent_charge_dict list_checkout_sessions as_completed
              payment_intents_ids)
  ∧ ∀ d, make_intent_charge_dict list_checkout_sessions as_completed
           payment_intents_ids ≠ Ok d.
Proof.
  intros Hin Hq Hlen.
  pose proof (get_intent_data_many _ _ Hq Hlen) as Hraise.
  assert (raises (make_intent_charge_dict list_checkout_sessions as_completed
                    payment_intents_ids)) as Hr.
  { apply collect_results_raises with intent_id.
    - by rewrite as_completed_perm.
    - by eexists. }
  split_and!; [done | done |].
  intros d Hd. apply (raises_not_ok _ Hr). by exists d.
Qed.
End Resolver.

Lemma get_intent_data_zero_or_one_witness :
  get_intent_data sample_sessions "pi_2" =
    Ok ("pi_2", {| product := Some DIRECT_CHARGE;
                   customer := Some {| name := None; email := None |} |})
  ∧ get_intent_data sample_sessions "pi_1" =
    Ok ("pi_1", {| product := Some "Coffee"; customer := Some sample_customer |}).
Proof.
  split.
  - exact (proj1 (get_intent_data_zero_or_one sample_sessions "pi_2" [] eq_refl)
             eq_refl).
  - exact (proj2 (get_intent_data_zero_or_one sample_sessions "pi_1"
                    [sample_session] eq_refl)
             eq_refl sample_session {| description := Some "Coffee" |}
             eq_refl eq_refl).
Defined.

Lemma get_intent_data_empty_line_items_witness :
  get_intent_data sample_sessions "pi_4" = Raise IndexError.
Proof.
  apply (get_intent_data_empty_line_items sample_sessions "pi_4" sample_empty_session);
    reflexivity.
Defined.

Lemma make_intent_charge_dict_many_sessions_witness :
  get_intent_data sample_sessions "pi_3" =
    Raise (ValueError "Intent has more than 1 session.")
  ∧ raises (make_intent_charge_dict sample_sessions reverse ["pi_1"; "pi_3"; "pi_2"])
  ∧ ∀ d, make_intent_charge_dict sample_sessions reverse ["pi_1"; "pi_3"; "pi_2"] ≠ Ok d.
Proof.
  apply (make_intent_charge_dict_many_sessions sample_sessions reverse
           reverse_Permutation ["pi_1"; "pi_3"; "pi_2"] "pi_3"
           [sample_session; sample_session]).
  - right; left.
  - reflexivity.
  - simpl; lia.
Defined.

(** ** Report Assembler *)

Lemma simplify_transaction_raises dict t e :
  simplify_transaction dict t = Raise e → e = AttributeError ∨ e = TypeError.
Proof.
  unfold simplify_transaction, payment_intent_id.
  destruct (payment_intent (source t)) as [|[p|]]; simpl; [naive_solver| |naive_solver].
  destruct (customer (default unmatched (dict !! pi_id p))); simpl; naive_solver.
Qed.

Lemma lookup_customer dict k :
  with_customers dict → is_Some (customer (default unmatched (dict !! k))).
Proof.
  intros Hdict. destruct (dict !! k) as [data|] eqn:Hk; simpl.
  - by eapply Hdict.
  - by eexists.
Qed.

Lemma simplify_transaction_raises_with_customers dict t e :
  with_customers dict →
  simplify_transaction dict t = Raise e → e = AttributeError.
Proof.
  intros Hdict. unfold simplify_transaction, payment_intent_id.
  destruct (payment_intent (source t)) as [|[p|]]; simpl; [congruence| |congruence].
  by destruct (lookup_customer dict (pi_id p) Hdict) as [c ->].
Qed.

Lemma simplify_transaction_no_intent dict t :
  no_intent t → simplify_transaction dict t = Raise AttributeError.
Proof.
  unfold simplify_transaction, payment_intent_id. by intros [-> | ->].
Qed.

(** A transaction that names an intent is paired with the metadata stored
    under it, when that has a customer, or with the unmatched default when
    the mapping lacks it. *)
Lemma simplify_transaction_intent dict t p :
  payment_intent (source t) = Present (Some p) →
  (∀ data, dict !! pi_id p = Some data → is_Some (customer data)) →
  ∃ r, simplify_transaction dict t = Ok r
    ∧ s_id r = id t ∧ s_created r = created t ∧ s_amount r = amount t
    ∧ s_currency r = currency t ∧ s_fee r = fee t ∧ s_net r = net t
    ∧ (∀ data c, dict !! pi_id p = Some data → customer data = Some c →
         s_product r = product data ∧ s_name r = name c ∧ s_email r = email c)
    ∧ (dict !! pi_id p = None →
         s_product r = None ∧ s_name r = None ∧ s_email r = None).
Proof.
  intros Hp Hcustomer. unfold simplify_transaction, payment_intent_id.
  rewrite Hp; simpl.
  destruct (dict !! pi_id p) as [data|] eqn:Hdata; simpl.
  - destruct (Hcustomer data eq_refl) as [c Hc]. rewrite Hc; simpl.
    eexists; split; [reflexivity|]. simpl. split_and!; try done.
    intros data' c' [= <-] Hc'. rewrite Hc in Hc'. by injection Hc' as <-.
  - eexists; split; [reflexivity|]. simpl. split_and!; done.
Qed.

(** When every transaction names an intent whose entry has a customer, the
    enriched list has the length and the order of the input. *)
Lemma simplify_report_data_all_intents transactions_data dict :
  Forall (λ t, ∃ p, payment_intent (source t) = Present (Some p)
                 ∧ ∀ data, dict !! pi_id p = Some data → is_Some (customer data))
    transactions_data →
  ∃ out, simplify_report_data transactions_data dict = Ok out
    ∧ length out = length transactions_data
    ∧ (s_id <$> out) = (id <$> transactions_data).
Proof.
  intros Hall. unfold simplify_report_data.
  induction Hall as [|t l (p & Hp & Hc) _ (out & Hout & Hlen & Hids)]; simpl.
  - by exists [].
  - destruct (simplify_transaction_intent dict t p Hp Hc) as (r & Hr & Hid & _).
    rewrite Hr; simpl. rewrite Hout; simpl.
    exists (r :: out). split_and!; [done | simpl; by f_equal | simpl; by f_equal].
Qed.

(** Whenever [simplify_report_data] returns, it returns one record per
    transaction, in the order of the input. *)
Lemma simplify_report_data_returns transactions_data dict out :
  simplify_report_data transactions_data dict = Ok out →
  length out = length transactions_data
  ∧ ∀ i t, transactions_data !! i = Some t →
      ∃ r, out !! i = Some r ∧ simplify_transaction dict t = Ok r.
Proof.
  unfold simplify_report_data. intros Hout. split.
  - by eapply for_each_length.
  - intros i t Ht. by eapply for_each_lookup.
Qed.

Lemma for_each_raises_any {A B} (f : A → result B) l x :
  x ∈ l → raises (f x) → raises (for_each f l).
Proof.
  intros Hin Hx. induction l as [|y l IH]; [by apply elem_of_nil in Hin|].
  simpl. destruct (f y) as [v|e] eqn:Hy; [simpl | by exists e].
  apply elem_of_cons in Hin as [->|Hin].
  - destruct Hx as [e He]. congruence.
  - destruct (IH Hin) as [e ->]. by exists e.
Qed.

(** The first exception of a loop is one its body raises. *)
Lemma for_each_raises_first {A B} (P : exn → Prop) (f : A → result B) l x :
  (∀ y e, f y = Raise e → P e) →
  x ∈ l → raises (f x) → ∃ e, for_each f l = Raise e ∧ P e.
Proof.
  intros HP Hin Hx. induction l as [|y l IH]; [by apply elem_of_nil in Hin|].
  simpl. destruct (f y) as [v|e] eqn:Hy; [simpl | exists e; eauto].
  apply elem_of_cons in Hin as [->|Hin].
  - destruct Hx as [e He]. congruence.
  - destruct (IH Hin) as (e & -> & He). by exists e.
Qed.

(** C1, as the code has it: a transaction that names no purchase intent
    does not pass through [simplify_report_data] with the unmatched default;
    the attribute access fails and the whole call raises, for every
    mapping.  The exception is [AttributeError] whenever every entry of the
    mapping has a customer; an entry whose customer is null can make an
    earlier transaction raise [TypeError] first, and no other exception is
    raised. *)
Theorem simplify_report_data_no_intent_raises transactions_data dict t :
  t ∈ transactions_data →
  no_intent t →
  (simplify_report_data transactions_data dict = Raise AttributeError
   ∨ simplify_report_data transactions_data dict = Raise TypeError)
  ∧ (with_customers dict →
     simplify_report_data transactions_data dict = Raise AttributeError).
Proof.
  intros Hin Hno. unfold simplify_report_data. split.
  - destruct (for_each_raises_first (λ e, e = AttributeError ∨ e = TypeError)
                (simplify_transaction dict) transactions_data t)
      as (e & -> & [-> | ->]); [|done| |by left|by right].
    + intros y e. apply simplify_transaction_raises.
    + exists AttributeError. by apply simplify_transaction_no_intent.
  - intros Hdict. apply for_each_raises.
    + intros x e. by apply simplify_transaction_raises_with_customers.
    + apply Exists_exists. exists t. split; [done|].
      by apply simplify_transaction_no_intent.
Qed.

Lemma simplify_report_data_no_intent_raises_witness :
  simplify_report_data [sample_charge; sample_fee] ∅ = Raise AttributeError.
Proof.
  apply (simplify_report_data_no_intent_raises [sample_charge; sample_fee] ∅ sample_fee).
  - right; left.
  - left; reflexivity.
  - intros k data Hk. by rewrite lookup_empty in Hk.
Defined.

(** The sibling [get_payment_intents_ids] skips the same transaction. *)
Lemma get_payment_intents_ids_skips_missing :
  get_payment_intents_ids [sample_charge; sample_fee] = Ok ["pi_1"].
Proof. reflexivity. Qed.

(** ** Entry point *)

(** C9, as the code has it: [str] has no method [startsWith], so the
    credential check of [main] raises [AttributeError] for every key,
    restricted or not, before any remote call; the run never proceeds. *)
Theorem main_raises_AttributeError
    (run : list RemoteCall → list RemoteCall * result unit)
    (api_key : option string) (calls : list RemoteCall) :
  main run api_key calls = (calls, Raise AttributeError).
Proof. unfold main. by destruct api_key. Qed.

Lemma main_restricted_key_does_not_run :
  main (λ calls, (ListRecentPayouts 5 :: calls, Ok ())) (Some "rk_live_51") []
  = ([], Raise AttributeError).
Proof. reflexivity. Qed.

(** The prefix test the check names would accept the restricted key. *)
Lemma startswith_restricted_key :
  (f ← str_getattr "startswith"; Ok (f "rk_live_51" "rk_")) = Ok true
  ∧ (f ← str_getattr "startswith"; Ok (f "sk_live_51" "rk_")) = Ok false.
Proof. split; reflexivity. Qed.

(** ** Dictionaries *)

Section DictFacts.
Context {K V : Type} `{EqDecision K}.
Implicit Types (k : K) (v : V) (d : list (K * V)).

Lemma dict_get_set k k' v d :
  dict_get k' (dict_set k v d) = if decide (k = k') then Some v else dict_get k' d.
Proof.
  induction d as [|[k0 v0] d IH]; simpl.
  - done.
  - destruct (decide (k0 = k)) as [->|Hne]; simpl.
    + by destruct (decide (k = k')).
    + rewrite IH. destruct (decide (k0 = k')) as [->|]; [|done].
      by rewrite decide_False.
Qed.

Lemma dict_get_None k d : dict_get k d = None ↔ k ∉ dict_keys d.
Proof.
  unfold dict_keys. induction d as [|[k0 v0] d IH]; csimpl.
  - split; [intros _; apply not_elem_of_nil | done].
  - rewrite not_elem_of_cons.
    destruct (decide (k0 = k)) as [->|Hne].
    + split; [done | by intros [? _]].
    + rewrite IH. split; [by intros ? | by intros [_ ?]].
Qed.

Lemma dict_keys_set k v d :
  dict_keys (dict_set k v d) =
    match dict_get k d with
    | Some _ => dict_keys d
    | None => (dict_keys d ++ [k])%list
    end.
Proof.
  unfold dict_keys. induction d as [|[k0 v0] d IH]; csimpl; [done|].
  destruct (decide (k0 = k)) as [->|Hne]; csimpl; [done|].
  rewrite IH. by destruct (dict_get k d).
Qed.

Lemma dict_set_NoDup k v d :
  NoDup (dict_keys d) → NoDup (dict_keys (dict_set k v d)).
Proof.
  intros Hd. rewrite dict_keys_set.
  destruct (dict_get k d) eqn:Hk; [done|].
  apply dict_get_None in Hk.
  apply NoDup_app. split_and!; [done | | apply NoDup_singleton].
  by intros x Hx ->%list_elem_of_singleton.
Qed.

(** Replacing or adding a value moves the total of a field by the
    difference of that field. *)
Lemma total_dict_set (f : V → Z) k v d :
  total f (dict_values (dict_set k v d)) =
    total f (dict_values d) + f v - from_option f 0 (dict_get k d).
Proof.
  unfold dict_values, total. induction d as [|[k0 v0] d IH]; csimpl.
  - lia.
  - destruct (decide (k0 = k)) as [->|Hne]; csimpl; [lia|].
    rewrite IH. lia.
Qed.
End DictFacts.

Lemma list_to_map_dict_get {V} (d : list (option string * V)) (k : option string) :
  (list_to_map d : gmap (option string) V) !! k = dict_get k d.
Proof.
  induction d as [|[k0 v0] d IH]; simpl.
  - apply lookup_empty.
  - rewrite lookup_insert. destruct (decide (k0 = k)); [done | apply IH].
Qed.

(** ** Aggregator *)

Lemma aggregate_step_NoDup d t :
  NoDup (dict_keys d) → NoDup (dict_keys (aggregate_step d t)).
Proof.
  intros Hd. unfold aggregate_step.
  destruct (dict_get (s_product t) d); by apply dict_set_NoDup.
Qed.

Lemma aggregate_NoDup_from d l :
  NoDup (dict_keys d) → NoDup (dict_keys (foldl aggregate_step d l)).
Proof.
  revert d; induction l as [|t l IH]; intros d Hd; simpl; [done|].
  by apply IH, aggregate_step_NoDup.
Qed.

Lemma aggregate_NoDup l : NoDup (dict_keys (aggregate_report_transactions l)).
Proof. apply aggregate_NoDup_from. constructor. Qed.

Lemma aggregate_step_total (f : Bucket → Z) (g : ReportTransaction → Z) d t :
  (∀ b, f {| b_amount := b_amount b + s_amount t; b_fee := b_fee b + s_fee t;
             b_net := b_net b + s_net t; b_product := b_product b |} = f b + g t) →
  f {| b_amount := s_amount t; b_fee := s_fee t; b_net := s_net t;
       b_product := s_product t |} = g t →
  total f (dict_values (aggregate_step d t)) = total f (dict_values d) + g t.
Proof.
  intros Hgrow Hnew. unfold aggregate_step.
  destruct (dict_get (s_product t) d) as [b|] eqn:Hb;
    rewrite total_dict_set, Hb; simpl.
  - rewrite Hgrow. lia.
  - rewrite Hnew. lia.
Qed.

Lemma aggregate_total_from (f : Bucket → Z) (g : ReportTransaction → Z) d l :
  (∀ t d, total f (dict_values (aggregate_step d t)) = total f (dict_values d) + g t) →
  total f (dict_values (foldl aggregate_step d l)) = total f (dict_values d) + total g l.
Proof.
  intros Hstep. revert d; induction l as [|t l IH]; intros d; simpl.
  - lia.
  - rewrite IH, Hstep. lia.
Qed.

(** C2: the amounts of the buckets add up to the amounts of the
    transactions, and so do the fees and the net amounts. *)
Theorem aggregate_conserves_totals (report_transactions : list ReportTransaction) :
  let buckets := dict_values (aggregate_report_transactions report_transactions) in
  total b_amount buckets = total s_amount report_transactions
  ∧ total b_fee buckets = total s_fee report_transactions
  ∧ total b_net buckets = total s_net report_transactions.
Proof.
  unfold aggregate_report_transactions. simpl. split_and!.
  - rewrite (aggregate_total_from b_amount s_amount); [done|].
    intros t d. by apply aggregate_step_total.
  - rewrite (aggregate_total_from b_fee s_fee); [done|].
    intros t d. by apply aggregate_step_total.
  - rewrite (aggregate_total_from b_net s_net); [done|].
    intros t d. by apply aggregate_step_total.
Qed.

Lemma aggregate_step_get p d t :
  dict_get p (aggregate_step d t) = bucket_step p (dict_get p d) t.
Proof.
  unfold aggregate_step, bucket_step.
  destruct (decide (s_product t = p)) as [<-|Hne].
  - destruct (dict_get (s_product t) d); rewrite dict_get_set;
      by rewrite decide_True.
  - destruct (dict_get (s_product t) d); rewrite dict_get_set;
      by rewrite decide_False.
Qed.

Lemma aggregate_get_from p l d :
  dict_get p (foldl aggregate_step d l) = foldl (bucket_step p) (dict_get p d) l.
Proof.
  revert d; induction l as [|t l IH]; intros d; simpl; [done|].
  by rewrite IH, aggregate_step_get.
Qed.

Lemma bucket_step_comm p o t1 t2 :
  bucket_step p (bucket_step p o t1) t2 = bucket_step p (bucket_step p o t2) t1.
Proof.
  unfold bucket_step.
  destruct (decide (s_product t1 = p)) as [H1|H1],
           (decide (s_product t2 = p)) as [H2|H2]; try done.
  destruct o as [b|]; simpl; do 2 f_equal; try lia; congruence.
Qed.

Lemma bucket_steps_permutation p l1 l2 :
  l1 ≡ₚ l2 → ∀ o, foldl (bucket_step p) o l1 = foldl (bucket_step p) o l2.
Proof.
  induction 1 as [|t l1 l2 _ IH|t1 t2 l|l1 l2 l3 _ IH1 _ IH2]; intros o; simpl.
  - done.
  - apply IH.
  - by rewrite bucket_step_comm.
  - by rewrite IH1.
Qed.

(** C7: two orders of the same transactions give equal mappings: the same
    product keys, each with the same bucket, so that the key-bucket pairs
    of one result are a rearrangement of those of the other. *)
Theorem aggregate_permutation (l1 l2 : list ReportTransaction) :
  l1 ≡ₚ l2 →
  (list_to_map (aggregate_report_transactions l1) : gmap (option string) Bucket)
    = list_to_map (aggregate_report_transactions l2)
  ∧ (∀ p, dict_get p (aggregate_report_transactions l1)
          = dict_get p (aggregate_report_transactions l2))
  ∧ aggregate_report_transactions l1 ≡ₚ aggregate_report_transactions l2.
Proof.
  intros Hperm.
  assert (∀ p, dict_get p (aggregate_report_transactions l1)
               = dict_get p (aggregate_report_transactions l2)) as Hget.
  { intros p. unfold aggregate_report_transactions.
    rewrite !aggregate_get_from. by apply bucket_steps_permutation. }
  assert ((list_to_map (aggregate_report_transactions l1)
             : gmap (option string) Bucket)
          = list_to_map (aggregate_report_transactions l2)) as Hmap.
  { apply map_eq. intros p. by rewrite !list_to_map_dict_get. }
  split_and!; [done | done |].
  apply NoDup_Permutation.
  - eapply NoDup_fmap_1, aggregate_NoDup.
  - eapply NoDup_fmap_1, aggregate_NoDup.
  - intros [p b].
    rewrite !(elem_of_list_to_map (M := gmap (option string)))
      by apply aggregate_NoDup.
    by rewrite Hmap.
Qed.

Lemma aggregate_permutation_witness :
  (list_to_map (aggregate_report_transactions
                  [sample_coffee; sample_unmatched; sample_refill])
     : gmap (option string) Bucket)
    = list_to_map (aggregate_report_transactions
                     [sample_unmatched; sample_coffee; sample_refill])
  ∧ (∀ p, dict_get p (aggregate_report_transactions
                        [sample_coffee; sample_unmatched; sample_refill])
          = dict_get p (aggregate_report_transactions
                          [sample_unmatched; sample_coffee; sample_refill]))
  ∧ aggregate_report_transactions [sample_coffee; sample_unmatched; sample_refill]
    ≡ₚ aggregate_report_transactions [sample_unmatched; sample_coffee; sample_refill].
Proof.
  apply (aggregate_permutation
           [sample_coffee; sample_unmatched; sample_refill]
           [sample_unmatched; sample_coffee; sample_refill]).
  apply perm_swap.
Defined.

(** The orders of the keys differ all the same. *)
Lemma aggregate_key_order :
  dict_keys (aggregate_report_transactions [sample_coffee; sample_unmatched])
    = [Some "Coffee"; None]
  ∧ dict_keys (aggregate_report_transactions [sample_unmatched; sample_coffee])
    = [None; Some "Coffee"].
Proof. split; reflexivity. Qed.

(** The scenario of two transactions, one matched and one not. *)
Lemma aggregate_scenario :
  aggregate_report_transactions [sample_coffee; sample_unmatched] =
    [ (Some "Coffee",
        {| b_amount := 1000; b_fee := 30; b_net := 970; b_product := Some "Coffee" |});
      (None, {| b_amount := 500; b_fee := 15; b_net := 485; b_product := None |}) ].
Proof. reflexivity. Qed.

(** ** The pipeline *)

(** A report that [get_report_data] returns carries the payout identifier
    it was asked for and the aggregation of its own transactions. *)
Lemma get_report_data_aggregation ledger sessions as_completed payout r :
  get_report_data ledger sessions as_completed payout = Ok r →
  balance_payout_id r = payout
  ∧ aggregation r = aggregate_report_transactions (transactions r)
  ∧ NoDup (dict_keys (aggregation r)).
Proof.
  unfold get_report_data. intros Hr.
  apply bind_Ok in Hr as (transactions_data & _ & Hr).
  apply bind_Ok in Hr as (ids & _ & Hr).
  apply bind_Ok in Hr as (dict & _ & Hr).
  apply bind_Ok in Hr as (report_transactions & _ & Hr).
  injection Hr as <-. simpl. split_and!; [done | done | apply aggregate_NoDup].
Qed.

Lemma get_report_data_sample :
  get_report_data sample_ledger sample_sessions reverse "po_1" =
    Ok {| balance_payout_id := "po_1";
          transactions :=
            [ {| s_id := "txn_1"; s_created := 1700000000; s_amount := 1000;
                 s_currency := "eur"; s_fee := 30; s_net := 970;
                 s_product := Some "Coffee";
                 s_name := Some "A"; s_email := Some "a@x.com" |};
              {| s_id := "txn_2"; s_created := 1700000060; s_amount := 500;
                 s_currency := "eur"; s_fee := 15; s_net := 485;
                 s_product := Some "SudoSOS Topup";
                 s_name := None; s_email := None |} ];
          aggregation :=
            [ (Some "Coffee",
                {| b_amount := 1000; b_fee := 30; b_net := 970;
                   b_product := Some "Coffee" |});
              (Some "SudoSOS Topup",
                {| b_amount := 500; b_fee := 15; b_net := 485;
                   b_product := Some "SudoSOS Topup" |}) ] |}.
Proof. by vm_compute. Qed.

(** A payout whose ledger holds an entry without a payment intent: the
    identifiers are collected, the lookups succeed, and the join fails. *)
Lemma get_report_data_fee_entry :
  get_report_data (λ _, Ok [sample_charge; sample_fee; sample_settlement])
    sample_sessions reverse "po_1"
  = Raise AttributeError.
Proof. by vm_compute. Qed.

(** ** The JSON dump *)

Lemma dict_set_fresh {K V} `{EqDecision K} (k : K) (v : V) (d : list (K * V)) :
  k ∉ dict_keys d → dict_set k v d = (d ++ [(k, v)])%list.
Proof.
  unfold dict_keys. induction d as [|[k0 v0] d IH]; csimpl; [done|].
  rewrite not_elem_of_cons. intros [Hne Hnin].
  rewrite decide_False by done. by rewrite IH.
Qed.

Lemma dict_of_pairs_from {K V} `{EqDecision K} (d pairs : list (K * V)) :
  NoDup (dict_keys (d ++ pairs)) →
  foldl (λ d kv, dict_set kv.1 kv.2 d) d pairs = (d ++ pairs)%list.
Proof.
  revert d; induction pairs as [|[k v] pairs IH]; intros d Hnd; simpl.
  - by rewrite app_nil_r.
  - rewrite dict_set_fresh.
    + rewrite IH; rewrite <- app_assoc; done.
    + unfold dict_keys in *. rewrite fmap_app in Hnd.
      apply NoDup_app in Hnd as (_ & Hdisj & _).
      intros Hin. apply (Hdisj k Hin). left.
Qed.

(** [dict(pairs)] of pairs with distinct keys is those pairs, in order. *)
Lemma dict_of_pairs_NoDup {K V} `{EqDecision K} (pairs : list (K * V)) :
  NoDup (dict_keys pairs) → dict_of_pairs pairs = pairs.
Proof. intros Hnd. unfold dict_of_pairs. by rewrite dict_of_pairs_from. Qed.

Lemma reload_optional o : json_load (json_dumps (py_optional o)) = py_optional o.
Proof. by destruct o. Qed.

Lemma reload_transaction t :
  json_load (json_dumps (PDict (transaction_items t))) = PDict (transaction_items t).
Proof.
  destruct t as [i c a cur f n p nm em]. by destruct p, nm, em.
Qed.

Lemma reload_transactions l :
  List.map json_load (List.map json_dumps
    (List.map (λ t, PDict (transaction_items t)) l))
  = List.map (λ t, PDict (transaction_items t)) l.
Proof.
  induction l as [|t l IH]; [done|].
  cbn [List.map]. by rewrite reload_transaction, IH.
Qed.

Lemma reload_bucket b :
  json_load (json_dumps (PDict (bucket_items b))) = PDict (bucket_items b).
Proof. destruct b as [a f n p]. by destruct p. Qed.

(** The members of the reloaded aggregation object, before [dict] merges
    equal keys: every key is the string the dump wrote. *)
Lemma reload_aggregation_members a :
  List.map (λ '(k, x), (KStr k, json_load x))
    (List.map (λ '(k, x), (json_key k, json_dumps x)) (aggregation_items a))
  = aggregation_items (reloaded_aggregation a).
Proof.
  unfold aggregation_items, reloaded_aggregation. induction a as [|[k b] a IH]; [done|].
  cbn [List.map]. rewrite IH. f_equal. simpl. f_equal.
  apply (reload_bucket b).
Qed.

#[local] Instance product_key_inj : Inj (=) (=) product_key.
Proof. intros [s1|] [s2|]; simpl; congruence. Qed.

Lemma aggregation_items_keys a :
  dict_keys (aggregation_items a) = product_key <$> dict_keys a.
Proof.
  unfold dict_keys, aggregation_items. induction a as [|[k b] a IH]; csimpl; [done|].
  f_equal. apply IH.
Qed.

Lemma reloaded_key_eq k1 k2 :
  reloaded_key k1 = reloaded_key k2 →
  k1 = k2 ∨ (k1 = None ∧ k2 = Some "null") ∨ (k1 = Some "null" ∧ k2 = None).
Proof.
  unfold reloaded_key. destruct k1 as [s1|], k2 as [s2|]; simpl;
    intros Heq; simplify_eq; auto.
Qed.

Lemma reloaded_keys_NoDup (keys : list (option string)) :
  NoDup keys →
  ¬ (None ∈ keys ∧ Some "null" ∈ keys) →
  NoDup (reloaded_key <$> keys).
Proof.
  intros Hnd Hcoll. apply NoDup_fmap_2_strong; [|done].
  intros k1 k2 H1 H2 Heq.
  destruct (reloaded_key_eq _ _ Heq) as [?|[[-> ->]|[-> ->]]]; [done | |];
    exfalso; apply Hcoll; by split.
Qed.

Lemma reloaded_aggregation_keys a :
  dict_keys (reloaded_aggregation a) = reloaded_key <$> dict_keys a.
Proof.
  unfold dict_keys, reloaded_aggregation.
  induction a as [|[k b] a IH]; csimpl; [done|]. f_equal. apply IH.
Qed.

Lemma reloaded_aggregation_values a :
  dict_values (reloaded_aggregation a) = dict_values a.
Proof.
  unfold dict_values, reloaded_aggregation.
  induction a as [|[k b] a IH]; csimpl; [done|]. f_equal. apply IH.
Qed.

Lemma reloaded_aggregation_named a :
  None ∉ dict_keys a → reloaded_aggregation a = a.
Proof.
  unfold dict_keys, reloaded_aggregation.
  induction a as [|[k b] a IH]; csimpl; [done|].
  rewrite not_elem_of_cons. intros [Hk Hnone]. rewrite IH by done.
  destruct k; [done | by destruct Hk].
Qed.

(** The reloaded value, member by member. *)
Lemma dump_and_reload_members r :
  dump_and_reload r =
    PDict
      [ (KStr "balance_payout_id", PStr (balance_payout_id r));
        (KStr "transactions",
          PList (List.map (λ t, PDict (transaction_items t)) (transactions r)));
        (KStr "aggregation",
          PDict (dict_of_pairs
                   (aggregation_items (reloaded_aggregation (aggregation r))))) ].
Proof.
  unfold dump_and_reload, report_value.
  cbn [json_dumps json_load List.map].
  rewrite reload_transactions, reload_aggregation_members.
  rewrite (dict_of_pairs_NoDup (K := pykey)); [done|].
  apply (bool_decide_unpack _). by vm_compute.
Qed.

Lemma aggregation_items_set k b a :
  aggregation_items (dict_set k b a)
  = dict_set (product_key k) (PDict (bucket_items b)) (aggregation_items a).
Proof.
  unfold aggregation_items. induction a as [|[k0 b0] a IH]; [done|].
  cbn [dict_set List.map].
  destruct (decide (k0 = k)) as [->|Hne].
  - by rewrite decide_True.
  - rewrite decide_False by (by intros ?%(inj product_key)).
    cbn [List.map]. by rewrite IH.
Qed.

Lemma aggregation_items_of_pairs pairs :
  aggregation_items (dict_of_pairs pairs) = dict_of_pairs (aggregation_items pairs).
Proof.
  unfold dict_of_pairs.
  change (@nil (pykey * pyval)) with (aggregation_items []).
  generalize (@nil (option string * Bucket)) as d.
  induction pairs as [|[k b] pairs IH]; intros d; [done|].
  cbn [foldl List.map aggregation_items]. rewrite IH. f_equal.
  apply aggregation_items_set.
Qed.

(** C4, as the code has it: dumping a report and loading the dump gives
    the same payout identifier and the same transactions (hence the same
    count); each product group is written under the string of its key,
    which is the key itself for a named product and "null" for the null
    product, and the groups are read back with [dict].  Unless the report
    holds both a null-product group and a group named "null", the buckets
    come back unchanged and in order (hence with the same sums of amount,
    fee and net), under the keys so renamed; without a null-product group
    the whole aggregation comes back unchanged. *)
Theorem dump_and_reload_report (r : Report) :
  ∃ r', dump_and_reload r = report_value r'
    ∧ balance_payout_id r' = balance_payout_id r
    ∧ transactions r' = transactions r
    ∧ length (transactions r') = length (transactions r)
    ∧ aggregation r' = dict_of_pairs (reloaded_aggregation (aggregation r))
    ∧ (NoDup (dict_keys (aggregation r)) →
       ¬ (None ∈ dict_keys (aggregation r) ∧ Some "null" ∈ dict_keys (aggregation r)) →
       dict_keys (aggregation r') = reloaded_key <$> dict_keys (aggregation r)
       ∧ dict_values (aggregation r') = dict_values (aggregation r)
       ∧ total b_amount (dict_values (aggregation r'))
           = total b_amount (dict_values (aggregation r))
       ∧ total b_fee (dict_values (aggregation r'))
           = total b_fee (dict_values (aggregation r))
       ∧ total b_net (dict_values (aggregation r'))
           = total b_net (dict_values (aggregation r))
       ∧ (None ∉ dict_keys (aggregation r) → aggregation r' = aggregation r)).
Proof.
  exists {| balance_payout_id := balance_payout_id r;
            transactions := transactions r;
            aggregation := dict_of_pairs (reloaded_aggregation (aggregation r)) |}.
  cbn [balance_payout_id transactions aggregation]. split_and!; try done.
  - rewrite dump_and_reload_members. unfold report_value.
    cbn [balance_payout_id transactions aggregation].
    by rewrite aggregation_items_of_pairs.
  - intros Hnd Hcoll.
    rewrite dict_of_pairs_NoDup.
    + rewrite reloaded_aggregation_values. split_and!; try done.
      * apply reloaded_aggregation_keys.
      * apply reloaded_aggregation_named.
    + rewrite reloaded_aggregation_keys. by apply reloaded_keys_NoDup.
Qed.

Lemma dump_and_reload_report_witness :
  ∃ r', dump_and_reload sample_report = report_value r'
    ∧ transactions r' = transactions sample_report
    ∧ dict_keys (aggregation r') = [Some "Coffee"; Some "null"]
    ∧ dict_values (aggregation r') = dict_values (aggregation sample_report)
    ∧ total b_amount (dict_values (aggregation r')) = 1500.
Proof.
  destruct (dump_and_reload_report sample_report)
    as (r' & Hreload & _ & Htransactions & _ & _ & Hgroups).
  destruct Hgroups as (Hkeys & Hvalues & Hamount & _).
  - apply (bool_decide_unpack _). by vm_compute.
  - apply (bool_decide_unpack _). by vm_compute.
  - exists r'. split_and!; [done | done | | done |].
    + rewrite Hkeys. reflexivity.
    + rewrite Hamount. reflexivity.
Defined.

(** The null-product group of [sample_report] does not come back under the
    null key: no report with the keys of [sample_report] is the reloaded
    value. *)
Lemma dump_and_reload_loses_null_key :
  ¬ ∃ r', dump_and_reload sample_report = report_value r'
      ∧ dict_keys (aggregation r') = dict_keys (aggregation sample_report).
Proof.
  intros (r' & Hreload & Hkeys).
  rewrite dump_and_reload_members in Hreload.
  unfold report_value in Hreload.
  injection Hreload as _ _ Hagg.
  apply (f_equal dict_keys) in Hagg.
  rewrite aggregation_items_keys, Hkeys in Hagg.
  vm_compute in Hagg. discriminate Hagg.
Qed.

(** With a null-product group and a group named "null" the dump writes the
    key "null" twice and the load keeps one bucket: a group and its sums
    are lost. *)
Lemma dump_and_reload_merges_null_named :
  dump_and_reload sample_clash_report =
    PDict
      [ (KStr "balance_payout_id", PStr "po_2");
        (KStr "transactions",
          PList [PDict (transaction_items sample_unmatched);
                 PDict (transaction_items sample_null_named)]);
        (KStr "aggregation",
          PDict [(KStr "null",
                   PDict (bucket_items
                            {| b_amount := 70; b_fee := 2; b_net := 68;
                               b_product := Some "null" |}))]) ]
  ∧ total b_amount (dict_values (aggregation sample_clash_report)) = 570.
Proof. split; reflexivity. Qed.

(** ** Timestamps *)

Lemma civil_of_cycle_day_ranges doe :
  0 ≤ doe < 146097 →
  let '(y, m, d) := civil_of_cycle_day doe in
  1 ≤ m ≤ 12 ∧ 1 ≤ d ≤ 31 ∧ 0 ≤ y ≤ 400 ∧ (doe ≤ 146036 → y ≤ 399).
Proof.
  intros Hdoe. unfold civil_of_cycle_day.
  set (yoe := (doe - doe / 1460 + doe / 36524 - doe / 146096) / 365).
  set (doy := doe - (365 * yoe + yoe / 4 - yoe / 100)).
  set (mp := (5 * doy + 2) / 153).
  assert (0 ≤ yoe ≤ 399 ∧ 0 ≤ doy ≤ 365) as [Hyoe Hdoy].
  { subst doy yoe. Z.div_mod_to_equations; lia. }
  assert (0 ≤ mp ≤ 11) by (subst mp; Z.div_mod_to_equations; lia).
  assert (1 ≤ doy - (153 * mp + 2) / 5 + 1 ≤ 31).
  { subst mp. Z.div_mod_to_equations; lia. }
  assert (doe ≤ 146036 → yoe = 399 → mp < 10).
  { subst mp doy yoe. Z.div_mod_to_equations; lia. }
  destruct (Z.ltb_spec mp 10);
    repeat match goal with
      | |- context [Z.leb ?a ?b] => destruct (Z.leb_spec a b)
      end;
    repeat split; lia.
Qed.

Lemma civil_of_cycle_day_inverse doe era :
  0 ≤ doe < 146097 →
  let '(y, m, d) := civil_of_cycle_day doe in
  days_from_civil (y + era * 400) m d = era * 146097 + doe - 719468.
Proof.
  intros Hdoe. unfold civil_of_cycle_day, days_from_civil.
  set (yoe := (doe - doe / 1460 + doe / 36524 - doe / 146096) / 365).
  set (doy := doe - (365 * yoe + yoe / 4 - yoe / 100)).
  set (mp := (5 * doy + 2) / 153).
  assert (0 ≤ yoe ≤ 399 ∧ 0 ≤ doy ≤ 365) as [Hyoe Hdoy].
  { subst doy yoe. Z.div_mod_to_equations; lia. }
  assert (0 ≤ mp ≤ 11) by (subst mp; Z.div_mod_to_equations; lia).
  set (m := if mp <? 10 then mp + 3 else mp - 9).
  assert ((if m <=? 2 then (if m <=? 2 then yoe + 1 else yoe) + era * 400 - 1
           else (if m <=? 2 then yoe + 1 else yoe) + era * 400)
          = yoe + era * 400) as ->.
  { destruct (Z.leb_spec m 2); lia. }
  assert ((if 2 <? m then m - 3 else m + 9) = mp) as ->.
  { subst m. destruct (Z.ltb_spec mp 10), (Z.ltb_spec 2 (mp + 3)),
      (Z.ltb_spec 2 (mp - 9)); lia. }
  assert ((yoe + era * 400) / 400 = era) as ->.
  { Z.div_mod_to_equations; lia. }
  assert ((153 * mp + 2) / 5 + (doy - (153 * mp + 2) / 5 + 1) - 1 = doy) as -> by lia.
  replace (yoe + era * 400 - era * 400) with yoe by lia.
  subst doy. lia.
Qed.

Lemma days_before_year_1 Y m d :
  1 ≤ m ≤ 12 → 1 ≤ d ≤ 31 → Y < 1 → days_from_civil Y m d < -719162.
Proof.
  intros Hm Hd HY. unfold days_from_civil.
  destruct (Z.leb_spec m 2), (Z.ltb_spec 2 m); try lia;
    Z.div_mod_to_equations; lia.
Qed.

Lemma days_before_year_1000 Y m d :
  1 ≤ m ≤ 12 → 1 ≤ d ≤ 31 → Y < 1000 → days_from_civil Y m d < -354285.
Proof.
  intros Hm Hd HY. unfold days_from_civil.
  destruct (Z.leb_spec m 2), (Z.ltb_spec 2 m); try lia;
    Z.div_mod_to_equations; lia.
Qed.

(** Within the years 1 to 9999 [utcfromtimestamp] returns a date in
    calendar range that stands for the timestamp it was given; from
    1000-01-01 on its year has four digits. *)
Lemma utcfromtimestamp_representable ts :
  representable ts →
  ∃ t, utcfromtimestamp ts = Ok t ∧ in_calendar t ∧ timestamp_of t = ts
    ∧ (FOUR_DIGIT_YEARS ≤ ts → 1000 ≤ year t).
Proof.
  unfold representable, in_calendar, FOUR_DIGIT_YEARS. intros Hts.
  unfold utcfromtimestamp.
  rewrite (proj2 (orb_false_iff _ _)) by (split; apply Z.ltb_ge; lia).
  set (z := ts / 86400 + 719468).
  assert (0 ≤ z mod 146097 < 146097) as Hdoe by (apply Z.mod_pos_bound; lia).
  pose proof (civil_of_cycle_day_ranges _ Hdoe) as Hr.
  pose proof (civil_of_cycle_day_inverse _ (z / 146097) Hdoe) as Hinv.
  destruct (civil_of_cycle_day (z mod 146097)) as [[y m] d].
  destruct Hr as (Hm & Hd & Hy & Hlast).
  assert (306 ≤ z ≤ 3652364) as Hz by (subst z; Z.div_mod_to_equations; lia).
  assert (0 ≤ z / 146097 ≤ 24) as Hera by (Z.div_mod_to_equations; lia).
  assert (z / 146097 = 24 → z mod 146097 ≤ 146036) as H24.
  { Z.div_mod_to_equations; lia. }
  assert (days_from_civil (y + z / 146097 * 400) m d = ts / 86400) as Hdays.
  { rewrite Hinv. subst z. Z.div_mod_to_equations; lia. }
  assert (y + z / 146097 * 400 ≤ 9999) as Hhi by lia.
  assert (1 ≤ y + z / 146097 * 400) as Hlo.
  { destruct (Z.le_gt_cases 1 (y + z / 146097 * 400)) as [?|Hlt]; [done|].
    pose proof (days_before_year_1 _ m d Hm Hd Hlt) as Hbefore.
    rewrite Hdays in Hbefore. clear -Hbefore Hts. Z.div_mod_to_equations; lia. }
  assert (-30610224000 ≤ ts → 1000 ≤ y + z / 146097 * 400) as Hfour.
  { intros Hfrom.
    destruct (Z.le_gt_cases 1000 (y + z / 146097 * 400)) as [?|Hlt]; [done|].
    pose proof (days_before_year_1000 _ m d Hm Hd Hlt) as Hbefore.
    rewrite Hdays in Hbefore. clear -Hbefore Hfrom. Z.div_mod_to_equations; lia. }
  cbv zeta.
  rewrite (proj2 (orb_false_iff _ _)) by (split; apply Z.ltb_ge; lia).
  rewrite (proj2 (andb_true_iff _ _));
    [|split; [apply Z.leb_le | apply Z.leb_le]; lia].
  eexists; split; [reflexivity|]. unfold timestamp_of; simpl.
  rewrite Hdays. clear -Hts Hm Hd Hlo Hhi Hfour.
  split_and!; try lia; Z.div_mod_to_equations; lia.
Qed.


Lemma pretty_N_char_digit (k : N) :
  (k < 10)%N → pretty_N_char k = digit (Z.of_N k).
Proof.
  intros Hk. unfold digit.
  assert (k = 0 ∨ k = 1 ∨ k = 2 ∨ k = 3 ∨ k = 4 ∨ k = 5 ∨ k = 6 ∨ k = 7 ∨ k = 8 ∨ k = 9)%N
    as Hcases by lia.
  repeat (destruct Hcases as [->|Hcases]; [reflexivity|]). by subst.
Qed.

Lemma pretty_N_go_digit (x : N) s :
  (0 < x)%N →
  pretty_N_go x s = pretty_N_go (x `div` 10) (String (digit (Z.of_N x)) s).
Proof.
  intros Hx. rewrite pretty_N_go_step by done. f_equal. f_equal.
  rewrite pretty_N_char_digit by (apply N.mod_lt; lia).
  unfold digit. rewrite N2Z.inj_mod.
  by rewrite Z.mod_mod by lia.
Qed.



(** Before year 1000 the year is written with fewer digits. *)
Lemma strftime_year_999 :
  (t ← utcfromtimestamp (-30610224001); Ok (strftime t))
  = Ok "999-12-31 23:59:59"
  ∧ is_utc_format "999-12-31 23:59:59" = false.
Proof. split; by vm_compute. Qed.

(** The three ways [utcfromtimestamp] refuses a timestamp. *)
Lemma utcfromtimestamp_refusals :
  utcfromtimestamp (-62135596801) = Raise (ValueError "year 0 is out of range")
  ∧ utcfromtimestamp 253402300800 = Raise (ValueError "year 10000 is out of range")
  ∧ utcfromtimestamp 67768036191676799
    = Raise (ValueError "year -2147481749 is out of range")
  ∧ utcfromtimestamp 67768036191676800 = Raise OSError
  ∧ utcfromtimestamp (-67768040609740801) = Raise OSError
  ∧ utcfromtimestamp 9223372036854775808 = Raise OverflowError
  ∧ utcfromtimestamp (-9223372036854775809) = Raise OverflowError.
Proof. split_and!; by vm_compute. Qed.

(** ** Exporter *)

Lemma foldM_enumerate {A B St} (f : A → result B) (g : St → nat → B → St)
    (h : nat → nat) (l : list A) (s : St) :
  foldM (λ s '(i, x), v ← f x; Ok (g s i v)) s (imap (λ i x, (h i, x)) l)
  = vs ← for_each f l; Ok (foldl (λ s '(i, v), g s i v) s (imap (λ i v, (h i, v)) vs)).
Proof.
  revert h s; induction l as [|x l IH]; intros h s; [done|].
  cbn [imap foldM for_each]. destruct (f x) as [v|e]; [|done].
  cbn [mbind result_bind]. rewrite (IH (h ∘ S)).
  by destruct (for_each f l).
Qed.

Lemma foldM_ext {A St} (f g : St → A → result St) l s :
  (∀ s x, f s x = g s x) → foldM f s l = foldM g s l.
Proof.
  intros Hfg. revert s; induction l as [|x l IH]; intros s; [done|].
  simpl. rewrite Hfg. destruct (g s x); [apply IH | done].
Qed.

Lemma write_cells_snoc row values v ws :
  write_cells row (values ++ [v]) ws
  = <[(row, S (length values)) := v]> (write_cells row values ws).
Proof.
  unfold write_cells, enumerate. rewrite imap_app, foldl_app. simpl.
  by rewrite Nat.add_0_r, Nat.add_1_r.
Qed.

Lemma write_cells_lookup row values ws r c :
  write_cells row values ws !! (r, S c)
  = if decide (r = row ∧ (c < length values)%nat) then values !! c
    else ws !! (r, S c).
Proof.
  induction values as [|v values IH] using rev_ind.
  - rewrite decide_False by (simpl; lia). done.
  - rewrite write_cells_snoc, length_app. simpl.
    destruct (decide ((row, S (length values)) = (r, S c))) as [[= <- <-]|Hne].
    + rewrite lookup_insert_eq, decide_True by lia.
      by rewrite list_lookup_middle.
    + rewrite lookup_insert_ne, IH by done.
      destruct (decide (r = row ∧ (c < length values)%nat)) as [[-> Hlt]|Hn].
      * rewrite decide_True by lia. by rewrite lookup_app_l.
      * rewrite decide_False; [done|]. intros [-> Hlt].
        assert (c = length values) as -> by lia. done.
Qed.

Lemma write_cells_column_0 row values ws r :
  write_cells row values ws !! (r, 0%nat) = ws !! (r, 0%nat).
Proof.
  induction values as [|v values IH] using rev_ind; [done|].
  rewrite write_cells_snoc, lookup_insert_ne; [done | congruence].
Qed.

Lemma write_rows_snoc start rows values ws :
  write_rows start (rows ++ [values]) ws
  = write_cells (length rows + start) values (write_rows start rows ws).
Proof.
  unfold write_rows, enumerate. rewrite imap_app, foldl_app. simpl.
  by rewrite Nat.add_0_r.
Qed.

Lemma write_rows_lookup start rows ws r c :
  write_rows start rows ws !! (r, S c)
  = match (if decide (start ≤ r)%nat then rows !! (r - start)%nat ≫= (.!! c) else None) with
    | Some v => Some v
    | None => ws !! (r, S c)
    end.
Proof.
  induction rows as [|values rows IH] using rev_ind.
  - simpl. by destruct (decide (start ≤ r)%nat).
  - rewrite write_rows_snoc, write_cells_lookup, IH.
    destruct (decide (start ≤ r)%nat) as [Hle|Hgt].
    + destruct (decide (r = (length rows + start)%nat ∧ (c < length values)%nat))
        as [[-> Hc]|Hn].
      * replace (length rows + start - start)%nat with (length rows) by lia.
        rewrite list_lookup_middle by done. simpl.
        by destruct (lookup_lt_is_Some_2 values c Hc) as [v ->].
      * destruct (decide (r - start < length rows)%nat) as [Hlt|Hge].
        -- by rewrite lookup_app_l.
        -- rewrite (lookup_ge_None_2 rows) by lia. simpl.
           destruct (decide (r - start = length rows)%nat) as [Heq|Hne].
           ++ rewrite Heq, list_lookup_middle by done. simpl.
              rewrite (lookup_ge_None_2 values); [done|]. lia.
           ++ rewrite lookup_ge_None_2; [done|]. rewrite length_app; simpl; lia.
    + rewrite decide_False by lia. done.
Qed.

Lemma for_each_fmap {A B} (f : A → result B) (g : A → B) l :
  Forall (λ x, f x = Ok (g x)) l → for_each f l = Ok (g <$> l).
Proof.
  induction 1 as [|x l Hx _ IH]; [done|].
  simpl. rewrite Hx; simpl. by rewrite IH.
Qed.

Arguments utcfromtimestamp : simpl never.
Arguments strftime : simpl never.
Arguments true_div : simpl never.

(** The quotient a [Float] cell is named by is the hundredth of the
    amount; from the limit on the division raises. *)
Lemma true_div_100 z :
  in_float_range z →
  true_div (PInt z) 100 = Ok (Float (z # 100))
  ∧ Qeq (Qmult (z # 100) (inject_Z 100)) (inject_Z z).
Proof.
  intros Hz. split.
  - unfold true_div. by rewrite (proj2 (Z.ltb_lt _ _) Hz).
  - unfold Qeq, Qmult, inject_Z. simpl. lia.
Qed.

Lemma true_div_overflow z :
  ¬ in_float_range z → true_div (PInt z) 100 = Raise OverflowError.
Proof.
  intros Hz. unfold true_div. by rewrite (proj2 (Z.ltb_ge _ _)) by (unfold in_float_range in Hz; lia).
Qed.

Lemma check_string_legal s : legal s → check_string s = Ok (cut s).
Proof. unfold legal, check_string, cut. by intros ->. Qed.

Lemma check_string_Ok s s' : check_string s = Ok s' → legal s ∧ s' = cut s.
Proof.
  unfold legal, check_string, cut.
  destruct (existsb _ _); [done|]. by intros [= <-].
Qed.

Lemma illegal_character_digit n : illegal_character (digit n) = false.
Proof.
  unfold digit. assert (0 ≤ n mod 10 < 10) as Hn by (apply Z.mod_pos_bound; lia).
  assert (Z.to_nat (n mod 10) < 10)%nat as Hk by lia.
  revert Hk. generalize (Z.to_nat (n mod 10)) as k. intros k Hk.
  do 10 (destruct k as [|k]; [reflexivity|]). lia.
Qed.

(** The year of a date is written with its one to four digits. *)
Lemma pretty_year y :
  1 ≤ y ≤ 9999 →
  pretty y = String (digit y) ""
  ∨ pretty y = digits2 y
  ∨ pretty y = String (digit (y / 100)) (digits2 y)
  ∨ pretty y = digits4 y.
Proof.
  intros Hy. destruct y as [|p|p]; try lia.
  change (pretty (Z.pos p)) with (pretty (N.pos p)).
  unfold pretty, pretty_N. rewrite decide_False by done.
  assert (Z.of_N (N.pos p) = Z.pos p) as Hp by done.
  revert Hy Hp. generalize (N.pos p) as x. intros x Hy Hx.
  assert (1 ≤ x ≤ 9999)%N as Hn by lia.
  assert (Z.of_N (x `div` 10) = Z.pos p / 10) as H1.
  { by rewrite N2Z.inj_div, Hx. }
  assert (Z.of_N ((x `div` 10) `div` 10) = Z.pos p / 100) as H2.
  { rewrite N2Z.inj_div, H1, Z.div_div by lia. done. }
  assert (Z.of_N (((x `div` 10) `div` 10) `div` 10) = Z.pos p / 1000) as H3.
  { rewrite N2Z.inj_div, H2, Z.div_div by lia. done. }
  assert (Z.of_N ((((x `div` 10) `div` 10) `div` 10) `div` 10) = 0) as H4.
  { rewrite N2Z.inj_div, H3, Z.div_div by lia. apply Z.div_small. lia. }
  rewrite pretty_N_go_digit by lia. rewrite Hx.
  destruct (decide (Z.pos p / 10 = 0)) as [Hz1|Hz1].
  { left. replace (x `div` 10)%N with 0%N by lia. by rewrite pretty_N_go_0. }
  assert (0 < Z.pos p / 10) by (Z.div_mod_to_equations; lia).
  rewrite pretty_N_go_digit by lia. rewrite H1.
  destruct (decide (Z.pos p / 100 = 0)) as [Hz2|Hz2].
  { right; left. replace ((x `div` 10) `div` 10)%N with 0%N by lia.
    by rewrite pretty_N_go_0. }
  assert (0 < Z.pos p / 100) by (Z.div_mod_to_equations; lia).
  rewrite pretty_N_go_digit by lia. rewrite H2.
  destruct (decide (Z.pos p / 1000 = 0)) as [Hz3|Hz3].
  { right; right; left. replace (((x `div` 10) `div` 10) `div` 10)%N with 0%N by lia.
    by rewrite pretty_N_go_0. }
  assert (0 < Z.pos p / 1000) by (Z.div_mod_to_equations; lia).
  rewrite pretty_N_go_digit by lia. rewrite H3.
  right; right; right.
  replace ((((x `div` 10) `div` 10) `div` 10) `div` 10)%N with 0%N by lia.
  by rewrite pretty_N_go_0.
Qed.

(** The rendering of a date in calendar range is a string the sheet takes
    and keeps whole. *)
Lemma check_string_strftime t :
  1 ≤ year t ≤ 9999 → check_string (strftime t) = Ok (strftime t).
Proof.
  intros Hy. unfold strftime.
  destruct (pretty_year _ Hy) as [-> | [-> | [-> | ->]]]; unfold digits4, digits2;
    repeat match goal with
      | |- context [digit ?x] =>
          let H := fresh "Hdigit" in
          pose proof (illegal_character_digit x) as H; revert H;
          generalize (digit x); intros ? H
      end;
    unfold check_string; simpl;
    repeat match goal with
      | H : illegal_character _ = false |- _ => rewrite H; clear H
      end;
    done.
Qed.

Section Sheet.
Variable py_repr : pyval → string.

Lemma bind_value_accepted value :
  accepted value → bind_value py_repr value = Ok (stored value).
Proof.
  destruct value as [[| |s| |]|q]; simpl; try done.
  intros Hs. by rewrite (check_string_legal s Hs).
Qed.

Lemma bind_value_Ok value value' :
  bind_value py_repr value = Ok value' → accepted value ∧ value' = stored value.
Proof.
  destruct value as [[| |s| |]|q]; simpl; try by intros [= <-].
  destruct (check_string s) as [s'|] eqn:Hs; [simpl | done].
  intros [= <-]. by destruct (check_string_Ok _ _ Hs) as [? ->].
Qed.

Lemma write_record_cells row data keys ws :
  write_record py_repr row data keys ws
  = values ← for_each (cell_of py_repr data) keys;
    Ok (write_cells row values ws).
Proof.
  unfold write_record, write_cells, enumerate.
  rewrite (foldM_ext _
             (λ ws '(i, key), v ← cell_of py_repr data key;
                              Ok (<[(row, (i + 1)%nat) := v]> ws))).
  - apply (foldM_enumerate (cell_of py_repr data)
             (λ ws i v, <[(row, (i + 1)%nat) := v]> ws) (λ i, i)).
  - intros ws' [i key]. unfold cell_of, set_cell.
    by destruct (format_for_worksheet data key).
Qed.

Lemma write_headers_cells row headers ws :
  Forall legal headers →
  write_headers py_repr row headers ws
  = Ok (write_cells row (header_cells (cut <$> headers)) ws).
Proof.
  intros Hlegal. unfold write_headers, write_cells, enumerate, set_cell.
  rewrite (foldM_enumerate (λ header, bind_value py_repr (Verbatim (PStr header)))
             (λ ws i v, <[(row, (i + 1)%nat) := v]> ws) (λ i, i)).
  rewrite (for_each_fmap _ (λ header, Verbatim (PStr (cut header)))).
  - unfold header_cells. by rewrite <- list_fmap_compose.
  - eapply Forall_impl; [exact Hlegal|]. intros header Hheader.
    by apply (bind_value_accepted (Verbatim (PStr header))).
Qed.

(** The two header rows are written as they are. *)
Lemma write_aggregation_headers row ws :
  write_headers py_repr row ["product"; "amount"; "fee"; "net"] ws
  = Ok (write_cells row (header_cells ["product"; "amount"; "fee"; "net"]) ws).
Proof.
  rewrite write_headers_cells; [done|].
  repeat (apply Forall_cons; split; [by vm_compute|]). apply Forall_nil_2.
Qed.

Lemma write_detail_headers row ws :
  write_headers py_repr row
    ["id"; "created"; "amount"; "currency"; "fee"; "net"; "product"; "name"; "email"] ws
  = Ok (write_cells row
          (header_cells ["id"; "created"; "amount"; "currency"; "fee"; "net";
                         "product"; "name"; "email"]) ws).
Proof.
  rewrite write_headers_cells; [done|].
  repeat (apply Forall_cons; split; [by vm_compute|]). apply Forall_nil_2.
Qed.

Lemma cell_of_optional data key o :
  getitem data key = Ok (py_optional o) →
  bool_decide (key ∈ ["amount"; "fee"; "net"]) = false →
  bool_decide (key = "created") = false →
  legal_optional o →
  cell_of py_repr data key = Ok (Verbatim (py_optional (cut <$> o))).
Proof.
  intros Hget Hnumeric Hcreated Hlegal. unfold cell_of, format_for_worksheet.
  rewrite Hget, Hnumeric, Hcreated. cbn [mbind result_bind].
  destruct o as [s|]; [|done].
  by apply (bind_value_accepted (Verbatim (PStr s))).
Qed.

Lemma cell_of_amount data key z :
  getitem data key = Ok (PInt z) →
  bool_decide (key ∈ ["amount"; "fee"; "net"]) = true →
  in_float_range z →
  cell_of py_repr data key = Ok (Float (z # 100)).
Proof.
  intros Hget Hnumeric Hz. unfold cell_of, format_for_worksheet.
  rewrite Hget, Hnumeric. cbn [mbind result_bind].
  by rewrite (proj1 (true_div_100 z Hz)).
Qed.

Lemma cell_of_created data ts dt :
  getitem data "created" = Ok (PInt ts) →
  utcfromtimestamp ts = Ok dt →
  1 ≤ year dt ≤ 9999 →
  cell_of py_repr data "created" = Ok (Verbatim (PStr (strftime dt))).
Proof.
  intros Hget Hdt Hyear. unfold cell_of, format_for_worksheet.
  rewrite Hget.
  change (bool_decide ("created" ∈ ["amount"; "fee"; "net"])) with false.
  change (bool_decide ("created" = "created")) with true.
  cbn [mbind result_bind]. rewrite Hdt. cbn [mbind result_bind bind_value].
  by rewrite (check_string_strftime dt Hyear).
Qed.

Lemma render_bucket b :
  exportable_bucket b →
  for_each (cell_of py_repr (bucket_items b)) ["product"; "amount"; "fee"; "net"]
  = Ok (bucket_row b).
Proof.
  intros (Hproduct & Hamount & Hfee & Hnet). cbn [for_each].
  rewrite (cell_of_optional (bucket_items b) "product" (b_product b)) by done.
  rewrite (cell_of_amount (bucket_items b) "amount" (b_amount b)) by done.
  rewrite (cell_of_amount (bucket_items b) "fee" (b_fee b)) by done.
  rewrite (cell_of_amount (bucket_items b) "net" (b_net b)) by done.
  done.
Qed.

Lemma render_transaction t dt :
  exportable_transaction t →
  utcfromtimestamp (s_created t) = Ok dt →
  1 ≤ year dt ≤ 9999 →
  for_each (cell_of py_repr (transaction_items t))
    ["id"; "created"; "amount"; "currency"; "fee"; "net"; "product"; "name"; "email"]
  = Ok (transaction_row t (strftime dt)).
Proof.
  intros (Hid & _ & Hamount & Hcurrency & Hfee & Hnet & Hproduct & Hname & Hemail).
  intros Hdt Hyear. cbn [for_each].
  rewrite (cell_of_optional (transaction_items t) "id" (Some (s_id t))) by done.
  rewrite (cell_of_created (transaction_items t) (s_created t) dt) by done.
  rewrite (cell_of_amount (transaction_items t) "amount" (s_amount t)) by done.
  rewrite (cell_of_optional (transaction_items t) "currency" (Some (s_currency t)))
    by done.
  rewrite (cell_of_amount (transaction_items t) "fee" (s_fee t)) by done.
  rewrite (cell_of_amount (transaction_items t) "net" (s_net t)) by done.
  rewrite (cell_of_optional (transaction_items t) "product" (s_product t)) by done.
  rewrite (cell_of_optional (transaction_items t) "name" (s_name t)) by done.
  rewrite (cell_of_optional (transaction_items t) "email" (s_email t)) by done.
  done.
Qed.
End Sheet.

Lemma write_rows_loop {A} (f : A → result (list cell_value)) (g : A → list cell_value)
    (body : gmap (nat * nat) cell_value → nat * A → result (gmap (nat * nat) cell_value))
    start l ws :
  (∀ ws i x, body ws (i, x) = values ← f x; Ok (write_cells (i + start) values ws)) →
  Forall (λ x, f x = Ok (g x)) l →
  foldM body ws (enumerate l) = Ok (write_rows start (g <$> l) ws).
Proof.
  intros Hbody Hall.
  rewrite (foldM_ext body
             (λ ws '(i, x), values ← f x; Ok (write_cells (i + start) values ws))).
  - unfold enumerate.
    rewrite (foldM_enumerate f (λ ws i values, write_cells (i + start) values ws)
               (λ i, i)).
    by rewrite (for_each_fmap f g).
  - intros ws' [i x]. apply Hbody.
Qed.

Lemma dict_get_key {K V} `{EqDecision K} (d : list (K * V)) k :
  k ∈ dict_keys d → is_Some (dict_get k d).
Proof.
  intros Hin. destruct (dict_get k d) eqn:Hk; [by eexists|].
  by apply dict_get_None in Hk.
Qed.

Lemma save_to_worksheet_sheet py_repr r :
  exportable r →
  save_to_worksheet py_repr r = Ok (sheet r).
Proof.
  intros [Hbuckets Htransactions]. unfold save_to_worksheet, sheet.
  rewrite write_aggregation_headers. cbn [mbind result_bind].
  rewrite (write_rows_loop (format_bucket py_repr (aggregation r))
             (key_row (aggregation r)) _ 2).
  - cbn [mbind result_bind]. rewrite write_detail_headers. cbn [mbind result_bind].
    rewrite (write_rows_loop (format_transaction py_repr)
               (λ t, transaction_row t (rendered_created t)) _
               (length (aggregation r) + 4)).
    + by replace (length (aggregation r) + 2 + 1)%nat
        with (length (aggregation r) + 3)%nat by lia.
    + intros ws i t. rewrite write_record_cells.
      by replace (i + 2 + (length (aggregation r) + 2))%nat
        with (i + (length (aggregation r) + 4))%nat by lia.
    + eapply Forall_impl; [exact Htransactions|]. intros t Ht. cbv beta.
      destruct (utcfromtimestamp_representable (s_created t)) as (dt & Hdt & Hcal & _).
      { apply Ht. }
      unfold format_transaction.
      rewrite (render_transaction py_repr t dt Ht Hdt) by apply Hcal.
      unfold rendered_created. by rewrite Hdt.
  - intros ws i k. unfold format_bucket.
    destruct (dict_get k (aggregation r)); [|done]. apply write_record_cells.
  - apply Forall_forall. intros k Hk. unfold key_row, format_bucket.
    destruct (dict_get_key _ _ Hk) as [b Hb]. rewrite Hb.
    apply render_bucket. by eapply Hbuckets.
Qed.

Lemma write_rows_column_0 start rows ws r :
  write_rows start rows ws !! (r, 0%nat) = ws !! (r, 0%nat).
Proof.
  induction rows as [|values rows IH] using rev_ind; [done|].
  by rewrite write_rows_snoc, write_cells_column_0.
Qed.




Lemma sample_report_exportable : exportable sample_report.
Proof.
  split.
  - intros k b Hb.
    assert (b ∈ dict_values (aggregation sample_report)) as Hin.
    { clear -Hb. revert Hb. generalize (aggregation sample_report) as a.
      induction a as [|[k0 b0] a IH]; [done|]. unfold dict_values. csimpl.
      destruct (decide (k0 = k)); [intros [= ->]; left | intros Hb; right; by apply IH]. }
    apply elem_of_cons in Hin as [->|Hin]; [by vm_compute|].
    apply list_elem_of_singleton in Hin as ->. by vm_compute.
  - repeat (apply Forall_cons; split; [by vm_compute|]). apply Forall_nil_2.
Qed.


(** Rows 3 to 6 of the sheet of [sample_report], which has two buckets. *)
Lemma sample_sheet :
  (ws ← save_to_worksheet sample_repr sample_report;
   Ok (ws !! (3%nat, 1%nat), ws !! (3%nat, 2%nat), ws !! (4%nat, 1%nat),
       ws !! (5%nat, 2%nat), ws !! (6%nat, 2%nat), ws !! (6%nat, 3%nat)))
  = Ok (Some (Verbatim PNone), Some (Float (500 # 100)), None,
        Some (Verbatim (PStr "created")),
        Some (Verbatim (PStr "2023-11-14 22:13:20")), Some (Float (1000 # 100))).
Proof. by vm_compute. Qed.


(** The other reports for which no sheet is written: an amount whose
    hundredth is too large for a float (one less is exported), and a
    string with a control character. *)
Lemma save_to_worksheet_overflow :
  save_to_worksheet sample_repr
    {| balance_payout_id := "po_5";
       transactions := [sample_huge];
       aggregation := aggregate_report_transactions [sample_huge] |}
  = Raise OverflowError
  ∧ is_ok (save_to_worksheet sample_repr
             {| balance_payout_id := "po_5";
                transactions := [sample_large];
                aggregation := aggregate_report_transactions [sample_large] |}).
Proof. split; [by vm_compute | eexists; by vm_compute]. Qed.

Lemma save_to_worksheet_illegal_character :
  save_to_worksheet sample_repr
    {| balance_payout_id := "po_6";
       transactions := [sample_vertical_tab];
       aggregation := aggregate_report_transactions [sample_vertical_tab] |}
  = Raise IllegalCharacterError.
Proof. by vm_compute. Qed.

(** Before year 1000 the sheet is written and the created cell is not of
    the nineteen-character form. *)
Lemma save_to_worksheet_year_999 :
  (ws ← save_to_worksheet sample_repr
          {| balance_payout_id := "po_7";
             transactions := [sample_early];
             aggregation := aggregate_report_transactions [sample_early] |};
   Ok (ws !! (5%nat, 2%nat)))
  = Ok (Some (Verbatim (PStr "999-12-31 23:59:59")))
  ∧ is_utc_format "999-12-31 23:59:59" = false.
Proof. split; by vm_compute. Qed.


(** * Further properties *)

(** ** Collecting the intent identifiers *)

Lemma payment_intent_id_expanded t p :
  payment_intent (source t) = Present (Some p) →
  payment_intent_id (source t) = Ok (pi_id p).
Proof. unfold payment_intent_id. by intros ->. Qed.

Lemma payment_intent_id_null t :
  payment_intent (source t) = Present None →
  payment_intent_id (source t) = Raise AttributeError.
Proof. unfold payment_intent_id. by intros ->. Qed.

Lemma get_payment_intents_ids_named transactions_data :
  Forall (λ t, payment_intent (source t) ≠ Present None) transactions_data →
  get_payment_intents_ids transactions_data = Ok (omap named_intent transactions_data).
Proof.
  unfold get_payment_intents_ids.
  induction 1 as [|t l Ht _ IH]; [done|].
  cbn [List.filter omap list_omap]. unfold named_intent at 1.
  destruct (payment_intent (source t)) as [|[p|]] eqn:Hp; cbn [hasattr].
  - apply IH.
  - cbn [for_each]. cbv beta. rewrite (payment_intent_id_expanded t p Hp).
    cbn [mbind result_bind]. by rewrite IH.
  - done.
Qed.

Lemma get_payment_intents_ids_null transactions_data :
  Exists (λ t, payment_intent (source t) = Present None) transactions_data →
  get_payment_intents_ids transactions_data = Raise AttributeError.
Proof.
  unfold get_payment_intents_ids.
  induction 1 as [t l Ht|t l _ IH].
  - cbn [List.filter]. rewrite Ht. cbn [hasattr for_each]. cbv beta.
    by rewrite (payment_intent_id_null t Ht).
  - cbn [List.filter].
    destruct (payment_intent (source t)) as [|[p|]] eqn:Hp; cbn [hasattr].
    + apply IH.
    + cbn [for_each]. cbv beta. rewrite (payment_intent_id_expanded t p Hp).
      cbn [mbind result_bind]. by rewrite IH.
    + cbn [for_each]. cbv beta. by rewrite (payment_intent_id_null t Hp).
Qed.

Lemma null_intent_true t :
  null_intent t = true ↔ payment_intent (source t) = Present None.
Proof.
  unfold null_intent. by destruct (payment_intent (source t)) as [|[p|]].
Qed.

(** X1: [get_payment_intents_ids] skips the transactions whose source has
    no [payment_intent] attribute and collects the identifier of every
    other one, in order; as soon as one source has the attribute set to
    [None] the whole call raises [AttributeError] instead. *)
Theorem get_payment_intents_ids_skips_or_raises transactions_data :
  get_payment_intents_ids transactions_data =
    if existsb null_intent transactions_data then Raise AttributeError
    else Ok (omap named_intent transactions_data).
Proof.
  destruct (existsb null_intent transactions_data) eqn:Hex.
  - apply get_payment_intents_ids_null.
    apply existsb_exists in Hex as (t & Hin & Ht).
    apply Exists_exists. exists t. split; [by apply list_elem_of_In|].
    by apply null_intent_true.
  - apply get_payment_intents_ids_named. apply Forall_forall. intros t Hin Hnull.
    apply null_intent_true in Hnull.
    assert (existsb null_intent transactions_data = true) as Hyes; [|congruence].
    apply existsb_exists. exists t. split; [by apply list_elem_of_In | done].
Qed.

(** ** The intent mapping *)

Section ResolverOrders.
Variable list_checkout_sessions : string → result (list Session).

Lemma collect_results_total completed d :
  (∀ k, k ∈ completed → is_ok (get_intent_data list_checkout_sessions k)) →
  is_ok (collect_results list_checkout_sessions completed d).
Proof.
  revert d; induction completed as [|future rest IH]; intros d Hall; simpl.
  - by eexists.
  - destruct (Hall future) as [[i x] Hf]; [left|]. rewrite Hf; simpl.
    apply IH. intros k Hk. apply Hall. by right.
Qed.

Lemma collect_results_ok completed d d' k :
  collect_results list_checkout_sessions completed d = Ok d' →
  k ∈ completed → is_ok (get_intent_data list_checkout_sessions k).
Proof.
  revert d; induction completed as [|future rest IH]; intros d Hd Hk; simpl in Hd.
  - by apply elem_of_nil in Hk.
  - destruct (get_intent_data list_checkout_sessions future) as [[i x]|e] eqn:Hf;
      [simpl in Hd | done].
    apply elem_of_cons in Hk as [->|Hk]; [by eexists | by eapply IH].
Qed.

Lemma collect_results_entries completed d k data :
  collect_results list_checkout_sessions completed ∅ = Ok d →
  d !! k = Some data
  ↔ k ∈ completed ∧ get_intent_data list_checkout_sessions k = Ok (k, data).
Proof.
  intros Hd. split.
  - intros Hk.
    destruct (collect_results_lookup _ _ _ _ _ _ Hd Hk) as [Hempty|Hin]; [|done].
    by rewrite lookup_empty in Hempty.
  - intros [Hin Hget].
    destruct (make_intent_charge_dict_covers list_checkout_sessions (λ l, l)
                (λ l, reflexivity l) completed d k Hd Hin)
      as (data' & Hdata' & Hget').
    rewrite Hget in Hget'. by injection Hget' as ->.
Qed.

Section Orders.
Variable as_completed : list string → list string.
Hypothesis as_completed_perm : ∀ futures, as_completed futures ≡ₚ futures.

(** X2: the mapping [make_intent_charge_dict] returns has an entry for an
    identifier exactly when the identifier was asked for, and the entry
    is the metadata [get_intent_data] resolves for it: nothing is added,
    nothing is dropped, whatever the order of completion. *)
Theorem make_intent_charge_dict_entries payment_intents_ids d :
  make_intent_charge_dict list_checkout_sessions as_completed payment_intents_ids
  = Ok d →
  ∀ k data,
    d !! k = Some data
    ↔ k ∈ payment_intents_ids
      ∧ get_intent_data list_checkout_sessions k = Ok (k, data).
Proof.
  unfold make_intent_charge_dict. intros Hd k data.
  rewrite (collect_results_entries _ _ k data Hd).
  by rewrite (as_completed_perm payment_intents_ids).
Qed.

(** X3: when every requested identifier resolves, so does the whole
    mapping: [make_intent_charge_dict] raises only what one of its
    [get_intent_data] calls raises. *)
Theorem make_intent_charge_dict_total payment_intents_ids :
  (∀ k, k ∈ payment_intents_ids →
        is_ok (get_intent_data list_checkout_sessions k)) →
  is_ok (make_intent_charge_dict list_checkout_sessions as_completed
           payment_intents_ids).
Proof.
  intros Hall. apply collect_results_total. intros k Hk. apply Hall.
  by rewrite <- (as_completed_perm payment_intents_ids).
Qed.
End Orders.

(** X4: the mapping does not depend on the order in which the worker
    pool completes the lookups: two runs that complete the same requests
    in different orders return the same dictionary. *)
Theorem make_intent_charge_dict_any_order
    (order1 order2 : list string → list string) payment_intents_ids d :
  (∀ futures, order1 futures ≡ₚ futures) →
  (∀ futures, order2 futures ≡ₚ futures) →
  make_intent_charge_dict list_checkout_sessions order1 payment_intents_ids = Ok d →
  make_intent_charge_dict list_checkout_sessions order2 payment_intents_ids = Ok d.
Proof.
  unfold make_intent_charge_dict. intros H1 H2 Hd.
  destruct (collect_results_total (order2 payment_intents_ids) ∅) as [d2 Hd2].
  { intros k Hk. eapply collect_results_ok; [exact Hd|]. by rewrite H1, <- H2. }
  rewrite Hd2. f_equal. apply map_eq. intros k.
  apply option_eq. intros data.
  rewrite (collect_results_entries _ _ k data Hd2).
  rewrite (collect_results_entries _ _ k data Hd).
  by rewrite H1, H2.
Qed.
End ResolverOrders.

Lemma make_intent_charge_dict_entries_witness :
  ∃ d, make_intent_charge_dict sample_sessions reverse ["pi_1"; "pi_2"] = Ok d
    ∧ ∀ k data,
        d !! k = Some data
        ↔ k ∈ ["pi_1"; "pi_2"] ∧ get_intent_data sample_sessions k = Ok (k, data).
Proof.
  eexists. split; [reflexivity|].
  apply (make_intent_charge_dict_entries sample_sessions reverse
           reverse_Permutation ["pi_1"; "pi_2"]).
  reflexivity.
Defined.

Lemma make_intent_charge_dict_total_witness :
  (∀ k, k ∈ ["pi_1"; "pi_2"] → is_ok (get_intent_data sample_sessions k))
  ∧ is_ok (make_intent_charge_dict sample_sessions reverse ["pi_1"; "pi_2"]).
Proof.
  assert (∀ k, k ∈ ["pi_1"; "pi_2"] → is_ok (get_intent_data sample_sessions k))
    as Hall.
  { intros k Hk. apply elem_of_cons in Hk as [->|Hk]; [by eexists|].
    apply list_elem_of_singleton in Hk as ->. by eexists. }
  split; [exact Hall|].
  exact (make_intent_charge_dict_total sample_sessions reverse
           reverse_Permutation ["pi_1"; "pi_2"] Hall).
Defined.

Lemma make_intent_charge_dict_any_order_witness :
  ∃ d, make_intent_charge_dict sample_sessions reverse ["pi_1"; "pi_2"] = Ok d
    ∧ make_intent_charge_dict sample_sessions (λ l, l) ["pi_1"; "pi_2"] = Ok d.
Proof.
  eexists. split; [reflexivity|].
  apply (make_intent_charge_dict_any_order sample_sessions reverse (λ l, l)
           ["pi_1"; "pi_2"]).
  - apply reverse_Permutation.
  - intros futures. reflexivity.
  - reflexivity.
Defined.


(** ** Joining transactions and metadata *)

Lemma for_each_Forall2 {A B} (f : A → result B) l out :
  for_each f l = Ok out → Forall2 (λ x y, f x = Ok y) l out.
Proof.
  revert out; induction l as [|x l IH]; intros out; simpl.
  - intros [= <-]. constructor.
  - destruct (f x) as [y|] eqn:Hx; [simpl | done].
    destruct (for_each f l) as [ys|]; [simpl | done].
    intros [= <-]. constructor; [done | by apply IH].
Qed.

Lemma simplify_transaction_named dict t :
  simplify_transaction dict t =
    match named_intent t with
    | Some k =>
        c ← subscriptable (customer (default unmatched (dict !! k)));
        Ok (enriched t (product (default unmatched (dict !! k))) c)
    | None => Raise AttributeError
    end.
Proof.
  unfold simplify_transaction, payment_intent_id, named_intent.
  by destruct (payment_intent (source t)) as [|[p|]].
Qed.

Lemma simplify_transaction_joined dict t r :
  simplify_transaction dict t = Ok r ↔ joined dict t r.
Proof.
  rewrite simplify_transaction_named. unfold joined. split.
  - destruct (named_intent t) as [k|]; [|done].
    destruct (customer (default unmatched (dict !! k))) as [c|] eqn:Hc; [|done].
    intros [= <-]. by exists k, c.
  - intros (k & c & -> & Hc & ->). by rewrite Hc.
Qed.

Lemma named_intent_expanded t k :
  named_intent t = Some k →
  ∃ p, payment_intent (source t) = Present (Some p) ∧ pi_id p = k.
Proof.
  unfold named_intent.
  destruct (payment_intent (source t)) as [|[p|]]; [done | | done].
  intros [= <-]. by exists p.
Qed.

(** X5: [simplify_report_data] returns exactly when every transaction
    names an intent and the mapping's entry for that intent, if there is
    one, has a customer; what it returns is one record per transaction, in
    order, each with the six ledger fields of its transaction and with
    product, name and email from the entry, or [None] three times when the
    mapping has no entry.  An entry whose customer is null makes the call
    raise instead. *)
Theorem simplify_report_data_joins transactions_data dict out :
  simplify_report_data transactions_data dict = Ok out
  ↔ Forall2 (joined dict) transactions_data out.
Proof.
  unfold simplify_report_data. split.
  - intros Hout. apply for_each_Forall2 in Hout.
    eapply Forall2_impl; [exact Hout|]. intros t r. apply simplify_transaction_joined.
  - induction 1 as [|t r l out' Hjoined _ IH]; [done|].
    cbn [for_each]. apply simplify_transaction_joined in Hjoined.
    rewrite Hjoined. cbn [mbind result_bind]. by rewrite IH.
Qed.

(** A session that collected no customer details: the lookup returns, and
    the join of a transaction of that intent raises. *)
Lemma simplify_report_data_null_customer :
  get_intent_data sample_anonymous_sessions "pi_1"
  = Ok ("pi_1", {| product := Some "Coffee"; customer := None |})
  ∧ simplify_report_data [sample_charge]
      {[ "pi_1" := {| product := Some "Coffee"; customer := None |} ]}
    = Raise TypeError.
Proof. split; reflexivity. Qed.

(** ** The whole pipeline *)

Lemma omap_named_intent_elem t (l : list BalanceTransaction) k :
  t ∈ l → named_intent t = Some k → k ∈ omap named_intent l.
Proof. intros Hin Hk. apply list_elem_of_omap. by exists t. Qed.

Section Pipeline.
Variable list_payout_transactions : string → result (list BalanceTransaction).
Variable list_checkout_sessions : string → result (list Session).
Variable as_completed : list string → list string.
Hypothesis as_completed_perm : ∀ futures, as_completed futures ≡ₚ futures.

(** X6: a report [get_report_data] returns carries the payout identifier
    it was asked for; its transactions are, in ledger order, the
    non-payout entries of the ledger, each one naming an intent and
    enriched with exactly the metadata [get_intent_data] resolves for
    that intent, customer included (the three-[None] default is never
    used); its aggregation is the aggregation of those transactions. *)
Theorem get_report_data_resolved payout r :
  get_report_data list_payout_transactions list_checkout_sessions as_completed payout
  = Ok r →
  ∃ entries, list_payout_transactions payout = Ok entries
    ∧ balance_payout_id r = payout
    ∧ Forall2 (λ t rt, ∃ k data c,
                 named_intent t = Some k
                 ∧ get_intent_data list_checkout_sessions k = Ok (k, data)
                 ∧ customer data = Some c
                 ∧ rt = enriched t (product data) c)
        (List.filter (λ t, negb (is_payout t)) entries) (transactions r)
    ∧ aggregation r = aggregate_report_transactions (transactions r).
Proof.
  unfold get_report_data, get_payout_transactions. intros Hr.
  apply bind_Ok in Hr as (kept & Hkept & Hr).
  apply bind_Ok in Hkept as (entries & Hentries & [= <-]).
  apply bind_Ok in Hr as (ids & Hids & Hr).
  apply bind_Ok in Hr as (dict & Hdict & Hr).
  apply bind_Ok in Hr as (rts & Hrts & [= <-]).
  exists entries. cbn [balance_payout_id transactions aggregation].
  split_and!; try done.
  set (kept := List.filter (λ t, negb (is_payout t)) entries) in *.
  apply for_each_Forall2 in Hrts.
  assert (Forall (λ t, is_Some (named_intent t)) kept) as Hnamed.
  { apply Forall_forall. intros t Ht.
    destruct (proj1 (list_elem_of_lookup _ _) Ht) as [i Hi].
    destruct (Forall2_lookup_l _ _ _ _ _ Hrts Hi) as (rt & _ & Hrt).
    apply simplify_transaction_joined in Hrt as (k & _ & Hk & _). by exists k. }
  assert (ids = omap named_intent kept) as ->.
  { rewrite get_payment_intents_ids_named in Hids; [by injection Hids|].
    eapply Forall_impl; [exact Hnamed|]. intros t [k Hk] Hnull.
    unfold named_intent in Hk. by rewrite Hnull in Hk. }
  apply Forall2_same_length_lookup. split; [by eapply Forall2_length|].
  intros i t rt Ht Hrt.
  pose proof (Forall2_lookup_lr _ _ _ _ _ _ Hrts Ht Hrt) as Hs.
  cbv beta in Hs.
  apply simplify_transaction_joined in Hs as (k & c & Hk & Hc & ->).
  destruct (make_intent_charge_dict_covers _ _ as_completed_perm _ _ k Hdict)
    as (data & Hdata & Hget).
  { eapply omap_named_intent_elem; [|done]. by eapply list_elem_of_lookup_2. }
  rewrite Hdata in Hc |- *. simpl in Hc |- *. by exists k, data, c.
Qed.

(** X7: [get_report_data] returns a report whenever the ledger can be
    listed and every non-payout entry names an intent whose sessions
    resolve to metadata with a customer: it raises nothing of its own. *)
Theorem get_report_data_total payout entries :
  list_payout_transactions payout = Ok entries →
  (∀ t, t ∈ entries → type t ≠ "payout" →
        ∃ k data, named_intent t = Some k
           ∧ get_intent_data list_checkout_sessions k = Ok (k, data)
           ∧ is_Some (customer data)) →
  is_ok (get_report_data list_payout_transactions list_checkout_sessions
           as_completed payout).
Proof.
  intros Hentries Hall. unfold get_report_data, get_payout_transactions.
  rewrite Hentries. cbn [mbind result_bind].
  set (kept := List.filter (λ t, negb (is_payout t)) entries).
  assert (∀ t, t ∈ kept → ∃ k data, named_intent t = Some k
            ∧ get_intent_data list_checkout_sessions k = Ok (k, data)
            ∧ is_Some (customer data)) as Hkept.
  { intros t Ht. apply list_elem_of_In, filter_In in Ht as [Hin Hty].
    apply Hall; [by apply list_elem_of_In|].
    unfold is_payout in Hty. intros Heq. rewrite Heq in Hty. done. }
  rewrite get_payment_intents_ids_named.
  2:{ apply Forall_forall. intros t Ht Hnull.
      destruct (Hkept t Ht) as (k & data & Hk & _).
      unfold named_intent in Hk. by rewrite Hnull in Hk. }
  cbn [mbind result_bind].
  destruct (collect_results_total list_checkout_sessions
              (as_completed (omap named_intent kept)) ∅) as [dict Hdict].
  { intros k Hk. rewrite (as_completed_perm (omap named_intent kept)) in Hk.
    apply list_elem_of_omap in Hk as (t & Ht & Hnamed).
    destruct (Hkept t Ht) as (k' & data & Hk' & Hget & _).
    exists (k, data). congruence. }
  unfold make_intent_charge_dict. rewrite Hdict. cbn [mbind result_bind].
  destruct (simplify_report_data_all_intents kept dict) as (out & Hout & _).
  { apply Forall_forall. intros t Ht.
    destruct (Hkept t Ht) as (k & data & Hk & Hget & Hcustomer).
    destruct (named_intent_expanded t k Hk) as (p & Hp & <-).
    exists p. split; [done|]. intros data' Hdata'.
    destruct (collect_results_lookup _ _ _ _ _ _ Hdict Hdata') as [Hempty|[_ Hget']].
    - by rewrite lookup_empty in Hempty.
    - rewrite Hget in Hget'. by injection Hget' as <-. }
  rewrite Hout. cbn [mbind result_bind]. by eexists.
Qed.

(** X8: one non-payout ledger entry whose source has no
    [payment_intent] attribute makes the whole of [get_report_data]
    raise: the entry is skipped when the identifiers are collected and
    dereferenced again when the records are built. *)
Theorem get_report_data_no_intent payout entries t :
  list_payout_transactions payout = Ok entries →
  t ∈ entries → type t ≠ "payout" → no_intent t →
  raises (get_report_data list_payout_transactions list_checkout_sessions
            as_completed payout).
Proof.
  intros Hentries Hin Hty Hno.
  destruct (get_report_data list_payout_transactions list_checkout_sessions
              as_completed payout) as [r|e] eqn:Hr; [|by exists e].
  exfalso. unfold get_report_data, get_payout_transactions in Hr.
  rewrite Hentries in Hr. cbn [mbind result_bind] in Hr.
  apply bind_Ok in Hr as (ids & _ & Hr).
  apply bind_Ok in Hr as (dict & _ & Hr).
  apply bind_Ok in Hr as (rts & Hrts & _).
  unfold simplify_report_data in Hrts.
  destruct (for_each_raises_any (simplify_transaction dict)
              (List.filter (λ t, negb (is_payout t)) entries) t) as [e He].
  - apply list_elem_of_In, filter_In. split; [by apply list_elem_of_In|].
    unfold is_payout. apply negb_true_iff. by apply String.eqb_neq.
  - exists AttributeError. by apply simplify_transaction_no_intent.
  - by rewrite He in Hrts.
Qed.
End Pipeline.

Lemma get_report_data_resolved_witness :
  ∃ r, get_report_data sample_ledger sample_sessions reverse "po_1" = Ok r
    ∧ ∃ entries, sample_ledger "po_1" = Ok entries
        ∧ balance_payout_id r = "po_1"
        ∧ Forall2 (λ t rt, ∃ k data c,
                     named_intent t = Some k
                     ∧ get_intent_data sample_sessions k = Ok (k, data)
                     ∧ customer data = Some c
                     ∧ rt = enriched t (product data) c)
            (List.filter (λ t, negb (is_payout t)) entries) (transactions r)
        ∧ aggregation r = aggregate_report_transactions (transactions r).
Proof.
  exists sample_live_report. split; [exact get_report_data_sample|].
  exact (get_report_data_resolved sample_ledger sample_sessions reverse
           reverse_Permutation "po_1" sample_live_report get_report_data_sample).
Defined.

Lemma get_report_data_total_witness :
  sample_ledger "po_1" = Ok [sample_charge; sample_settlement; sample_topup]
  ∧ is_ok (get_report_data sample_ledger sample_sessions reverse "po_1").
Proof.
  split; [reflexivity|].
  apply (get_report_data_total sample_ledger sample_sessions reverse
           reverse_Permutation "po_1"
           [sample_charge; sample_settlement; sample_topup]); [reflexivity|].
  intros t Ht Hty.
  apply elem_of_cons in Ht as [->|Ht].
  { eexists "pi_1", _. split_and!; [reflexivity | reflexivity | by eexists]. }
  apply elem_of_cons in Ht as [->|Ht]; [done|].
  apply list_elem_of_singleton in Ht as ->.
  eexists "pi_2", _. split_and!; [reflexivity | reflexivity | by eexists].
Defined.

(** With a session that collected no customer details every lookup
    returns and the report is not assembled. *)
Lemma get_report_data_null_customer :
  get_report_data sample_ledger sample_anonymous_sessions reverse "po_1"
  = Raise TypeError.
Proof. by vm_compute. Qed.

Lemma get_report_data_no_intent_witness :
  raises (get_report_data sample_fee_ledger sample_sessions reverse "po_2").
Proof.
  apply (get_report_data_no_intent sample_fee_ledger sample_sessions reverse
           "po_2" [sample_charge; sample_fee] sample_fee).
  - reflexivity.
  - right; left.
  - discriminate.
  - by left.
Defined.

(** ** The buckets of the aggregation *)

Lemma total_filter_step (f : ReportTransaction → Z) p t l :
  total f (of_product p (t :: l))
  = (if decide (s_product t = p) then f t else 0) + total f (of_product p l).
Proof.
  unfold of_product. rewrite filter_cons.
  destruct (decide (s_product t = p)); simpl; lia.
Qed.

Lemma bucket_steps_grow p b l :
  foldl (bucket_step p) (Some b) l =
    Some {| b_amount := b_amount b + total s_amount (of_product p l);
            b_fee := b_fee b + total s_fee (of_product p l);
            b_net := b_net b + total s_net (of_product p l);
            b_product := b_product b |}.
Proof.
  revert b; induction l as [|t l IH]; intros b.
  - simpl. destruct b; simpl. do 2 f_equal; lia.
  - cbn [foldl]. unfold bucket_step at 2. rewrite !total_filter_step.
    destruct (decide (s_product t = p)).
    + rewrite IH. simpl. do 2 f_equal; lia.
    + rewrite IH. do 2 f_equal; lia.
Qed.

(** X9: the aggregation has a bucket for a product exactly when some
    transaction is of that product, and the bucket holds the sums of
    amount, fee and net over the transactions of that product, and the
    product itself. *)
Theorem aggregate_bucket_of_product l p :
  dict_get p (aggregate_report_transactions l) =
    if decide (of_product p l = []) then None
    else Some {| b_amount := total s_amount (of_product p l);
                 b_fee := total s_fee (of_product p l);
                 b_net := total s_net (of_product p l);
                 b_product := p |}.
Proof.
  unfold aggregate_report_transactions. rewrite aggregate_get_from.
  cbn [dict_get]. induction l as [|t l IH]; [done|].
  cbn [foldl]. unfold bucket_step at 2, of_product. rewrite filter_cons.
  destruct (decide (s_product t = p)) as [Hp|Hp].
  - rewrite decide_False by done. rewrite bucket_steps_grow.
    cbn [b_amount b_fee b_net b_product total foldr]. unfold of_product.
    by rewrite Hp.
  - apply IH.
Qed.

Lemma aggregate_step_keys d t :
  dict_keys (aggregate_step d t) =
    (dict_keys d ++ filter (λ k, k ∉ dict_keys d) [s_product t])%list.
Proof.
  unfold aggregate_step.
  destruct (dict_get (s_product t) d) as [b|] eqn:Hget; rewrite dict_keys_set, Hget.
  - rewrite filter_cons_False, filter_nil; [by rewrite app_nil_r|].
    intros Hnot. apply dict_get_None in Hnot. congruence.
  - rewrite filter_cons_True; [done|]. by apply dict_get_None.
Qed.

Lemma aggregate_keys_from l d :
  dict_keys (foldl aggregate_step d l) =
    (dict_keys d
     ++ filter (λ k, k ∉ dict_keys d) (first_occurrences (s_product <$> l)))%list.
Proof.
  revert d; induction l as [|t l IH]; intros d.
  - simpl. by rewrite app_nil_r.
  - cbn [foldl]. rewrite IH, aggregate_step_keys. csimpl.
    set (p := s_product t). set (ks := dict_keys d).
    set (rest := first_occurrences (s_product <$> l)).
    rewrite filter_cons. destruct (decide (p ∉ ks)) as [Hout|Hin].
    + rewrite filter_cons_True, filter_nil by done.
      rewrite <- app_assoc. cbn [app]. do 2 f_equal.
      rewrite list_filter_filter. apply list_filter_iff. intros k.
      rewrite not_elem_of_app, list_elem_of_singleton. naive_solver.
    + rewrite filter_cons_False, filter_nil, app_nil_r by done.
      f_equal. rewrite list_filter_filter. apply list_filter_iff. intros k.
      split; [|by intros [Hk _]]. intros Hk. split; [done|]. intros ->. done.
Qed.

Lemma filter_all {A} (P : A → Prop) `{!∀ x, Decision (P x)} (l : list A) :
  (∀ x, P x) → filter P l = l.
Proof.
  intros HP. induction l as [|x l IH]; [done|].
  by rewrite filter_cons_True, IH.
Qed.

(** X10: the buckets are kept in the order in which their products are
    first met in the transactions. *)
Theorem aggregate_keys_first_seen l :
  dict_keys (aggregate_report_transactions l) = first_occurrences (s_product <$> l).
Proof.
  unfold aggregate_report_transactions. rewrite aggregate_keys_from.
  cbn [app]. apply filter_all. intros k. apply not_elem_of_nil.
Qed.


(** ** The sheet, row by row *)

Lemma write_rows_loop_eq {A} (f : A → result (list cell_value))
    (body : gmap (nat * nat) cell_value → nat * A → result (gmap (nat * nat) cell_value))
    start l ws :
  (∀ ws i x, body ws (i, x) = values ← f x; Ok (write_cells (i + start) values ws)) →
  foldM body ws (enumerate l) = rows ← for_each f l; Ok (write_rows start rows ws).
Proof.
  intros Hbody.
  rewrite (foldM_ext body
             (λ ws '(i, x), values ← f x; Ok (write_cells (i + start) values ws))).
  - unfold enumerate.
    apply (foldM_enumerate f (λ ws i values, write_cells (i + start) values ws)
             (λ i, i)).
  - intros ws' [i x]. apply Hbody.
Qed.

(** Past the end of year 9999 no date is returned. *)
Lemma utcfromtimestamp_late ts :
  253402300800 ≤ ts → raises (utcfromtimestamp ts).
Proof.
  intros Hts. unfold utcfromtimestamp.
  destruct ((ts <? -9223372036854775808) || (9223372036854775807 <? ts));
    [by eexists|].
  set (z := ts / 86400 + 719468).
  assert (0 ≤ z mod 146097 < 146097) as Hdoe by (apply Z.mod_pos_bound; lia).
  pose proof (civil_of_cycle_day_ranges _ Hdoe) as Hr.
  pose proof (civil_of_cycle_day_inverse _ (z / 146097) Hdoe) as Hinv.
  destruct (civil_of_cycle_day (z mod 146097)) as [[y m] d].
  destruct Hr as (Hm & Hd & Hy & Hlast).
  assert (days_from_civil (y + z / 146097 * 400) m d = ts / 86400) as Hdays.
  { rewrite Hinv. subst z. Z.div_mod_to_equations; lia. }
  assert (2932897 ≤ ts / 86400) as Hpos by (Z.div_mod_to_equations; lia).
  assert (9999 < y + z / 146097 * 400) as Hyear.
  { destruct (Z.lt_ge_cases 9999 (y + z / 146097 * 400)) as [?|Hle]; [done|].
    exfalso. clear Hinv. revert Hdays.
    generalize (y + z / 146097 * 400) Hle. intros Y HY.
    revert Hpos. generalize (ts / 86400). intros days Hpos.
    clear -Hm Hd HY Hpos. unfold days_from_civil.
    destruct (Z.leb_spec m 2), (Z.ltb_spec 2 m); try lia;
      intros <-; Z.div_mod_to_equations; lia. }
  cbv zeta.
  destruct ((y + z / 146097 * 400 - 1900 <? -2147483648)
            || (2147483647 <? y + z / 146097 * 400 - 1900)); [by eexists|].
  rewrite (proj2 (andb_false_iff _ _)); [by eexists|].
  right. apply Z.leb_gt. lia.
Qed.

Lemma write_cells_is_Some row values ws r c :
  is_Some (write_cells row values ws !! (r, c)) →
  (r = row ∧ (1 ≤ c ≤ length values)%nat) ∨ is_Some (ws !! (r, c)).
Proof.
  destruct c as [|c].
  - rewrite write_cells_column_0. by right.
  - rewrite write_cells_lookup.
    destruct (decide (r = row ∧ (c < length values)%nat)) as [[-> Hc]|_];
      [left; lia | by right].
Qed.

Lemma write_rows_is_Some start rows ws r c :
  is_Some (write_rows start rows ws !! (r, c)) →
  (∃ values, rows !! (r - start)%nat = Some values
             ∧ (start ≤ r)%nat ∧ (1 ≤ c ≤ length values)%nat)
  ∨ is_Some (ws !! (r, c)).
Proof.
  destruct c as [|c].
  - rewrite write_rows_column_0. by right.
  - rewrite write_rows_lookup.
    destruct (decide (start ≤ r)%nat) as [Hle|_]; [|by right].
    destruct (rows !! (r - start)%nat) as [values|] eqn:Hrow; [simpl | by right].
    destruct (values !! c) as [v|] eqn:Hv; [|by right].
    intros _. left. exists values. split_and!; [done | done | lia |].
    apply lookup_lt_Some in Hv. lia.
Qed.

Section SheetRows.
Variable py_repr : pyval → string.

(** The export as two passes: every row is formatted, then the rows are
    laid out.  No hypothesis on the report. *)
Lemma save_to_worksheet_rows r :
  save_to_worksheet py_repr r =
    bucket_rows ←
      for_each (format_bucket py_repr (aggregation r)) (dict_keys (aggregation r));
    transaction_rows ← for_each (format_transaction py_repr) (transactions r);
    Ok (sheet_of_rows (length (aggregation r)) bucket_rows transaction_rows).
Proof.
  unfold save_to_worksheet, sheet_of_rows.
  rewrite write_aggregation_headers. cbn [mbind result_bind].
  rewrite (write_rows_loop_eq (format_bucket py_repr (aggregation r)) _ 2).
  2:{ intros ws i k. unfold format_bucket.
      destruct (dict_get k (aggregation r)); [|done]. apply write_record_cells. }
  destruct (for_each (format_bucket py_repr (aggregation r))
              (dict_keys (aggregation r))) as [bucket_rows|e]; [|done].
  cbn [mbind result_bind]. rewrite write_detail_headers. cbn [mbind result_bind].
  rewrite (write_rows_loop_eq (format_transaction py_repr) _
             (length (aggregation r) + 4)).
  2:{ intros ws i t. rewrite write_record_cells.
      by replace (i + 2 + (length (aggregation r) + 2))%nat
        with (i + (length (aggregation r) + 4))%nat by lia. }
  destruct (for_each (format_transaction py_repr) (transactions r)) as [rows|e];
    [|done].
  cbn [mbind result_bind].
  by replace (length (aggregation r) + 2 + 1)%nat
    with (length (aggregation r) + 3)%nat by lia.
Qed.

Lemma format_bucket_get a k b :
  dict_get k a = Some b → format_bucket py_repr a k = format_bucket_row py_repr b.
Proof. unfold format_bucket. by intros ->. Qed.

Lemma format_bucket_NoDup a :
  NoDup (dict_keys a) →
  for_each (format_bucket py_repr a) (dict_keys a)
  = for_each (format_bucket_row py_repr) (dict_values a).
Proof.
  intros Hnd.
  assert (∀ a0, (∀ k b, (k, b) ∈ a0 → dict_get k a = Some b) →
            for_each (format_bucket py_repr a) (dict_keys a0)
            = for_each (format_bucket_row py_repr) (dict_values a0)) as Hgen.
  { induction a0 as [|[k b] a0 IH]; intros Hall; [done|].
    unfold dict_keys, dict_values in *. csimpl. cbn [for_each].
    rewrite (format_bucket_get a k b) by (apply Hall; left).
    rewrite IH; [done|]. intros k' b' Hin. apply Hall. by right. }
  apply Hgen. intros k b Hin.
  rewrite <- list_to_map_dict_get.
  by apply (elem_of_list_to_map_1 (M := gmap (option string))).
Qed.

Lemma save_to_worksheet_bucket_values r :
  NoDup (dict_keys (aggregation r)) →
  save_to_worksheet py_repr r =
    bucket_rows ← for_each (format_bucket_row py_repr) (dict_values (aggregation r));
    transaction_rows ← for_each (format_transaction py_repr) (transactions r);
    Ok (sheet_of_rows (length (dict_values (aggregation r)))
          bucket_rows transaction_rows).
Proof.
  intros Hnd. rewrite save_to_worksheet_rows, format_bucket_NoDup by done.
  replace (length (dict_values (aggregation r))) with (length (aggregation r));
    [done|].
  unfold dict_values. by rewrite length_fmap.
Qed.

(** X11: the sheet is made of the transactions and of the buckets in
    their order only: the keys the buckets are stored under and the payout
    identifier do not enter it.  Two reports with the same transactions
    and the same buckets in the same order export alike, also when the
    export raises. *)
Theorem save_to_worksheet_same_rows r1 r2 :
  NoDup (dict_keys (aggregation r1)) →
  NoDup (dict_keys (aggregation r2)) →
  dict_values (aggregation r1) = dict_values (aggregation r2) →
  transactions r1 = transactions r2 →
  save_to_worksheet py_repr r1 = save_to_worksheet py_repr r2.
Proof.
  intros Hnd1 Hnd2 Hvalues Htransactions.
  rewrite !save_to_worksheet_bucket_values by done.
  by rewrite Hvalues, Htransactions.
Qed.

Lemma format_transaction_late t :
  253402300800 ≤ s_created t → raises (format_transaction py_repr t).
Proof.
  intros Hts. destruct (utcfromtimestamp_late _ Hts) as [e He].
  unfold format_transaction.
  apply (for_each_raises_any _ _ "created"); [right; left|].
  exists e. unfold cell_of, format_for_worksheet.
  change (getitem (transaction_items t) "created") with (Ok (PInt (s_created t))).
  change (bool_decide ("created" ∈ ["amount"; "fee"; "net"])) with false.
  change (bool_decide ("created" = "created")) with true.
  cbn [mbind result_bind]. by rewrite He.
Qed.

(** X12: one transaction created after the end of year 9999 and the
    export raises, whatever else the report holds: no sheet is returned. *)
Theorem save_to_worksheet_late_timestamp r t :
  t ∈ transactions r →
  253402300800 ≤ s_created t →
  raises (save_to_worksheet py_repr r).
Proof.
  intros Hin Hts. rewrite save_to_worksheet_rows.
  destruct (for_each (format_bucket py_repr (aggregation r))
              (dict_keys (aggregation r))) as [bucket_rows|e]; [|by exists e].
  cbn [mbind result_bind].
  destruct (for_each_raises_any (format_transaction py_repr) _ t Hin
              (format_transaction_late t Hts)) as [e ->].
  by exists e.
Qed.

Lemma format_bucket_length a k row :
  format_bucket py_repr a k = Ok row → length row = 4%nat.
Proof.
  unfold format_bucket. destruct (dict_get k a); [|done].
  intros Hrow. by apply for_each_length in Hrow.
Qed.

Lemma format_transaction_length t row :
  format_transaction py_repr t = Ok row → length row = 9%nat.
Proof. intros Hrow. by apply for_each_length in Hrow. Qed.

(** X13: an exported sheet has no cell outside its two blocks: with [n]
    buckets and [m] transactions, a cell that holds something is in rows
    1 to n+1 and columns 1 to 4, or in rows n+3 to n+3+m and columns 1 to
    9.  Row n+2 and everything else stay empty. *)
Theorem save_to_worksheet_extent r ws row col :
  save_to_worksheet py_repr r = Ok ws →
  is_Some (ws !! (row, col)) →
  let n := length (aggregation r) in
  let m := length (transactions r) in
  ((1 ≤ row ≤ n + 1)%nat ∧ (1 ≤ col ≤ 4)%nat)
  ∨ ((n + 3 ≤ row ≤ n + 3 + m)%nat ∧ (1 ≤ col ≤ 9)%nat).
Proof.
  rewrite save_to_worksheet_rows. intros Hws Hcell n m.
  apply bind_Ok in Hws as (bucket_rows & Hbuckets & Hws).
  apply bind_Ok in Hws as (rows & Hrows & [= <-]).
  pose proof (for_each_length _ _ _ Hbuckets) as Hn.
  pose proof (for_each_length _ _ _ Hrows) as Hm.
  unfold dict_keys in Hn. rewrite length_fmap in Hn. fold n in Hn. fold m in Hm.
  apply for_each_Forall2 in Hbuckets, Hrows.
  unfold sheet_of_rows in Hcell. fold n in Hcell.
  apply write_rows_is_Some in Hcell as [(values & Hrow & Hle & Hcol)|Hcell].
  { right. pose proof (lookup_lt_Some _ _ _ Hrow) as Hlt.
    destruct (Forall2_lookup_r _ _ _ _ _ Hrows Hrow) as (t & _ & Ht).
    apply format_transaction_length in Ht. lia. }
  apply write_cells_is_Some in Hcell as [[-> Hcol]|Hcell].
  { right. simpl in Hcol. lia. }
  apply write_rows_is_Some in Hcell as [(values & Hrow & Hle & Hcol)|Hcell].
  { left. pose proof (lookup_lt_Some _ _ _ Hrow) as Hlt.
    destruct (Forall2_lookup_r _ _ _ _ _ Hbuckets Hrow) as (k & _ & Hk).
    apply format_bucket_length in Hk. lia. }
  apply write_cells_is_Some in Hcell as [[-> Hcol]|Hcell].
  { left. simpl in Hcol. lia. }
  rewrite lookup_empty in Hcell. by destruct Hcell.
Qed.

Lemma save_to_worksheet_rekeyed r :
  NoDup (dict_keys (aggregation r)) →
  ¬ (None ∈ dict_keys (aggregation r) ∧ Some "null" ∈ dict_keys (aggregation r)) →
  save_to_worksheet py_repr
    {| balance_payout_id := balance_payout_id r;
       transactions := transactions r;
       aggregation := reloaded_aggregation (aggregation r) |}
  = save_to_worksheet py_repr r.
Proof.
  intros Hnd Hclash. rewrite !save_to_worksheet_bucket_values.
  - cbn [transactions aggregation]. by rewrite reloaded_aggregation_values.
  - done.
  - cbn [aggregation]. rewrite reloaded_aggregation_keys.
    by apply reloaded_keys_NoDup.
Qed.
End SheetRows.

Lemma save_to_worksheet_same_rows_witness :
  save_to_worksheet sample_repr sample_report
  = save_to_worksheet sample_repr sample_rekeyed_report.
Proof.
  apply (save_to_worksheet_same_rows sample_repr sample_report sample_rekeyed_report).
  - apply (bool_decide_unpack _). by vm_compute.
  - apply (bool_decide_unpack _). by vm_compute.
  - reflexivity.
  - reflexivity.
Defined.

Lemma save_to_worksheet_late_timestamp_witness :
  raises (save_to_worksheet sample_repr
            {| balance_payout_id := "po_4";
               transactions := [sample_coffee; sample_late; sample_refill];
               aggregation :=
                 aggregate_report_transactions
                   [sample_coffee; sample_late; sample_refill] |}).
Proof.
  apply (save_to_worksheet_late_timestamp sample_repr _ sample_late).
  - right; left.
  - simpl; lia.
Defined.

Lemma save_to_worksheet_extent_witness :
  save_to_worksheet sample_repr sample_report = Ok (sheet sample_report)
  ∧ is_Some (sheet sample_report !! (3%nat, 2%nat))
  ∧ (let n := length (aggregation sample_report) in
     let m := length (transactions sample_report) in
     ((1 ≤ 3 ≤ n + 1)%nat ∧ (1 ≤ 2 ≤ 4)%nat)
     ∨ ((n + 3 ≤ 3 ≤ n + 3 + m)%nat ∧ (1 ≤ 2 ≤ 9)%nat)).
Proof.
  assert (is_Some (sheet sample_report !! (3%nat, 2%nat))) as Hcell.
  { eexists. vm_compute. reflexivity. }
  split_and!.
  - exact (save_to_worksheet_sheet sample_repr sample_report sample_report_exportable).
  - exact Hcell.
  - exact (save_to_worksheet_extent sample_repr sample_report (sheet sample_report) 3 2
             (save_to_worksheet_sheet sample_repr sample_report
                sample_report_exportable)
             Hcell).
Defined.

(** ** What is exported

    The conditions of [exportable] are the only ones: a report for which
    [save_to_worksheet] returns meets them. *)

Lemma days_from_year_1 Y m d :
  1 ≤ m ≤ 12 → 1 ≤ d ≤ 31 → 1 ≤ Y → -719162 ≤ days_from_civil Y m d.
Proof.
  intros Hm Hd HY. unfold days_from_civil.
  destruct (Z.leb_spec m 2), (Z.ltb_spec 2 m); try lia;
    Z.div_mod_to_equations; lia.
Qed.

Lemma days_until_year_9999 Y m d :
  1 ≤ m ≤ 12 → 1 ≤ d ≤ 31 → Y ≤ 9999 → days_from_civil Y m d ≤ 2932896.
Proof.
  intros Hm Hd HY. unfold days_from_civil.
  destruct (Z.leb_spec m 2), (Z.ltb_spec 2 m); try lia;
    Z.div_mod_to_equations; lia.
Qed.

Lemma utcfromtimestamp_Ok ts t : utcfromtimestamp ts = Ok t → representable ts.
Proof.
  unfold utcfromtimestamp, representable.
  destruct ((ts <? -9223372036854775808) || (9223372036854775807 <? ts)); [done|].
  set (z := ts / 86400 + 719468).
  assert (0 ≤ z mod 146097 < 146097) as Hdoe by (apply Z.mod_pos_bound; lia).
  pose proof (civil_of_cycle_day_ranges _ Hdoe) as Hr.
  pose proof (civil_of_cycle_day_inverse _ (z / 146097) Hdoe) as Hinv.
  destruct (civil_of_cycle_day (z mod 146097)) as [[y m] d].
  destruct Hr as (Hm & Hd & _).
  assert (days_from_civil (y + z / 146097 * 400) m d = ts / 86400) as Hdays.
  { rewrite Hinv. subst z. Z.div_mod_to_equations; lia. }
  cbv zeta.
  destruct ((y + z / 146097 * 400 - 1900 <? -2147483648)
            || (2147483647 <? y + z / 146097 * 400 - 1900)); [done|].
  destruct ((1 <=? y + z / 146097 * 400) && (y + z / 146097 * 400 <=? 9999))
    eqn:Hyear; [|done].
  intros _. apply andb_true_iff in Hyear as [Hlo%Z.leb_le Hhi%Z.leb_le].
  pose proof (days_from_year_1 _ m d Hm Hd Hlo) as Hfrom.
  pose proof (days_until_year_9999 _ m d Hm Hd Hhi) as Huntil.
  rewrite Hdays in Hfrom, Huntil. clear -Hfrom Huntil.
  Z.div_mod_to_equations; lia.
Qed.

Section Exportable.
Variable py_repr : pyval → string.

Lemma cell_of_optional_Ok data key o v :
  getitem data key = Ok (py_optional o) →
  bool_decide (key ∈ ["amount"; "fee"; "net"]) = false →
  bool_decide (key = "created") = false →
  cell_of py_repr data key = Ok v → legal_optional o.
Proof.
  intros Hget Hnumeric Hcreated. unfold cell_of, format_for_worksheet.
  rewrite Hget, Hnumeric, Hcreated. cbn [mbind result_bind].
  destruct o as [s|]; [|done]. intros Hv.
  by destruct (bind_value_Ok py_repr _ _ Hv) as [? _].
Qed.

Lemma cell_of_amount_Ok data key z v :
  getitem data key = Ok (PInt z) →
  bool_decide (key ∈ ["amount"; "fee"; "net"]) = true →
  cell_of py_repr data key = Ok v → in_float_range z.
Proof.
  intros Hget Hnumeric. unfold cell_of, format_for_worksheet.
  rewrite Hget, Hnumeric. cbn [mbind result_bind]. unfold true_div, in_float_range.
  by destruct (Z.ltb_spec (Z.abs z) (100 * FLOAT_LIMIT)).
Qed.

Lemma cell_of_created_Ok data ts v :
  getitem data "created" = Ok (PInt ts) →
  cell_of py_repr data "created" = Ok v → representable ts.
Proof.
  intros Hget. unfold cell_of, format_for_worksheet. rewrite Hget.
  change (bool_decide ("created" ∈ ["amount"; "fee"; "net"])) with false.
  change (bool_decide ("created" = "created")) with true.
  cbn [mbind result_bind].
  destruct (utcfromtimestamp ts) as [t|] eqn:Ht; [|done].
  intros _. by eapply utcfromtimestamp_Ok.
Qed.

Lemma format_bucket_row_Ok b row :
  format_bucket_row py_repr b = Ok row → exportable_bucket b.
Proof.
  unfold format_bucket_row. cbn [for_each]. intros Hrow.
  apply bind_Ok in Hrow as (v1 & H1 & Hrow).
  apply bind_Ok in Hrow as (rest & Hrow & _).
  apply bind_Ok in Hrow as (v2 & H2 & Hrow).
  apply bind_Ok in Hrow as (rest' & Hrow & _).
  apply bind_Ok in Hrow as (v3 & H3 & Hrow).
  apply bind_Ok in Hrow as (rest'' & Hrow & _).
  apply bind_Ok in Hrow as (v4 & H4 & _).
  split_and!.
  - by apply (cell_of_optional_Ok (bucket_items b) "product" _ v1).
  - by apply (cell_of_amount_Ok (bucket_items b) "amount" _ v2).
  - by apply (cell_of_amount_Ok (bucket_items b) "fee" _ v3).
  - by apply (cell_of_amount_Ok (bucket_items b) "net" _ v4).
Qed.

Lemma format_transaction_Ok t row :
  format_transaction py_repr t = Ok row → exportable_transaction t.
Proof.
  unfold format_transaction. intros Hrow.
  apply for_each_Forall2 in Hrow.
  assert (∀ key, key ∈ ["id"; "created"; "amount"; "currency"; "fee"; "net";
                         "product"; "name"; "email"] →
            ∃ v, cell_of py_repr (transaction_items t) key = Ok v) as Hcell.
  { intros key Hkey. apply list_elem_of_lookup in Hkey as [i Hi].
    destruct (Forall2_lookup_l _ _ _ _ _ Hrow Hi) as (v & _ & Hv). by exists v. }
  split_and!.
  - destruct (Hcell "id") as [v Hv]; [apply (bool_decide_unpack _); by vm_compute|].
    by apply (cell_of_optional_Ok (transaction_items t) "id" (Some (s_id t)) v).
  - destruct (Hcell "created") as [v Hv]; [apply (bool_decide_unpack _); by vm_compute|].
    by apply (cell_of_created_Ok (transaction_items t) _ v).
  - destruct (Hcell "amount") as [v Hv]; [apply (bool_decide_unpack _); by vm_compute|].
    by apply (cell_of_amount_Ok (transaction_items t) "amount" _ v).
  - destruct (Hcell "currency") as [v Hv]; [apply (bool_decide_unpack _); by vm_compute|].
    by apply (cell_of_optional_Ok (transaction_items t) "currency"
                (Some (s_currency t)) v).
  - destruct (Hcell "fee") as [v Hv]; [apply (bool_decide_unpack _); by vm_compute|].
    by apply (cell_of_amount_Ok (transaction_items t) "fee" _ v).
  - destruct (Hcell "net") as [v Hv]; [apply (bool_decide_unpack _); by vm_compute|].
    by apply (cell_of_amount_Ok (transaction_items t) "net" _ v).
  - destruct (Hcell "product") as [v Hv]; [apply (bool_decide_unpack _); by vm_compute|].
    by apply (cell_of_optional_Ok (transaction_items t) "product" _ v).
  - destruct (Hcell "name") as [v Hv]; [apply (bool_decide_unpack _); by vm_compute|].
    by apply (cell_of_optional_Ok (transaction_items t) "name" _ v).
  - destruct (Hcell "email") as [v Hv]; [apply (bool_decide_unpack _); by vm_compute|].
    by apply (cell_of_optional_Ok (transaction_items t) "email" _ v).
Qed.

(** [save_to_worksheet] returns a sheet for the exportable reports and
    for no other. *)
Lemma save_to_worksheet_returns r :
  is_ok (save_to_worksheet py_repr r) ↔ exportable r.
Proof.
  split; [|intros Hr; exists (sheet r); by apply save_to_worksheet_sheet].
  intros [ws Hws]. rewrite save_to_worksheet_rows in Hws.
  apply bind_Ok in Hws as (bucket_rows & Hbuckets & Hws).
  apply bind_Ok in Hws as (rows & Hrows & _).
  apply for_each_Forall2 in Hbuckets, Hrows. split.
  - intros k b Hb.
    assert (k ∈ dict_keys (aggregation r)) as Hk.
    { destruct (decide (k ∈ dict_keys (aggregation r))) as [?|Hout]; [done|].
      apply dict_get_None in Hout. congruence. }
    apply list_elem_of_lookup in Hk as [i Hi].
    destruct (Forall2_lookup_l _ _ _ _ _ Hbuckets Hi) as (row & _ & Hrow).
    rewrite (format_bucket_get py_repr _ k b Hb) in Hrow.
    by eapply format_bucket_row_Ok.
  - apply Forall_forall. intros t Ht. apply list_elem_of_lookup in Ht as [i Hi].
    destruct (Forall2_lookup_l _ _ _ _ _ Hrows Hi) as (row & _ & Hrow).
    by eapply format_transaction_Ok.
Qed.
End Exportable.

(** ** The exporter on dynamic values *)

Lemma dict_get_aggregation_items a k :
  dict_get (product_key k) (aggregation_items a)
  = (λ b, PDict (bucket_items b)) <$> dict_get k a.
Proof.
  unfold aggregation_items. induction a as [|[k0 b0] a IH]; [done|].
  cbn [List.map dict_get].
  destruct (decide (k0 = k)) as [->|Hne].
  - by rewrite decide_True.
  - rewrite decide_False by (by intros ?%(inj product_key)). apply IH.
Qed.

Lemma hash_key_key_value k : hash_key (key_value k) = Ok k.
Proof. by destruct k. Qed.

Lemma foldM_enumerate_fmap {A B St} (g : A → B)
    (body : St → nat * B → result St) (l : list A) (s : St) :
  foldM body s (enumerate (g <$> l))
  = foldM (λ s '(i, x), body s (i, g x)) s (enumerate l).
Proof.
  unfold enumerate.
  assert (∀ (h : nat → nat) s,
            foldM body s (imap (λ i y, (h i, y)) (g <$> l))
            = foldM (λ s '(i, x), body s (i, g x)) s (imap (λ i x, (h i, x)) l))
    as Hgen.
  { induction l as [|x l IH]; intros h s'; [done|].
    csimpl. destruct (body s' (h 0%nat, g x)); [|done].
    cbn [mbind result_bind]. apply (IH (h ∘ S)). }
  apply (Hgen (λ i, i)).
Qed.

(** The report a dump is read back as, when the dump has no two equal
    keys. *)
Lemma dump_and_reload_value r :
  NoDup (dict_keys (aggregation r)) →
  ¬ (None ∈ dict_keys (aggregation r) ∧ Some "null" ∈ dict_keys (aggregation r)) →
  dump_and_reload r =
    report_value {| balance_payout_id := balance_payout_id r;
                    transactions := transactions r;
                    aggregation := reloaded_aggregation (aggregation r) |}.
Proof.
  intros Hnd Hclash. rewrite dump_and_reload_members. unfold report_value.
  cbn [balance_payout_id transactions aggregation].
  rewrite <- aggregation_items_of_pairs, dict_of_pairs_NoDup; [done|].
  rewrite reloaded_aggregation_keys. by apply reloaded_keys_NoDup.
Qed.

Section ExporterFacts.
Variable py_repr : pyval → string.

(** Only the two members the exporter reads matter. *)
Lemma save_to_worksheet_dyn_members report_data r :
  subscript report_data (PStr "aggregation")
  = Ok (PDict (aggregation_items (aggregation r))) →
  subscript report_data (PStr "transactions")
  = Ok (PList (List.map (λ t, PDict (transaction_items t)) (transactions r))) →
  save_to_worksheet_dyn py_repr report_data = save_to_worksheet py_repr r.
Proof.
  intros Haggregation Htransactions.
  unfold save_to_worksheet_dyn, save_to_worksheet.
  rewrite Haggregation, Htransactions.
  cbn [mbind result_bind py_len py_iter].
  rewrite !write_aggregation_headers. cbn [mbind result_bind].
  replace (length (aggregation_items (aggregation r)))
    with (length (aggregation r)) by (unfold aggregation_items; by rewrite length_map).
  rewrite aggregation_items_keys, <- list_fmap_compose, foldM_enumerate_fmap.
  rewrite (foldM_ext _
    (λ ws '(row_idx, data),
       match dict_get data (aggregation r) with
       | Some bucket =>
           write_record py_repr (row_idx + 2) (bucket_items bucket)
             (["product"] ++ ["amount"; "fee"; "net"]) ws
       | None => Raise KeyError
       end)).
  2:{ intros ws [i k]. cbn [compose].
      unfold subscript. rewrite hash_key_key_value. cbn [mbind result_bind].
      rewrite dict_get_aggregation_items.
      by destruct (dict_get k (aggregation r)) as [b|]. }
  destruct (foldM _ _ (enumerate (dict_keys (aggregation r)))) as [ws|e]; [|done].
  cbn [mbind result_bind]. rewrite !write_detail_headers. cbn [mbind result_bind].
  change (List.map (λ t, PDict (transaction_items t)) (transactions r))
    with ((λ t, PDict (transaction_items t)) <$> transactions r).
  rewrite foldM_enumerate_fmap. apply foldM_ext. by intros ws' [i t].
Qed.

(** X14: on the dict [get_report_data] builds, the exporter written over
    dynamic values (subscripts, [len] and iteration that can fail) does
    what the exporter over report records does: same sheet, or same
    exception.  None of the failures of a subscript, of [len] or of an
    iteration occurs on a report the program built itself. *)
Theorem save_to_worksheet_dyn_report r :
  save_to_worksheet_dyn py_repr (report_value r) = save_to_worksheet py_repr r.
Proof. by apply save_to_worksheet_dyn_members. Qed.

(** X15: exporting a report that went through a dump and
    [read_report_data_from_json] gives what exporting the live report
    gives, as long as the dump merges no two buckets: the change of the
    null key to "null" on the way does not show in the sheet. *)
Theorem save_to_worksheet_dyn_reloaded r :
  NoDup (dict_keys (aggregation r)) →
  ¬ (None ∈ dict_keys (aggregation r) ∧ Some "null" ∈ dict_keys (aggregation r)) →
  save_to_worksheet_dyn py_repr (dump_and_reload r) = save_to_worksheet py_repr r.
Proof.
  intros Hnd Hclash. rewrite dump_and_reload_value by done.
  rewrite <- (save_to_worksheet_rekeyed py_repr r Hnd Hclash).
  by apply save_to_worksheet_dyn_members.
Qed.

(** X16: a value that is not a dict is refused with [TypeError] and a dict
    without an "aggregation" member with [KeyError], before anything is
    written. *)
Theorem save_to_worksheet_dyn_not_a_report report_data :
  (∀ d, report_data = PDict d → dict_get (KStr "aggregation") d = None) →
  save_to_worksheet_dyn py_repr report_data =
    Raise match report_data with
          | PDict _ => KeyError
          | _ => TypeError
          end.
Proof.
  intros Hmissing. unfold save_to_worksheet_dyn.
  destruct report_data as [| | | |d]; try done.
  cbn [subscript hash_key mbind result_bind].
  by rewrite (Hmissing d eq_refl).
Qed.
End ExporterFacts.

Lemma save_to_worksheet_dyn_reloaded_witness :
  save_to_worksheet_dyn sample_repr (dump_and_reload sample_report)
  = save_to_worksheet sample_repr sample_report.
Proof.
  apply (save_to_worksheet_dyn_reloaded sample_repr sample_report).
  - apply (bool_decide_unpack _). by vm_compute.
  - apply (bool_decide_unpack _). by vm_compute.
Defined.

Lemma save_to_worksheet_dyn_not_a_report_witness :
  save_to_worksheet_dyn sample_repr (PDict [(KStr "transactions", PList [])])
  = Raise KeyError.
Proof.
  apply (save_to_worksheet_dyn_not_a_report sample_repr
           (PDict [(KStr "transactions", PList [])])).
  intros d [= <-]. reflexivity.
Defined.

(** ** Processing a report *)

Lemma json_dumps_reloaded_aggregation a :
  json_dumps (PDict (aggregation_items (reloaded_aggregation a)))
  = json_dumps (PDict (aggregation_items a)).
Proof.
  cbn [json_dumps]. f_equal. unfold aggregation_items, reloaded_aggregation.
  induction a as [|[k b] a IH]; [done|].
  cbn [List.map fst snd]. rewrite IH. by destruct k.
Qed.

Lemma json_dumps_reloaded r :
  NoDup (dict_keys (aggregation r)) →
  ¬ (None ∈ dict_keys (aggregation r) ∧ Some "null" ∈ dict_keys (aggregation r)) →
  json_dumps (dump_and_reload r) = json_dumps (report_value r).
Proof.
  intros Hnd Hclash. rewrite dump_and_reload_value by done.
  unfold report_value.
  cbn [balance_payout_id transactions aggregation].
  pose proof (json_dumps_reloaded_aggregation (aggregation r)) as Hagg.
  cbn [json_dumps List.map] in *. by rewrite Hagg.
Qed.



Section RunFacts.
Variable list_payout_transactions : string → result (list BalanceTransaction).
Variable list_checkout_sessions : string → result (list Session).
Variable as_completed : list string → list string.
Variable read_json_file : string → result json.
Variable py_repr : pyval → string.

(** X17: with neither a JSON path nor a payout identifier, the empty
    string counting as not given, [process_report_data] raises its
    [ValueError]; nothing is printed and nothing is saved. *)
Theorem process_report_data_nothing_given payout_id json_file_path
    print_json save_to_excel output_name w :
  truthy json_file_path = false →
  truthy payout_id = false →
  process_report_data list_payout_transactions list_checkout_sessions as_completed
    read_json_file py_repr payout_id json_file_path print_json save_to_excel
    output_name w
  = (w, Raise (ValueError "Either payout ID or JSON file must be provided.")).
Proof. unfold process_report_data. by intros -> ->. Qed.


(** The same run with an amount too large for a float: the dump is
    printed, the export raises, no workbook is saved. *)
Lemma process_report_data_not_exportable :
  process_report_data
    (λ _, Ok [ {| id := "txn_6"; created := 1700000000;
                  amount := 100 * FLOAT_LIMIT; currency := "eur"; fee := 30;
                  net := 970; type := "charge";
                  source := {| payment_intent :=
                                 Present (Some {| pi_id := "pi_1" |}) |} |} ])
    sample_sessions reverse sample_files sample_repr
    (Some "po_8") None false true None empty_world
  = (empty_world, Raise OverflowError).
Proof. by vm_compute. Qed.

(** X19: a JSON path takes precedence over a payout identifier: when one
    is given the payment provider is not consulted, so the run is the
    same whatever the provider would have answered and whatever payout
    was named. *)
Theorem process_report_data_json_first
    (ledger' : string → result (list BalanceTransaction))
    (sessions' : string → result (list Session))
    (order' : list string → list string)
    payout_id payout_id' json_file_path print_json save_to_excel output_name w :
  truthy json_file_path = true →
  process_report_data list_payout_transactions list_checkout_sessions as_completed
    read_json_file py_repr payout_id json_file_path print_json save_to_excel
    output_name w
  = process_report_data ledger' sessions' order'
      read_json_file py_repr payout_id' json_file_path print_json save_to_excel
      output_name w.
Proof. unfold process_report_data. by intros ->. Qed.

(** X20: a report can be regenerated from its own dump: when the file
    holds what [-c] printed for a payout and no bucket is named "null"
    beside the null bucket, processing the file prints and saves what
    processing the payout does, under the same workbook name. *)
Theorem process_report_data_regenerates payout path r payout_id
    print_json output_name w :
  truthy (Some payout) = true →
  truthy (Some path) = true →
  get_report_data list_payout_transactions list_checkout_sessions as_completed payout
  = Ok r →
  ¬ (None ∈ dict_keys (aggregation r) ∧ Some "null" ∈ dict_keys (aggregation r)) →
  read_json_file path = Ok (json_dumps (report_value r)) →
  process_report_data list_payout_transactions list_checkout_sessions as_completed
    read_json_file py_repr payout_id (Some path) print_json true output_name w
  = process_report_data list_payout_transactions list_checkout_sessions as_completed
      read_json_file py_repr (Some payout) None print_json true output_name w.
Proof.
  intros Hpayout Hpath Hr Hclash Hfile.
  destruct (get_report_data_aggregation _ _ _ _ _ Hr) as (_ & _ & Hnd).
  unfold process_report_data, read_report_data_from_json.
  rewrite Hpath, Hpayout. cbn [truthy default from_option]. unfold Datatypes.id.
  rewrite Hfile, Hr. cbn [mbind result_bind].
  change (json_load (json_dumps (report_value r))) with (dump_and_reload r).
  rewrite json_dumps_reloaded by done.
  rewrite (save_to_worksheet_dyn_members py_repr (report_value r) r eq_refl eq_refl).
  rewrite (dump_and_reload_value r) by done.
  rewrite (save_to_worksheet_dyn_members py_repr
             (report_value
                {| balance_payout_id := balance_payout_id r;
                   transactions := transactions r;
                   aggregation := reloaded_aggregation (aggregation r) |})
             {| balance_payout_id := balance_payout_id r;
                transactions := transactions r;
                aggregation := reloaded_aggregation (aggregation r) |}
             eq_refl eq_refl).
  by rewrite (save_to_worksheet_rekeyed py_repr r Hnd Hclash).
Qed.

(** X21: [process_report_data] for a payout, without a JSON path and
    without the dump, saving under a given name, is [make_report] as long
    as the payout identifier is not the empty string; for the empty
    string it raises its [ValueError] and does not reach the provider,
    which [make_report] does. *)
Theorem make_report_is_process_report_data payout name w :
  process_report_data list_payout_transactions list_checkout_sessions as_completed
    read_json_file py_repr (Some payout) None false true (Some name) w
  = if decide (payout = "") then
      (w, Raise (ValueError "Either payout ID or JSON file must be provided."))
    else
      make_report list_payout_transactions list_checkout_sessions as_completed
        py_repr payout name w.
Proof.
  unfold make_report, process_report_data.
  destruct payout as [|c payout]; [done|].
  rewrite decide_False by done.
  cbn [truthy default from_option]. unfold Datatypes.id.
  destruct (get_report_data _ _ _ (String c payout)) as [r|e]; [|done].
  cbn [mbind result_bind].
  by destruct (save_to_worksheet_dyn py_repr (report_value r)).
Qed.
End RunFacts.

Lemma process_report_data_nothing_given_witness :
  process_report_data sample_ledger sample_sessions reverse sample_files sample_repr
    None (Some "") true true None empty_world
  = (empty_world,
     Raise (ValueError "Either payout ID or JSON file must be provided.")).
Proof.
  apply (process_report_data_nothing_given sample_ledger sample_sessions reverse
           sample_files sample_repr None (Some "") true true None empty_world).
  - reflexivity.
  - reflexivity.
Defined.


Lemma process_report_data_json_first_witness :
  process_report_data sample_ledger sample_sessions reverse sample_files sample_repr
    (Some "po_1") (Some "dump.json") false true None empty_world
  = process_report_data sample_fee_ledger sample_sessions (λ l, l)
      sample_files sample_repr None (Some "dump.json") false true None empty_world.
Proof.
  apply (process_report_data_json_first sample_ledger sample_sessions reverse
           sample_files sample_repr sample_fee_ledger sample_sessions (λ l, l)
           (Some "po_1") None (Some "dump.json") false true None empty_world).
  reflexivity.
Defined.

Lemma process_report_data_regenerates_witness :
  process_report_data sample_ledger sample_sessions reverse sample_files sample_repr
    None (Some "dump.json") true true None empty_world
  = process_report_data sample_ledger sample_sessions reverse sample_files
      sample_repr (Some "po_1") None true true None empty_world.
Proof.
  apply (process_report_data_regenerates sample_ledger sample_sessions reverse
           sample_files sample_repr "po_1" "dump.json" sample_live_report None
           true None empty_world).
  - reflexivity.
  - reflexivity.
  - exact get_report_data_sample.
  - apply (bool_decide_unpack _). by vm_compute.
  - reflexivity.
Defined.

(** With the empty string for a payout [make_report] asks the provider
    and saves; [process_report_data] does neither. *)
Lemma make_report_empty_payout :
  (make_report sample_ledger sample_sessions reverse sample_repr
     "" "out.xlsx" empty_world).2 = Ok ()
  ∧ (process_report_data sample_ledger sample_sessions reverse sample_files
       sample_repr (Some "") None false true (Some "out.xlsx") empty_world).2
    = Raise (ValueError "Either payout ID or JSON file must be provided.").
Proof. split; by vm_compute. Qed.

(** ** Choosing a payout *)



Lemma sequence_item_beyond {A} (l : list A) z :
  Z.of_nat (length l) ≤ z → sequence_item l z = Raise IndexError.
Proof.
  intros Hz. unfold sequence_item.
  destruct (Z.ltb_spec z 0); [lia|].
  rewrite (proj2 (andb_false_iff _ _)); [done|].
  right. apply Z.ltb_ge. lia.
Qed.

Section LoopFacts.
Variable list_payout_transactions : string → result (list BalanceTransaction).
Variable list_checkout_sessions : string → result (list Session).
Variable as_completed : list string → list string.
Variable list_recent_payouts : option Z → result (list Payout).
Variable read_json_file : string → result json.
Variable py_repr : pyval → string.

(** Lines that are turned down are prompted for and answered, and change
    nothing else. *)
Lemma prompt_loop_skips n payouts args pre rest w :
  Forall (rejected n) pre →
  ∃ w', prompt_loop list_payout_transactions list_checkout_sessions as_completed
          read_json_file py_repr n payouts args (pre ++ rest) w
        = prompt_loop list_payout_transactions list_checkout_sessions as_completed
            read_json_file py_repr n payouts args rest w'
      ∧ saved w' = saved w.
Proof.
  intros Hpre. revert w. induction Hpre as [|t pre Ht _ IH]; intros w.
  - by exists w.
  - cbn [app prompt_loop]. destruct t as [choice|].
    + destruct Ht as [Hnz Hout].
      destruct (Z.eqb_spec choice 0); [done|].
      rewrite (proj2 (orb_true_iff _ _)).
      2:{ destruct Hout; [left; by apply Z.ltb_lt | right; by apply Z.ltb_lt]. }
      edestruct IH as (w' & Hrest & Hsaved). rewrite Hrest. by exists w'.
    + edestruct IH as (w' & Hrest & Hsaved). rewrite Hrest. by exists w'.
Qed.


(** X23: a choice within 1..n for which the provider returned no payout
    (it returned fewer than the n asked for) ends the run with
    [IndexError]: the bound checked is n, not the number of payouts
    listed. *)
Theorem prompt_loop_unlisted_choice n payouts args pre choice rest w :
  Forall (rejected n) pre →
  Z.of_nat (length payouts) < choice ≤ n →
  (prompt_loop list_payout_transactions list_checkout_sessions as_completed
     read_json_file py_repr n payouts args (pre ++ Number choice :: rest) w).2
  = Raised IndexError.
Proof.
  intros Hpre Hchoice.
  destruct (prompt_loop_skips n payouts args pre (Number choice :: rest) w Hpre)
    as (w' & -> & _).
  cbn [prompt_loop]. destruct (Z.eqb_spec choice 0); [lia|].
  rewrite (proj2 (orb_false_iff _ _)).
  2:{ split; apply Z.ltb_ge; lia. }
  by rewrite sequence_item_beyond by lia.
Qed.

(** X24: after any number of lines that are turned down, 0 ends the
    selection normally; no workbook has been saved and what is typed
    after the 0 is not read. *)
Theorem prompt_loop_zero_exits n payouts args pre rest w :
  Forall (rejected n) pre →
  ∃ w', prompt_loop list_payout_transactions list_checkout_sessions as_completed
          read_json_file py_repr n payouts args (pre ++ Number 0 :: rest) w
        = (w', Returned)
      ∧ saved w' = saved w.
Proof.
  intros Hpre.
  destruct (prompt_loop_skips n payouts args pre (Number 0 :: rest) w Hpre)
    as (w' & -> & Hsaved).
  cbn [prompt_loop]. eexists. split; [reflexivity|]. done.
Qed.


Lemma print_payouts_listing payouts start w :
  Forall (λ payout, representable (p_created payout)) payouts →
  print_payouts start payouts w
  = ({| stdout := stdout w
                  ++ imap (λ i payout, payout_line (Z.of_nat i + start) payout) payouts;
        saved := saved w |}, Ok ()).
Proof.
  intros Hall. revert start w.
  induction Hall as [|payout payouts Hts _ IH]; intros start w.
  - cbn [print_payouts imap]. rewrite app_nil_r. by destruct w.
  - cbn [print_payouts imap].
    destruct (utcfromtimestamp_representable _ Hts) as (t & Ht & _).
    rewrite Ht, IH. cbn [print stdout saved]. rewrite <- app_assoc. cbn [app].
    do 3 f_equal. f_equal.
    + unfold payout_line, rendered_date. by rewrite Ht.
    + apply imap_ext. intros i p _. cbn [compose]. f_equal. lia.
Qed.

(** X26: with [-s N] for an N that is not positive, when the provider
    lists payouts whose creation times lie within the years 1 to 9999,
    [get_latest_payouts] prints one line for each of them, numbered from 1
    in the provider's order, with the creation date and the identifier,
    and returns: no line is read from the user and no workbook is saved. *)
Theorem get_latest_payouts_no_prompt args n payouts typed w :
  a_poll_stripe args = Some n →
  n ≤ 0 →
  list_recent_payouts (Some n) = Ok payouts →
  Forall (λ payout, representable (p_created payout)) payouts →
  get_latest_payouts list_payout_transactions list_checkout_sessions as_completed
    list_recent_payouts read_json_file py_repr args typed w
  = ({| stdout := stdout w ++ listing payouts; saved := saved w |}, Returned).
Proof.
  intros Hn Hle Hlist Hall. unfold get_latest_payouts. rewrite Hn, Hlist.
  rewrite (print_payouts_listing payouts 1 w Hall).
  by destruct (Z.ltb_spec 0 n); [lia|].
Qed.
End LoopFacts.

Lemma sample_rejected : Forall (rejected 3) [NotANumber; Number 7; Number (-1)].
Proof.
  apply Forall_cons; split; [exact I|].
  apply Forall_cons; split; [split; [lia | left; lia]|].
  apply Forall_cons; split; [split; [lia | right; lia]|].
  apply Forall_nil_2.
Qed.

Lemma prompt_loop_unlisted_choice_witness :
  (prompt_loop sample_ledger sample_sessions reverse sample_files sample_repr
     3 sample_payouts sample_args
     ([NotANumber; Number 7; Number (-1)] ++ [Number 3; Number 1]) empty_world).2
  = Raised IndexError.
Proof.
  apply (prompt_loop_unlisted_choice sample_ledger sample_sessions reverse
           sample_files sample_repr 3 sample_payouts sample_args
           [NotANumber; Number 7; Number (-1)] 3 [Number 1] empty_world).
  - exact sample_rejected.
  - simpl; lia.
Defined.

Lemma prompt_loop_zero_exits_witness :
  ∃ w', prompt_loop sample_ledger sample_sessions reverse sample_files sample_repr
          3 sample_payouts sample_args
          ([NotANumber; Number 7; Number (-1)] ++ [Number 0; Number 1]) empty_world
        = (w', Returned)
      ∧ saved w' = saved empty_world.
Proof.
  apply (prompt_loop_zero_exits sample_ledger sample_sessions reverse
           sample_files sample_repr 3 sample_payouts sample_args
           [NotANumber; Number 7; Number (-1)] [Number 1] empty_world).
  exact sample_rejected.
Defined.


Lemma get_latest_payouts_no_prompt_witness :
  get_latest_payouts sample_ledger sample_sessions reverse sample_recent_payouts
    sample_files sample_repr
    {| a_poll_stripe := Some 0; a_payout := None; a_json := None;
       a_print_json := false; a_save_to_excel := true; a_output_name := None |}
    [Number 1] empty_world
  = ({| stdout := stdout empty_world ++ listing sample_payouts;
        saved := saved empty_world |}, Returned).
Proof.
  apply (get_latest_payouts_no_prompt sample_ledger sample_sessions reverse
           sample_recent_payouts sample_files sample_repr _ 0 sample_payouts).
  - reflexivity.
  - lia.
  - reflexivity.
  - repeat (apply Forall_cons; split; [by vm_compute|]). apply Forall_nil_2.
Defined.

(** The two lines listed for [sample_payouts]. *)
Lemma sample_listing :
  listing sample_payouts
  = [ Line "1. Created: 2023-11-14, ID: po_1";
      Line "2. Created: 2023-11-13, ID: po_0" ].
Proof. by vm_compute. Qed.
